(** * aland-website: order engine, auth gateway and rate limiter

    A shallow embedding of the request handlers of the store
    (netlify/functions/*.js, their shared utils.js, and the Express
    server), followed by the properties of the specification that were
    checked against them.

    Conventions of the embedding:
    - JavaScript numbers that are ids, stocks, prices and millisecond
      timestamps are [Z]. The numbers of a request body and the amounts
      computed from them are exact rationals [Q]: the rounding of doubles,
      their overflow and their underflow are not modelled. [parseInt] of a
      number reads the text that JavaScript prints for it.
    - JavaScript strings are [string] (bytes); [toLowerCase], [trim] and
      [String.length] are those of JavaScript on ASCII strings.
    - A parsed request body is a [Js.value] where a handler is modelled on
      every body (orders-create.js, login.js), with the conversions that
      JavaScript applies to its fields. The other handlers are modelled on
      the bodies that the pages of the shop send, whose texts are strings
      and whose numbers are whole.
    - The records of [MockDB] hold strings and numbers. An order that the
      code stores with a [NaN] or with a field of another type is outside
      them: [OrdersCreate.Beyond].
    - [Date.now()] and the process environment are explicit arguments.
    - The module-level [mockDB] and [rateLimitStore] objects are threaded
      through every handler as explicit state.
    - ISO timestamps ([new Date().toISOString()]) are kept as the
      millisecond count they print. *)

From Stdlib Require Import ZArith QArith String Ascii List Bool Lia Sorted.
From stdpp Require Import base option list strings gmap pretty.

Local Open Scope string_scope.
Local Open Scope Z_scope.

(** ** JavaScript string primitives used by the handlers *)

Module JsString.

Definition lower_ascii (c : ascii) : ascii :=
  let n := nat_of_ascii c in
  if (Nat.leb 65 n && Nat.leb n 90)%bool then ascii_of_nat (n + 32) else c.

(** [String.prototype.toLowerCase] *)
Fixpoint toLowerCase (s : string) : string :=
  match s with
  | EmptyString => EmptyString
  | String c r => String (lower_ascii c) (toLowerCase r)
  end.

(** White space as [trim] sees it: TAB, LF, VT, FF, CR and SPACE. *)
Definition is_space (c : ascii) : bool :=
  let n := nat_of_ascii c in
  (Nat.leb 9 n && Nat.leb n 13)%bool || Nat.eqb n 32.

Fixpoint trimStart (s : string) : string :=
  match s with
  | EmptyString => EmptyString
  | String c r => if is_space c then trimStart r else s
  end.

Fixpoint trimEnd (s : string) : string :=
  match s with
  | EmptyString => EmptyString
  | String c r =>
      match trimEnd r with
      | EmptyString => if is_space c then EmptyString else String c EmptyString
      | r' => String c r'
      end
  end.

(** [String.prototype.trim] *)
Definition trim (s : string) : string := trimEnd (trimStart s).

(** The character class of the regular expression in [sanitizeInput]:
    less-than, greater-than, double quote and single quote. *)
Definition is_markup (c : ascii) : bool :=
  let n := nat_of_ascii c in
  Nat.eqb n 60 || Nat.eqb n 62 || Nat.eqb n 34 || Nat.eqb n 39.

(** Global replacement of that class by the empty string. *)
Fixpoint stripMarkup (s : string) : string :=
  match s with
  | EmptyString => EmptyString
  | String c r => if is_markup c then stripMarkup r else String c (stripMarkup r)
  end.

Fixpoint drop (n : nat) (s : string) : string :=
  match n, s with
  | O, _ => s
  | S _, EmptyString => EmptyString
  | S m, String _ r => drop m r
  end.

(** [s.startsWith(p)] *)
Definition startsWith (p s : string) : bool := String.prefix p s.

(** [s.includes(p)] *)
Fixpoint includes (p s : string) : bool :=
  if String.prefix p s then true
  else match s with
       | EmptyString => false
       | String _ r => includes p r
       end.

(** [s.replace(p, '')] with a string pattern: only the first occurrence
    of [p] is removed. *)
Fixpoint removeFirst (p s : string) : string :=
  if String.prefix p s then drop (String.length p) s
  else match s with
       | EmptyString => EmptyString
       | String c r => String c (removeFirst p r)
       end.

(** A string of ASCII characters. On such a string [toLowerCase], [trim]
    and [String.length] are those of JavaScript. Beyond ASCII they are
    not: JavaScript lower-cases every cased letter, trims the white space
    of Unicode as well, and counts UTF-16 units where [String.length]
    counts bytes. *)
Fixpoint isAscii (s : string) : bool :=
  match s with
  | EmptyString => true
  | String c r => Nat.ltb (nat_of_ascii c) 128 && isAscii r
  end.

(** The double quote, for the messages that quote a name. *)
Definition dq : string := String (ascii_of_nat 34) EmptyString.

(** Truthiness of a string: only the empty string is falsy. *)
Definition nonempty (s : string) : bool := negb (String.eqb s "").

(** [a || b] on possibly absent strings: the first truthy operand. *)
Definition or_else (a : option string) (b : option string) : option string :=
  match a with
  | Some s => if nonempty s then a else b
  | None => b
  end.

End JsString.
Import JsString.

(** ** JavaScript conversions between strings and numbers *)

Module JsText.

(** The value of a character as a digit: 0-9, then a-z and A-Z for 10-35. *)
Definition digitValue (c : ascii) : option Z :=
  let n := nat_of_ascii c in
  if (Nat.leb 48 n && Nat.leb n 57)%bool then Some (Z.of_nat n - 48)
  else if (Nat.leb 97 n && Nat.leb n 122)%bool then Some (Z.of_nat n - 87)
  else if (Nat.leb 65 n && Nat.leb n 90)%bool then Some (Z.of_nat n - 55)
  else None.

(** The value of the longest prefix of [s] made of digits of the radix,
    after [acc]; [None] when [seen] is false and there is no such digit. *)
Fixpoint digits (radix : Z) (s : string) (acc : Z) (seen : bool) : option Z :=
  let stop := if seen then Some acc else None in
  match s with
  | EmptyString => stop
  | String c r =>
      match digitValue c with
      | Some d => if d <? radix then digits radix r (acc * radix + d) true else stop
      | None => stop
      end
  end.

(** [parseInt(s)] on a string, without a radix argument: leading white
    space is skipped, a sign is read, [0x] or [0X] selects radix 16, and
    the longest run of digits is the value; [None] is [NaN]. The value is
    the exact one, which is the value in JavaScript as long as it is below
    2^53 in size. *)
Definition parseInt (s : string) : option Z :=
  let s1 := trimStart s in
  let minus := match s1 with
               | String c _ => Nat.eqb (nat_of_ascii c) 45
               | EmptyString => false
               end in
  let plus := match s1 with
              | String c _ => Nat.eqb (nat_of_ascii c) 43
              | EmptyString => false
              end in
  let s2 := if (minus || plus)%bool then drop 1 s1 else s1 in
  let hex := (String.prefix "0x" s2 || String.prefix "0X" s2)%bool in
  let radix := if hex then 16 else 10 in
  let s3 := if hex then drop 2 s2 else s2 in
  match digits radix s3 0 false with
  | Some n => Some (if minus then - n else n)
  | None => None
  end.

(** [s.split(sep)] for a separator of one character. *)
Fixpoint split (sep : ascii) (s : string) : list string :=
  match s with
  | EmptyString => [EmptyString]
  | String c r =>
      if Ascii.eqb c sep then EmptyString :: split sep r
      else match split sep r with
           | seg :: segs => String c seg :: segs
           | [] => [String c EmptyString]
           end
  end.

(** [segments[segments.length - 1]] of [s.split('/')] *)
Definition lastSegment (s : string) : string :=
  List.last (split "/"%char s) EmptyString.

End JsText.

(** ** JavaScript numbers that need not be whole *)

Module JsNumber.

(** Truthiness of a number: only zero is falsy. *)
Definition truthy (q : Q) : bool := negb (Qeq_bool q 0).

(** [a < b] and [a <= b] *)
Definition ltb (a b : Q) : bool := negb (Qle_bool b a).
Definition leb (a b : Q) : bool := Qle_bool a b.

Fixpoint zeros (n : nat) : string :=
  match n with
  | O => EmptyString
  | S m => String "0" (zeros m)
  end.

(** A run of digits without the zeros at its end. *)
Fixpoint stripZeros (s : string) : string :=
  match s with
  | EmptyString => EmptyString
  | String c r =>
      match stripZeros r with
      | EmptyString => if Ascii.eqb c "0" then EmptyString else String c EmptyString
      | r' => String c r'
      end
  end.

(** The largest [e] with [10^e <= m], counted up from [e] with [p = 10^e]. *)
Fixpoint magnitude (fuel : nat) (m e p : Z) : Z :=
  match fuel with
  | O => e
  | S f => if p * 10 <=? m then magnitude f m (e + 1) (p * 10) else e
  end.

(** The exponent [e] with [10^e <= a/d < 10^(e+1)], for positive [a] and
    [d]: the number of digits before the point, less one, or minus the
    number of places after which the first digit stands. *)
Definition exponent10 (a d : Z) : Z :=
  if d <=? a then magnitude (S (Z.to_nat (Z.log2 (a / d)))) (a / d) 0 1
  else - (magnitude (S (Z.to_nat (Z.log2 ((d - 1) / a)))) ((d - 1) / a) 0 1 + 1).

(** The first 17 significant digits of [a/d], as a whole number. *)
Definition significand (a d e : Z) : Z :=
  if 0 <=? 16 - e then (a * 10 ^ (16 - e)) / d else a / (d * 10 ^ (e - 16)).

(** The digits [ds] with the point after the [n]-th of them, as
    [Number::toString] writes them: in full up to 21 digits before the
    point and down to 6 zeros after it, with an exponent otherwise. *)
Definition render (ds : string) (n : Z) : string :=
  let k := Z.of_nat (String.length ds) in
  if ((k <=? n) && (n <=? 21))%bool then ds ++ zeros (Z.to_nat (n - k))
  else if ((0 <? n) && (n <=? 21))%bool
  then String.substring 0 (Z.to_nat n) ds ++ "." ++ drop (Z.to_nat n) ds
  else if ((-6 <? n) && (n <=? 0))%bool then "0." ++ zeros (Z.to_nat (- n)) ++ ds
  else (if k =? 1 then ds else String.substring 0 1 ds ++ "." ++ drop 1 ds)
       ++ "e" ++ (if 0 <=? n - 1 then "+" else "-") ++ pretty (Z.abs (n - 1)).

(** [String(q)], the text of a number in a template string and in
    [parseInt]: a whole number below 10^21 in size prints its digits;
    any other number prints its significant digits, up to 17 of them,
    in positional notation from 10^-6 up to 10^21 and with an exponent
    beyond. The digits are those of the exact value. *)
Definition show (q : Q) : string :=
  let n := Qnum q in
  let d := Z.pos (Qden q) in
  if n =? 0 then "0"
  else if ((n mod d =? 0) && (Z.abs (n / d) <? 10 ^ 21))%bool then pretty (n / d)
  else
    let a := Z.abs n in
    let e := exponent10 a d in
    (if n <? 0 then "-" else "")
    ++ render (stripZeros (pretty (significand a d e))) (e + 1).

(** [parseInt(q)] on a number: [parseInt] converts its argument to a
    string and reads the whole number at its head, so that
    [parseInt(2.5)] is 2 and [parseInt(1e21)], which prints as [1e+21],
    is 1. [None] is [NaN]. *)
Definition parseInt (q : Q) : option Z := JsText.parseInt (show q).

End JsNumber.

(** [sanitizeInput] of utils.js (and of the Express server), on strings. *)
Definition sanitizeInput (input : string) : string := stripMarkup (trim input).

(** ** JavaScript values of a parsed request body *)

(** What [JSON.parse] returns, with [undefined] for what a property
    read finds missing. Numbers are the exact values of their numerals. *)
Module Js.

#[local] Unset Elimination Schemes.
Inductive value :=
| Undefined
| Null
| Bool (b : bool)
| Num (q : Q)
| Str (s : string)
| Arr (elements : list value)
| Obj (fields : list (string * value)).
#[local] Set Elimination Schemes.

(** A number that a conversion produces. *)
Inductive number :=
| Fin (q : Q)
| NaN
| Inf (negative : bool).

Definition truthy (v : value) : bool :=
  match v with
  | Undefined | Null => false
  | Bool b => b
  | Num q => JsNumber.truthy q
  | Str s => nonempty s
  | Arr _ | Obj _ => true
  end.

(** The value of a key of a parsed object: of a key that the text
    repeats, the last one. *)
Fixpoint lookup (k : string) (fields : list (string * value)) : option value :=
  match fields with
  | [] => None
  | (k', v) :: r =>
      match lookup k r with
      | Some w => Some w
      | None => if String.eqb k k' then Some v else None
      end
  end.

Definition hasKey (k : string) (fields : list (string * value)) : bool :=
  existsb (fun kv => String.eqb k (fst kv)) fields.

(** Property read [v.k], for the names that the handlers read (none of
    them an index, none of them a name of a prototype but [length]): a
    [TypeError] ([None]) on [undefined] and [null]; the field of an
    object; the length of an array and of a string; [undefined]
    otherwise. *)
Definition getProp (k : string) (v : value) : option value :=
  match v with
  | Undefined | Null => None
  | Obj fields => Some (default Undefined (lookup k fields))
  | Arr elements =>
      Some (if String.eqb k "length" then Num (inject_Z (Z.of_nat (length elements)))
            else Undefined)
  | Str s =>
      Some (if String.eqb k "length" then Num (inject_Z (Z.of_nat (String.length s)))
            else Undefined)
  | Num _ | Bool _ => Some Undefined
  end.

Definition isArray (v : value) : bool :=
  match v with Arr _ => true | _ => false end.

(** [String(v)]: the text of a value in a template string, in [parseInt]
    and in [RegExp.test]. An array prints its elements between commas,
    [null] as nothing; an object prints as [[object Object]], unless it
    has a key [toString], which hides the method of that name: the
    conversion then throws a [TypeError] ([None]). *)
Fixpoint toString (v : value) : option string :=
  match v with
  | Undefined => Some "undefined"
  | Null => Some "null"
  | Bool b => Some (if b then "true" else "false")
  | Num q => Some (JsNumber.show q)
  | Str s => Some s
  | Arr elements =>
      (fix join (l : list value) : option string :=
         match l with
         | [] => Some ""
         | e :: r =>
             match (match e with
                    | Undefined | Null => Some ""
                    | _ => toString e
                    end), r with
             | None, _ => None
             | Some s, [] => Some s
             | Some s, _ :: _ =>
                 match join r with
                 | Some t => Some (s ++ "," ++ t)
                 | None => None
                 end
             end
         end) elements
  | Obj fields => if hasKey "toString" fields then None else Some "[object Object]"
  end.

(** The digits of [s] in the radix, all of them: [None] when [s] is
    empty or holds anything else. *)
Fixpoint allDigits (radix : Z) (s : string) (acc : Z) (seen : bool) : option Z :=
  match s with
  | EmptyString => if seen then Some acc else None
  | String c r =>
      match JsText.digitValue c with
      | Some d => if d <? radix then allDigits radix r (acc * radix + d) true else None
      | None => None
      end
  end.

(** The decimal digits at the head of [s] and what follows them. *)
Fixpoint spanDigits (s : string) : string * string :=
  match s with
  | EmptyString => (EmptyString, EmptyString)
  | String c r =>
      let n := nat_of_ascii c in
      if (Nat.leb 48 n && Nat.leb n 57)%bool
      then let '(ds, rest) := spanDigits r in (String c ds, rest)
      else (EmptyString, s)
  end.

(** [m * 10^e] *)
Definition scaled (m e : Z) : Q :=
  if 0 <=? e then inject_Z (m * 10 ^ e) else Qmake m (Z.to_pos (10 ^ (- e))).

(** A decimal literal without sign: digits with an optional point and
    an optional exponent. *)
Definition unsignedDecimal (s : string) : option Q :=
  let '(whole, rest1) := spanDigits s in
  let '(fraction, rest2) :=
    match rest1 with
    | String "." r => spanDigits r
    | _ => (EmptyString, rest1)
    end in
  if (negb (nonempty whole) && negb (nonempty fraction))%bool then None
  else
    let mantissa := default 0 (allDigits 10 (whole ++ fraction) 0 false) in
    let places := Z.of_nat (String.length fraction) in
    match rest2 with
    | EmptyString => Some (scaled mantissa (- places))
    | String c r =>
        if (Ascii.eqb c "e" || Ascii.eqb c "E")%bool
        then
          let '(minus, digits) :=
            match r with
            | String "-" r' => (true, r')
            | String "+" r' => (false, r')
            | _ => (false, r)
            end in
          match allDigits 10 digits 0 false with
          | Some x => Some (scaled mantissa ((if minus then - x else x) - places))
          | None => None
          end
        else None
    end.

(** [Number(s)] on a string: white space around it is dropped; the
    empty string is 0; a literal in radix 16, 8 or 2 has no sign; a
    decimal literal may have one, and [Infinity] is one. Anything else is
    [NaN]. *)
Definition stringToNumber (s : string) : number :=
  let t := trim s in
  if negb (nonempty t) then Fin 0
  else
    let radix :=
      if (String.prefix "0x" t || String.prefix "0X" t)%bool then Some 16
      else if (String.prefix "0o" t || String.prefix "0O" t)%bool then Some 8
      else if (String.prefix "0b" t || String.prefix "0B" t)%bool then Some 2
      else None in
    match radix with
    | Some r =>
        match allDigits r (drop 2 t) 0 false with
        | Some z => Fin (inject_Z z)
        | None => NaN
        end
    | None =>
        let '(minus, body) :=
          match t with
          | String "-" r => (true, r)
          | String "+" r => (false, r)
          | _ => (false, t)
          end in
        if String.eqb body "Infinity" then Inf minus
        else match unsignedDecimal body with
             | Some q => Fin (if minus then (- q)%Q else q)
             | None => NaN
             end
    end.

(** [Number(v)], the conversion that [<], [<=], [>] and [*] apply to an
    operand when the other one is a number. An array and an object go
    through their text, and throw when that throws. *)
Definition toNumber (v : value) : option number :=
  match v with
  | Undefined => Some NaN
  | Null => Some (Fin 0)
  | Bool b => Some (Fin (if b then 1 else 0))
  | Num q => Some (Fin q)
  | Str s => Some (stringToNumber s)
  | Arr _ | Obj _ => option_map stringToNumber (toString v)
  end.

(** [a < b] on numbers: false when either is [NaN]. *)
Definition lt (a b : number) : bool :=
  match a, b with
  | NaN, _ | _, NaN => false
  | Fin x, Fin y => JsNumber.ltb x y
  | Fin _, Inf negative => negb negative
  | Inf negative, Fin _ => negative
  | Inf n1, Inf n2 => n1 && negb n2
  end.

(** [a <= b]: false when either is [NaN], and [b < a] negated otherwise. *)
Definition le (a b : number) : bool :=
  match a, b with
  | NaN, _ | _, NaN => false
  | _, _ => negb (lt b a)
  end.

(** [a * b] *)
Definition mul (a b : number) : number :=
  match a, b with
  | NaN, _ | _, NaN => NaN
  | Fin x, Fin y => Fin (x * y)
  | Fin x, Inf negative | Inf negative, Fin x =>
      if Qeq_bool x 0 then NaN else Inf (xorb negative (JsNumber.ltb x 0))
  | Inf n1, Inf n2 => Inf (xorb n1 n2)
  end.

(** [a + b] *)
Definition add (a b : number) : number :=
  match a, b with
  | NaN, _ | _, NaN => NaN
  | Fin x, Fin y => Fin (x + y)
  | Fin _, Inf negative | Inf negative, Fin _ => Inf negative
  | Inf n1, Inf n2 => if Bool.eqb n1 n2 then Inf n1 else NaN
  end.

(** [parseInt(v)]: the whole number at the head of the text of [v]; the
    inner [None] is [NaN], the outer one a [TypeError]. *)
Definition parseInt (v : value) : option (option Z) :=
  option_map JsText.parseInt (toString v).

(** [sanitizeInput] of utils.js on any value: only a string is changed. *)
Definition sanitize (input : value) : value :=
  match input with
  | Str s => Str (sanitizeInput s)
  | _ => input
  end.

End Js.

(** ** Responses *)

(** What [createResponse]/[createErrorResponse] put in a response: the
    status, the [message] of the JSON body and its optional [code]. The
    fixed security headers and the echoed payload of a success are not
    part of the record. *)
Record Response := mkResponse {
  statusCode : Z;
  message : string;
  code : option string
}.

Definition createErrorResponse (status : Z) (msg : string) (c : option string) : Response :=
  mkResponse status msg (match c with
                         | Some s => if nonempty s then Some s else None
                         | None => None
                         end).

Definition createResponse (status : Z) (msg : string) : Response :=
  mkResponse status msg None.

(** ** JavaScript values for decoded tokens *)

(** The objects that [verifyToken] hands back are read by property name
    ([decoded.success], [decoded.payload.id], [decoded.iat]); they are kept
    as JSON-like values. *)
#[local] Set Warnings "-register-all".
Inductive JsVal :=
| JUndef
| JNull
| JBool (b : bool)
| JNum (z : Z)
| JStr (s : string)
| JObj (fields : list (string * JsVal)).

Definition truthy (v : JsVal) : bool :=
  match v with
  | JUndef | JNull => false
  | JBool b => b
  | JNum z => negb (z =? 0)
  | JStr s => nonempty s
  | JObj _ => true
  end.

Fixpoint assoc (k : string) (fields : list (string * JsVal)) : JsVal :=
  match fields with
  | [] => JUndef
  | (k', v) :: r => if String.eqb k k' then v else assoc k r
  end.

(** Property read [v.k]: a [TypeError] ([None]) on [undefined] and
    [null], [undefined] on the other primitives. *)
Definition getField (k : string) (v : JsVal) : option JsVal :=
  match v with
  | JUndef | JNull => None
  | JObj fields => Some (assoc k fields)
  | _ => Some JUndef
  end.

(** ** jsonwebtoken *)

(** What [jwt.verify(token, JWT_SECRET)] does: it returns the decoded
    claims, or throws one of its errors. The library is outside the
    repository; the handlers are parametrised by it. Its first argument
    is the clock it reads. *)
Inductive JwtResult :=
| JwtOk (decoded : JsVal)
| TokenExpiredError
| JsonWebTokenError
| OtherError.

(** ** utils.js: rate limiter and token check *)

Module Utils.

(** The bypass test at the head of [checkRateLimit]. [devEnv] is
    [process.env.NODE_ENV === 'development' || process.env.NETLIFY_DEV === 'true']. *)
Definition isDevelopment (devEnv : bool) (clientIP : string) : bool :=
  devEnv
  || String.eqb clientIP "localhost"
  || String.eqb clientIP "127.0.0.1"
  || String.eqb clientIP "::1"
  || includes "netlify" clientIP.

Definition rateKey (clientIP endpoint : string) : string :=
  clientIP ++ ":" ++ endpoint.

(** The part of [checkRateLimit] after the bypass: the sliding window
    over the recorded timestamps of one key. *)
Definition slidingWindow (now : Z) (key : string) (maxRequests windowMs : Z)
    (store : gmap string (list Z)) : bool * gmap string (list Z) :=
  let windowStart := now - windowMs in
  let store1 := match store !! key with
                | Some _ => store
                | None => <[key := []]> store
                end in
  let requests := default [] (store1 !! key) in
  let validRequests := List.filter (fun timestamp => windowStart <? timestamp) requests in
  if maxRequests <=? Z.of_nat (length validRequests) then (false, store1)
  else (true, <[key := (validRequests ++ [now])%list]> store1).

Definition checkRateLimit (devEnv : bool) (now : Z) (clientIP endpoint : string)
    (maxRequests windowMs : Z) (store : gmap string (list Z))
    : bool * gmap string (list Z) :=
  if isDevelopment devEnv clientIP then (true, store)
  else slidingWindow now (rateKey clientIP endpoint) maxRequests windowMs store.

(** [verifyToken] of utils.js. Every failure, the ones it raises itself
    and the ones of [jwt.verify], leaves as the one exception
    [Token verification failed]: [None]. *)
Definition verifyToken (jwt_verify : Z -> string -> JwtResult)
    (now : Z) (token : string) : option JsVal :=
  if (negb (nonempty token) || negb (startsWith "Bearer " token))%bool then None
  else
    let actualToken := trim (removeFirst "Bearer " token) in
    match jwt_verify now actualToken with
    | JwtOk decoded =>
        match getField "id" decoded, getField "email" decoded with
        | Some i, Some e =>
            if (negb (truthy i) || negb (truthy e))%bool then None else Some decoded
        | _, _ => None
        end
    | _ => None
    end.

End Utils.

(** The second copy of utils.js in the repository: the same limiter
    without the development bypass. Its [verifyToken] is the one above,
    word for word. *)
Module UtilsBase.

Definition checkRateLimit (now : Z) (clientIP endpoint : string)
    (maxRequests windowMs : Z) (store : gmap string (list Z))
    : bool * gmap string (list Z) :=
  let key := clientIP ++ ":" ++ endpoint in
  let windowStart := now - windowMs in
  let store1 := match store !! key with
                | Some _ => store
                | None => <[key := []]> store
                end in
  let requests := default [] (store1 !! key) in
  let validRequests := List.filter (fun timestamp => windowStart <? timestamp) requests in
  if maxRequests <=? Z.of_nat (length validRequests) then (false, store1)
  else (true, <[key := (validRequests ++ [now])%list]> store1).

End UtilsBase.

(** ** The mock database *)

Module User.
Record t := mk {
  id : Z;
  username : string;
  email : string;
  password : string;
  fullName : string;
  role : string;
  createdAt : Z;
  lastLogin : option Z;
  isActive : option bool
}.
End User.

(** A product. [isActive] is absent on the seeded products and set by
    products-create.js. The [featured], rating and timestamp fields, which
    no modelled handler reads, are left out. *)
Module Product.
Record t := mk {
  id : Z;
  name : string;
  description : string;
  price : Z;
  category : string;
  image : string;
  stock : Z;
  isActive : option bool
}.

Definition withStock (p : t) (s : Z) : t :=
  mk (id p) (name p) (description p) (price p) (category p) (image p) s (isActive p).
End Product.

Inductive OrderStatus :=
| Pending | Confirmed | Processing | Shipped | Delivered | Cancelled.

#[global] Instance OrderStatus_eq_dec : EqDecision OrderStatus.
Proof. solve_decision. Defined.

Inductive PaymentStatus :=
| PayPending | Paid | Failed | Refunded.

Module OrderItem.
Record t := mk {
  productId : Z;
  productName : string;
  productImage : string;
  price : Z;
  quantity : Z;
  subtotal : Q
}.
End OrderItem.

Module Address.
Record t := mk {
  fullName : string;
  address : string;
  city : string;
  postalCode : string;
  phone : string
}.
End Address.

Module Order.
Record t := mk {
  id : Z;
  userId : JsVal;
  orderNumber : string;
  items : list OrderItem.t;
  shippingAddress : Address.t;
  paymentMethod : string;
  notes : string;
  status : OrderStatus;
  subtotal : Q;
  shippingCost : Q;
  totalAmount : Q;
  createdAt : Z;
  updatedAt : Z;
  estimatedDelivery : option Z;
  trackingNumber : option string;
  paymentStatus : PaymentStatus;
  adminNotes : option string
}.
End Order.

Record MockDB := mkDB {
  users : list User.t;
  products : list Product.t;
  orders : list Order.t
}.

(** [xs.find(p => p.id === pid)] followed by an in-place change of the
    object found: the first product with that id is changed, and nothing
    happens when there is none. *)
Fixpoint updateFirst (pid : Z) (f : Product.t -> Product.t) (ps : list Product.t)
    : list Product.t :=
  match ps with
  | [] => []
  | p :: r => if Product.id p =? pid then f p :: r else p :: updateFirst pid f r
  end.

Definition findProduct (pid : Z) (ps : list Product.t) : option Product.t :=
  List.find (fun p => Product.id p =? pid) ps.

(** The environment of one invocation. *)
Record Env := mkEnv {
  now : Z;          (* Date.now() *)
  devEnv : bool;    (* NODE_ENV is development, or NETLIFY_DEV is true *)
  rand : string     (* Math.random().toString(36).substr(2, 5).toUpperCase() *)
}.

Record Headers := mkHeaders {
  client_ip : option string;
  x_forwarded_for : option string;
  authorization : option string
}.

(** A Netlify event. [body] is the result of [JSON.parse(event.body)],
    [None] when it throws. *)
Record Event (B : Type) := mkEvent {
  httpMethod : string;
  headers : Headers;
  path : string;
  body : option B
}.
Arguments mkEvent {B}.
Arguments httpMethod {B}.
Arguments headers {B}.
Arguments path {B}.
Arguments body {B}.

Record Server := mkServer {
  mockDB : MockDB;
  rateLimitStore : gmap string (list Z)
}.

Definition clientIP {B} (event : Event B) : string :=
  default "unknown"
    (or_else (client_ip (headers event))
       (or_else (x_forwarded_for (headers event)) (Some "unknown"))).

(** [handleCORS]: the preflight answer, an empty body with status 200. *)
Definition handleCORS {B} (event : Event B) : option Response :=
  if String.eqb (httpMethod event) "OPTIONS" then Some (mkResponse 200 "" None) else None.

(** ** orders-create.js *)

Module OrdersCreate.

Definition bad (msg : string) : Response := createErrorResponse 400 msg None.

Definition serverError : Response :=
  createErrorResponse 500 "Internal server error during order creation"
    (Some "ORDER_CREATE_ERROR").

Definition allowedPaymentMethods : list string :=
  ["credit_card"; "debit_card"; "bank_transfer"; "e_wallet"; "cash_on_delivery"].

(** [mockDB.products.find(p => p.id === parseInt(productId))], given the
    text of [productId]: [NaN] is the id of no product. *)
Definition findByText (idText : string) (ps : list Product.t) : option Product.t :=
  match JsText.parseInt idText with
  | Some n => findProduct n ps
  | None => None
  end.

(** *** The handler on any parsed body *)

(** An item as the loop pushes it on [processedItems]: the product
    found, [parseInt(quantity)] ([None] when it is [NaN]) and the
    subtotal [product.price * quantity]. *)
Record Pushed := mkPushed {
  found : Product.t;
  parsedQuantity : option Z;
  lineTotal : Js.number
}.

(** The body of the loop over the cart, on one element of [items]. A
    conversion that throws ends in the [catch] of the handler, as the
    destructuring of [null] does: [inl serverError]. *)
Definition checkLine (ps : list Product.t) (item : Js.value) : Response + Pushed :=
  match Js.getProp "productId" item, Js.getProp "quantity" item with
  | Some productId, Some quantity =>
      if (negb (Js.truthy productId) || negb (Js.truthy quantity))%bool
      then inl (bad "Invalid item: productId and positive quantity required")
      else
        match Js.toNumber quantity, Js.toString quantity, Js.toString productId with
        | Some asked, Some quantityText, Some idText =>
            if Js.le asked (Js.Fin 0)
            then inl (bad "Invalid item: productId and positive quantity required")
            else
              match findByText idText ps with
              | None => inl (bad ("Product with ID " ++ idText ++ " not found"))
              | Some product =>
                  if negb (default false (Product.isActive product))
                  then inl (bad ("Product " ++ dq ++ Product.name product ++ dq
                                 ++ " is not available"))
                  else if Js.lt (Js.Fin (inject_Z (Product.stock product))) asked
                  then inl (bad ("Insufficient stock for product " ++ dq
                                 ++ Product.name product ++ dq ++ ". Available: "
                                 ++ JsNumber.show (inject_Z (Product.stock product))
                                 ++ ", Requested: " ++ quantityText))
                  else
                    inr (mkPushed product (JsText.parseInt quantityText)
                           (Js.mul (Js.Fin (inject_Z (Product.price product))) asked))
              end
        | _, _, _ => inl serverError
        end
  | _, _ => inl serverError
  end.

(** The first loop of the handler, with its two accumulators. *)
Fixpoint checkItems (ps : list Product.t) (cart : list Js.value)
    (processedItems : list Pushed) (totalAmount : Js.number)
    : Response + (list Pushed * Js.number) :=
  match cart with
  | [] => inr (processedItems, totalAmount)
  | item :: rest =>
      match checkLine ps item with
      | inl err => inl err
      | inr it =>
          checkItems ps rest (processedItems ++ [it])%list
            (Js.add totalAmount (lineTotal it))
      end
  end.

(** [x.length < lo || x.length > hi] on a sanitized field; [None] when
    the comparison throws. *)
Definition lengthOutsideOf (lo hi : Z) (x : Js.value) : option bool :=
  match Js.getProp "length" x with
  | Some len =>
      match Js.toNumber len with
      | Some n => Some (Js.lt n (Js.Fin (inject_Z lo)) || Js.lt (Js.Fin (inject_Z hi)) n)%bool
      | None => None
      end
  | None => None
  end.

(** The order item that a pushed item is, when its numbers are numbers. *)
Definition orderItem (it : Pushed) : option OrderItem.t :=
  match parsedQuantity it, lineTotal it with
  | Some n, Js.Fin subtotal =>
      Some (OrderItem.mk (Product.id (found it)) (Product.name (found it))
              (Product.image (found it)) (Product.price (found it)) n subtotal)
  | _, _ => None
  end.

Fixpoint orderItems (its : list Pushed) : option (list OrderItem.t) :=
  match its with
  | [] => Some []
  | it :: rest =>
      match orderItem it, orderItems rest with
      | Some o, Some os => Some (o :: os)
      | _, _ => None
      end
  end.

Definition text (v : Js.value) : option string :=
  match v with
  | Js.Str s => Some s
  | _ => None
  end.

(** The second loop: [product.stock -= item.quantity] on the product
    found for each processed item. *)
Definition updateStocks (processedItems : list OrderItem.t) (ps : list Product.t)
    : list Product.t :=
  fold_left
    (fun ps item =>
       updateFirst (OrderItem.productId item)
         (fun product =>
            Product.withStock product (Product.stock product - OrderItem.quantity item))
         ps)
    processedItems ps.

(** What the handler leaves: a response and the database after it
    ([Done]), or the 201 of an order that the records of [MockDB] do not
    hold ([Beyond]): one with a quantity or an amount that is [NaN], which
    the stock loop then writes into the catalogue, or with an address
    field or notes that are not strings. *)
Inductive Outcome :=
| Done (r : Response) (db : MockDB)
| Beyond (r : Response).

(** The handler from the destructuring of the parsed body to the 201
    response, on any parsed body. [decoded] is what [verifyToken]
    returned. Every exception is caught by the handler and answered 500;
    none is thrown after the first write. *)
Definition createOrderOfBody (env : Env) (decoded : JsVal) (body : Js.value) (db : MockDB)
    : Outcome :=
  match Js.getProp "items" body, Js.getProp "shippingAddress" body,
        Js.getProp "paymentMethod" body, Js.getProp "notes" body with
  | Some items, Some shippingAddress, Some paymentMethod, Some notes =>
  match items with
  | Js.Arr ((_ :: _) as cart) =>
  if negb (Js.truthy shippingAddress)
  then Done (bad "Shipping address is required") db
  else if negb (Js.truthy paymentMethod)
  then Done (bad "Payment method is required") db
  else
  match Js.getProp "fullName" shippingAddress, Js.getProp "address" shippingAddress,
        Js.getProp "city" shippingAddress, Js.getProp "postalCode" shippingAddress,
        Js.getProp "phone" shippingAddress with
  | Some fullName, Some address, Some city, Some postalCode, Some phone =>
  if (negb (Js.truthy fullName) || negb (Js.truthy address) || negb (Js.truthy city)
      || negb (Js.truthy postalCode) || negb (Js.truthy phone))%bool
  then Done (bad "Complete shipping address required (fullName, address, city, postalCode, phone)") db
  else
    let fullName' := Js.sanitize fullName in
    let address' := Js.sanitize address in
    let city' := Js.sanitize city in
    let postalCode' := Js.sanitize postalCode in
    let phone' := Js.sanitize phone in
    match lengthOutsideOf 2 100 fullName' with
    | None => Done serverError db
    | Some true => Done (bad "Full name must be between 2-100 characters") db
    | Some false =>
    match lengthOutsideOf 5 200 address' with
    | None => Done serverError db
    | Some true => Done (bad "Address must be between 5-200 characters") db
    | Some false =>
    match lengthOutsideOf 2 50 city' with
    | None => Done serverError db
    | Some true => Done (bad "City must be between 2-50 characters") db
    | Some false =>
      if negb (match paymentMethod with
               | Js.Str method => existsb (String.eqb method) allowedPaymentMethods
               | _ => false
               end)
      then Done (bad "Invalid payment method") db
      else
        match checkItems (products db) cart [] (Js.Fin 0) with
        | inl err => Done err db
        | inr (processedItems, totalAmount) =>
            let shippingCost := if Js.lt (Js.Fin 100) totalAmount then 0%Q else 15%Q in
            let finalAmount := Js.add totalAmount (Js.Fin shippingCost) in
            match getField "payload" decoded with
            | None => Done serverError db
            | Some payload =>
            match getField "id" payload with
            | None => Done serverError db
            | Some uid =>
                let created := createResponse 201 "Order created successfully" in
                match orderItems processedItems, totalAmount, finalAmount,
                      text fullName', text address', text city', text postalCode',
                      text phone', text paymentMethod,
                      (if Js.truthy notes then text (Js.sanitize notes) else Some "")
                with
                | Some items', Js.Fin subtotal, Js.Fin total,
                  Some fullName'', Some address'', Some city'', Some postalCode'',
                  Some phone'', Some method, Some notes' =>
                    let newOrder :=
                      Order.mk (Z.of_nat (length (orders db)) + 1) uid
                        ("ORD-" ++ pretty (now env) ++ "-" ++ rand env)
                        items'
                        (Address.mk fullName'' address'' city'' postalCode'' phone'')
                        method notes'
                        Pending subtotal shippingCost total
                        (now env) (now env) (Some (now env + 7 * 24 * 60 * 60 * 1000))
                        None PayPending None in
                    Done created
                      (mkDB (users db) (updateStocks items' (products db))
                         (orders db ++ [newOrder])%list)
                | _, _, _, _, _, _, _, _, _, _ => Beyond created
                end
            end
            end
        end
    end
    end
    end
  | _, _, _, _, _ => Done serverError db
  end
  | _ => Done (bad "Order items are required") db
  end
  | _, _, _, _ => Done serverError db
  end.

Definition strTruthy (v : option string) : bool :=
  match v with Some s => nonempty s | None => false end.

(** The whole handler. [verifyToken] is the function imported from
    utils.js; [None] stands for an exception it throws. The server that
    it leaves is [None] for an order that [MockDB] does not hold. *)
Definition handler (verifyToken : Z -> string -> option JsVal)
    (env : Env) (event : Event Js.value) (st : Server) : Response * option Server :=
  match handleCORS event with
  | Some r => (r, Some st)
  | None =>
  if negb (String.eqb (httpMethod event) "POST")
  then (createErrorResponse 405 "Method not allowed" None, Some st)
  else
    match Utils.checkRateLimit (devEnv env) (now env) (clientIP event)
            "order-create" 10 (60 * 60 * 1000) (rateLimitStore st) with
    | (false, store) =>
        (createErrorResponse 429 "Too many order attempts, please try again later." None,
         Some (mkServer (mockDB st) store))
    | (true, store) =>
        let st1 := mkServer (mockDB st) store in
        let token := option_map (removeFirst "Bearer ") (authorization (headers event)) in
        if negb (strTruthy token)
        then (createErrorResponse 401 "Access token required" (Some "TOKEN_REQUIRED"),
              Some st1)
        else
          match verifyToken (now env) (default "" token) with
          | None => (serverError, Some st1)
          | Some decoded =>
              match getField "success" decoded with
              | None => (serverError, Some st1)
              | Some ok =>
                  if negb (truthy ok)
                  then (createErrorResponse 401 "Invalid access token" (Some "INVALID_TOKEN"),
                        Some st1)
                  else
                    match body event with
                    | None => (bad "Invalid JSON body", Some st1)
                    | Some b =>
                        match createOrderOfBody env decoded b (mockDB st1) with
                        | Done r db => (r, Some (mkServer db store))
                        | Beyond r => (r, None)
                        end
                    end
              end
          end
    end
  end.

(** *** The handler on the body that the shop sends *)

(** A cart line whose fields are JSON numbers, absent when [undefined]:
    the id a whole number, the quantity any number. *)
Record CartLine := mkLine {
  productId : option Z;
  quantity : option Q
}.

(** A shipping address whose fields are strings. *)
Record AddressIn := mkAddressIn {
  fullName : option string;
  address : option string;
  city : option string;
  postalCode : option string;
  phone : option string
}.

(** The body that the shop sends: a cart of such lines, such an address,
    and strings for the payment method and the notes. On it every number
    that the handler stores is a number and every text a string. *)
Record Body := mkBody {
  items : option (list CartLine);
  shippingAddress : option AddressIn;
  paymentMethod : option string;
  notes : option string
}.

(** Truthiness of a possibly absent number. *)
Definition numTruthy (v : option Z) : bool :=
  match v with Some z => negb (z =? 0) | None => false end.
Definition qtyTruthy (v : option Q) : bool :=
  match v with Some q => JsNumber.truthy q | None => false end.

Definition lengthOutside (lo hi : nat) (s : string) : bool :=
  (Nat.ltb (String.length s) lo || Nat.ltb hi (String.length s))%bool.

(** The body of the loop over the cart: the checks of one line against
    the catalogue, then the item that is pushed on [processedItems]. The
    quantity that the item records is [parseInt(quantity)], which is a
    number for every number. *)
Definition processLine (ps : list Product.t) (item : CartLine)
    : Response + OrderItem.t :=
  if (negb (numTruthy (productId item)) || negb (qtyTruthy (quantity item))
      || JsNumber.leb (default 0%Q (quantity item)) 0)%bool
  then inl (bad "Invalid item: productId and positive quantity required")
  else
    let idText := JsNumber.show (inject_Z (default 0 (productId item))) in
    let qty := default 0%Q (quantity item) in
    match findByText idText ps with
    | None => inl (bad ("Product with ID " ++ idText ++ " not found"))
    | Some product =>
        if negb (default false (Product.isActive product))
        then inl (bad ("Product " ++ dq ++ Product.name product ++ dq ++ " is not available"))
        else if JsNumber.ltb (inject_Z (Product.stock product)) qty
        then inl (bad ("Insufficient stock for product " ++ dq ++ Product.name product
                       ++ dq ++ ". Available: "
                       ++ JsNumber.show (inject_Z (Product.stock product))
                       ++ ", Requested: " ++ JsNumber.show qty))
        else
          let itemTotal := (inject_Z (Product.price product) * qty)%Q in
          inr (OrderItem.mk (Product.id product) (Product.name product)
                 (Product.image product) (Product.price product)
                 (default 0 (JsNumber.parseInt qty)) itemTotal)
    end.

(** The first loop of the handler, with its two accumulators. *)
Fixpoint processItems (ps : list Product.t) (cart : list CartLine)
    (processedItems : list OrderItem.t) (totalAmount : Q)
    : Response + (list OrderItem.t * Q) :=
  match cart with
  | [] => inr (processedItems, totalAmount)
  | item :: rest =>
      match processLine ps item with
      | inl err => inl err
      | inr it =>
          processItems ps rest (processedItems ++ [it])%list
            (totalAmount + OrderItem.subtotal it)%Q
      end
  end.

(** The handler from the destructuring of the parsed body to the 201
    response. [decoded] is what [verifyToken] returned. *)
Definition createOrder (env : Env) (decoded : JsVal) (b : Body) (db : MockDB)
    : Response * MockDB :=
  match items b with
  | None | Some [] => (bad "Order items are required", db)
  | Some cart =>
  match shippingAddress b with
  | None => (bad "Shipping address is required", db)
  | Some addr =>
  if negb (strTruthy (paymentMethod b))
  then (bad "Payment method is required", db)
  else if (negb (strTruthy (fullName addr)) || negb (strTruthy (address addr))
           || negb (strTruthy (city addr)) || negb (strTruthy (postalCode addr))
           || negb (strTruthy (phone addr)))%bool
  then (bad "Complete shipping address required (fullName, address, city, postalCode, phone)", db)
  else
    let sanitizedShippingAddress :=
      Address.mk (sanitizeInput (default "" (fullName addr)))
        (sanitizeInput (default "" (address addr)))
        (sanitizeInput (default "" (city addr)))
        (sanitizeInput (default "" (postalCode addr)))
        (sanitizeInput (default "" (phone addr))) in
    if lengthOutside 2 100 (Address.fullName sanitizedShippingAddress)
    then (bad "Full name must be between 2-100 characters", db)
    else if lengthOutside 5 200 (Address.address sanitizedShippingAddress)
    then (bad "Address must be between 5-200 characters", db)
    else if lengthOutside 2 50 (Address.city sanitizedShippingAddress)
    then (bad "City must be between 2-50 characters", db)
    else
      let method := default "" (paymentMethod b) in
      if negb (existsb (String.eqb method) allowedPaymentMethods)
      then (bad "Invalid payment method", db)
      else
        match processItems (products db) cart [] 0%Q with
        | inl err => (err, db)
        | inr (processedItems, totalAmount) =>
            let shippingCost := if JsNumber.ltb 100 totalAmount then 0%Q else 15%Q in
            let finalAmount := (totalAmount + shippingCost)%Q in
            match getField "payload" decoded with
            | None => (serverError, db)
            | Some payload =>
            match getField "id" payload with
            | None => (serverError, db)
            | Some uid =>
                let newOrder :=
                  Order.mk (Z.of_nat (length (orders db)) + 1) uid
                    ("ORD-" ++ pretty (now env) ++ "-" ++ rand env)
                    processedItems sanitizedShippingAddress method
                    (match notes b with
                     | Some n => if nonempty n then sanitizeInput n else ""
                     | None => ""
                     end)
                    Pending totalAmount shippingCost finalAmount
                    (now env) (now env) (Some (now env + 7 * 24 * 60 * 60 * 1000))
                    None PayPending None in
                (createResponse 201 "Order created successfully",
                 mkDB (users db) (updateStocks processedItems (products db))
                   (orders db ++ [newOrder])%list)
            end
            end
        end
  end
  end.

(** The parsed body that a body of the shop is. *)
Definition ofText (v : option string) : Js.value :=
  match v with Some s => Js.Str s | None => Js.Undefined end.

Definition ofLine (item : CartLine) : Js.value :=
  Js.Obj [("productId", match productId item with
                        | Some z => Js.Num (inject_Z z)
                        | None => Js.Undefined
                        end);
          ("quantity", match quantity item with
                       | Some q => Js.Num q
                       | None => Js.Undefined
                       end)].

Definition ofAddress (a : AddressIn) : Js.value :=
  Js.Obj [("fullName", ofText (fullName a)); ("address", ofText (address a));
          ("city", ofText (city a)); ("postalCode", ofText (postalCode a));
          ("phone", ofText (phone a))].

Definition ofBody (b : Body) : Js.value :=
  Js.Obj [("items", match items b with
                    | Some cart => Js.Arr (map ofLine cart)
                    | None => Js.Undefined
                    end);
          ("shippingAddress", match shippingAddress b with
                              | Some a => ofAddress a
                              | None => Js.Undefined
                              end);
          ("paymentMethod", ofText (paymentMethod b));
          ("notes", ofText (notes b))].

End OrdersCreate.

(** ** orders-manage.js *)

Module OrdersManage.

(** The fields of the parsed body, [None] when [undefined]. Provided
    fields are strings. *)
Record Body := mkBody {
  status : option string;
  trackingNumber : option string;
  notes : option string;
  paymentStatus : option string
}.

Definition statusName (s : OrderStatus) : string :=
  match s with
  | Pending => "pending"
  | Confirmed => "confirmed"
  | Processing => "processing"
  | Shipped => "shipped"
  | Delivered => "delivered"
  | Cancelled => "cancelled"
  end.

Definition allowedStatuses : list OrderStatus :=
  [Pending; Confirmed; Processing; Shipped; Delivered; Cancelled].

(** [allowedStatuses.includes(s)], returning the status that [s] names. *)
Definition parseStatus (s : string) : option OrderStatus :=
  List.find (fun st => String.eqb (statusName st) s) allowedStatuses.

Definition statusTransitions (s : OrderStatus) : list OrderStatus :=
  match s with
  | Pending => [Confirmed; Cancelled]
  | Confirmed => [Processing; Cancelled]
  | Processing => [Shipped; Cancelled]
  | Shipped => [Delivered; Cancelled]
  | Delivered => []
  | Cancelled => []
  end.

Definition status_eqb (a b : OrderStatus) : bool :=
  String.eqb (statusName a) (statusName b).

Definition paymentName (s : PaymentStatus) : string :=
  match s with
  | PayPending => "pending"
  | Paid => "paid"
  | Failed => "failed"
  | Refunded => "refunded"
  end.

Definition allowedPaymentStatuses : list PaymentStatus :=
  [PayPending; Paid; Failed; Refunded].

Definition parsePaymentStatus (s : string) : option PaymentStatus :=
  List.find (fun st => String.eqb (paymentName st) s) allowedPaymentStatuses.

Definition bad (msg : string) : Response := createErrorResponse 400 msg None.

(** The restoration loop: [product.stock += item.quantity] on the product
    found for each item of the order. *)
Definition restoreStocks (items : list OrderItem.t) (ps : list Product.t)
    : list Product.t :=
  fold_left
    (fun ps item =>
       updateFirst (OrderItem.productId item)
         (fun product =>
            Product.withStock product (Product.stock product + OrderItem.quantity item))
         ps)
    items ps.

Definition withStatus (o : Order.t) (s : OrderStatus) : Order.t :=
  Order.mk (Order.id o) (Order.userId o) (Order.orderNumber o) (Order.items o)
    (Order.shippingAddress o) (Order.paymentMethod o) (Order.notes o) s
    (Order.subtotal o) (Order.shippingCost o) (Order.totalAmount o)
    (Order.createdAt o) (Order.updatedAt o) (Order.estimatedDelivery o)
    (Order.trackingNumber o) (Order.paymentStatus o) (Order.adminNotes o).

Definition withTracking (o : Order.t) (t : option string) : Order.t :=
  Order.mk (Order.id o) (Order.userId o) (Order.orderNumber o) (Order.items o)
    (Order.shippingAddress o) (Order.paymentMethod o) (Order.notes o) (Order.status o)
    (Order.subtotal o) (Order.shippingCost o) (Order.totalAmount o)
    (Order.createdAt o) (Order.updatedAt o) (Order.estimatedDelivery o)
    t (Order.paymentStatus o) (Order.adminNotes o).

Definition withPayment (o : Order.t) (p : PaymentStatus) : Order.t :=
  Order.mk (Order.id o) (Order.userId o) (Order.orderNumber o) (Order.items o)
    (Order.shippingAddress o) (Order.paymentMethod o) (Order.notes o) (Order.status o)
    (Order.subtotal o) (Order.shippingCost o) (Order.totalAmount o)
    (Order.createdAt o) (Order.updatedAt o) (Order.estimatedDelivery o)
    (Order.trackingNumber o) p (Order.adminNotes o).

Definition withAdminNotes (o : Order.t) (n : string) : Order.t :=
  Order.mk (Order.id o) (Order.userId o) (Order.orderNumber o) (Order.items o)
    (Order.shippingAddress o) (Order.paymentMethod o) (Order.notes o) (Order.status o)
    (Order.subtotal o) (Order.shippingCost o) (Order.totalAmount o)
    (Order.createdAt o) (Order.updatedAt o) (Order.estimatedDelivery o)
    (Order.trackingNumber o) (Order.paymentStatus o) (Some n).

Definition withTimes (o : Order.t) (u : Z) (e : option Z) : Order.t :=
  Order.mk (Order.id o) (Order.userId o) (Order.orderNumber o) (Order.items o)
    (Order.shippingAddress o) (Order.paymentMethod o) (Order.notes o) (Order.status o)
    (Order.subtotal o) (Order.shippingCost o) (Order.totalAmount o)
    (Order.createdAt o) u e
    (Order.trackingNumber o) (Order.paymentStatus o) (Order.adminNotes o).

(** The running state of the handler while it walks over the optional
    fields: the copy being edited, the change flag, the change log, and
    the catalogue, which the cancellation branch edits in place. *)
Record Draft := mkDraft {
  updatedOrder : Order.t;
  hasChanges : bool;
  changes : list string;
  catalogue : list Product.t
}.

Definition option_str_eqb (a b : option string) : bool :=
  match a, b with
  | Some x, Some y => String.eqb x y
  | None, None => true
  | _, _ => false
  end.

(** The block [if (status !== undefined)]. *)
Definition statusStep (existingOrder : Order.t) (b : Body) (d : Draft)
    : Response + Draft :=
  match status b with
  | None => inr d
  | Some raw =>
      let sanitizedStatus := sanitizeInput (toLowerCase raw) in
      match parseStatus sanitizedStatus with
      | None =>
          inl (bad "Invalid status. Allowed: pending, confirmed, processing, shipped, delivered, cancelled")
      | Some new =>
          let currentStatus := Order.status existingOrder in
          if (negb (status_eqb currentStatus new)
              && negb (existsb (status_eqb new) (statusTransitions currentStatus)))%bool
          then inl (bad ("Cannot change status from " ++ dq ++ statusName currentStatus
                         ++ dq ++ " to " ++ dq ++ sanitizedStatus ++ dq))
          else if negb (status_eqb currentStatus new)
          then
            let d1 := mkDraft (withStatus (updatedOrder d) new) true
                        (app (changes d) ["status: " ++ statusName currentStatus
                                       ++ " → " ++ sanitizedStatus])
                        (catalogue d) in
            if (status_eqb new Cancelled && negb (status_eqb currentStatus Cancelled))%bool
            then inr (mkDraft (updatedOrder d1) true
                        (app (changes d1) ["stock restored for cancelled items"])
                        (restoreStocks (Order.items existingOrder) (catalogue d1)))
            else inr d1
          else inr d
      end
  end.

(** The block [if (trackingNumber !== undefined)]. *)
Definition trackingStep (existingOrder : Order.t) (b : Body) (d : Draft) : Draft :=
  match trackingNumber b with
  | None => d
  | Some raw =>
      let s := sanitizeInput raw in
      let sanitizedTrackingNumber := if nonempty s then Some s else None in
      if negb (option_str_eqb (Order.trackingNumber existingOrder) sanitizedTrackingNumber)
      then mkDraft (withTracking (updatedOrder d) sanitizedTrackingNumber) true
             (app (changes d) ["trackingNumber: "
                            ++ default "null" (or_else (Order.trackingNumber existingOrder) None)
                            ++ " → " ++ default "null" sanitizedTrackingNumber])
             (catalogue d)
      else d
  end.

(** The block [if (paymentStatus !== undefined)]. *)
Definition paymentStep (existingOrder : Order.t) (b : Body) (d : Draft)
    : Response + Draft :=
  match paymentStatus b with
  | None => inr d
  | Some raw =>
      let sanitizedPaymentStatus := sanitizeInput (toLowerCase raw) in
      match parsePaymentStatus sanitizedPaymentStatus with
      | None => inl (bad "Invalid payment status. Allowed: pending, paid, failed, refunded")
      | Some new =>
          if negb (String.eqb (paymentName (Order.paymentStatus existingOrder))
                     sanitizedPaymentStatus)
          then inr (mkDraft (withPayment (updatedOrder d) new) true
                      (app (changes d) ["paymentStatus: "
                                     ++ paymentName (Order.paymentStatus existingOrder)
                                     ++ " → " ++ sanitizedPaymentStatus])
                      (catalogue d))
          else inr d
      end
  end.

(** The block [if (notes !== undefined)]. *)
Definition notesStep (existingOrder : Order.t) (b : Body) (d : Draft) : Draft :=
  match notes b with
  | None => d
  | Some raw =>
      let sanitizedNotes := sanitizeInput raw in
      let existingNotes := default "" (or_else (Order.adminNotes existingOrder) None) in
      if negb (String.eqb existingNotes sanitizedNotes)
      then mkDraft (withAdminNotes (updatedOrder d) sanitizedNotes) true
             (app (changes d) ["adminNotes updated"]) (catalogue d)
      else d
  end.

(** The result of an update: the response, the change log it carries,
    and the database. *)
Definition Outcome : Type := Response * list string * MockDB.

(** The handler from [const existingOrder = mockDB.orders[orderIndex]] to
    the 200 response. A 400 sent after the status block leaves the
    catalogue as that block edited it: the products are objects of the
    shared [mockDB], changed in place. *)
Definition updateOrder (env : Env) (orderIndex : nat) (existingOrder : Order.t)
    (b : Body) (db : MockDB) : Outcome :=
  let d0 := mkDraft existingOrder false [] (products db) in
  match statusStep existingOrder b d0 with
  | inl err => (err, [], db)
  | inr d1 =>
      let d2 := trackingStep existingOrder b d1 in
      match paymentStep existingOrder b d2 with
      | inl err => (err, [], mkDB (users db) (catalogue d2) (orders db))
      | inr d3 =>
          let d4 := notesStep existingOrder b d3 in
          if negb (hasChanges d4)
          then (bad "No valid changes provided", [],
                mkDB (users db) (catalogue d4) (orders db))
          else
            let o := updatedOrder d4 in
            let estimated :=
              match Order.status o, Order.estimatedDelivery o with
              | Shipped, None => Some (now env + 3 * 24 * 60 * 60 * 1000)
              | _, e => e
              end in
            let saved := withTimes o (now env) estimated in
            (createResponse 200 "Order updated successfully", changes d4,
             mkDB (users db) (catalogue d4) (<[orderIndex := saved]> (orders db)))
      end
  end.

(** [mockDB.orders.findIndex(o => o.id === numOrderId)] *)
Fixpoint findIndex (numOrderId : Z) (os : list Order.t) : option nat :=
  match os with
  | [] => None
  | o :: r => if Order.id o =? numOrderId then Some O
              else option_map S (findIndex numOrderId r)
  end.

(** The handler from the lookup of the order on, for an authenticated
    administrator. *)
Definition manageOrder (env : Env) (numOrderId : Z) (b : Body) (db : MockDB) : Outcome :=
  match findIndex numOrderId (orders db) with
  | None => (createErrorResponse 404 "Order not found" (Some "ORDER_NOT_FOUND"), [], db)
  | Some orderIndex =>
      match orders db !! orderIndex with
      | None => (createErrorResponse 404 "Order not found" (Some "ORDER_NOT_FOUND"), [], db)
      | Some existingOrder => updateOrder env orderIndex existingOrder b db
      end
  end.

End OrdersManage.

(** ** Field validators of utils.js *)

Module Validate.

Fixpoint forallb_str (f : ascii -> bool) (s : string) : bool :=
  match s with
  | EmptyString => true
  | String c r => f c && forallb_str f r
  end.

Fixpoint existsb_str (f : ascii -> bool) (s : string) : bool :=
  match s with
  | EmptyString => false
  | String c r => f c || existsb_str f r
  end.

Definition is_at (c : ascii) : bool := Nat.eqb (nat_of_ascii c) 64.
Definition is_dot (c : ascii) : bool := Nat.eqb (nat_of_ascii c) 46.

(** A character of the class that excludes white space and the at sign. *)
Definition plainChar (c : ascii) : bool := negb (is_space c || is_at c).

(** The text up to the first at sign, and the text after it. *)
Fixpoint splitAt (s : string) : option (string * string) :=
  match s with
  | EmptyString => None
  | String c r =>
      if is_at c then Some (EmptyString, r)
      else match splitAt r with
           | Some (a, b) => Some (String c a, b)
           | None => None
           end
  end.

(** A dot with at least one character before it and one after it. *)
Fixpoint innerDot (seenOne : bool) (s : string) : bool :=
  match s with
  | EmptyString => false
  | String c r =>
      (seenOne && is_dot c && negb (String.eqb r "")) || innerDot true r
  end.

(** [validateEmail]: the whole string is a run of plain characters, an at
    sign, and a run of plain characters with an inner dot. *)
Definition validateEmail (email : string) : bool :=
  match splitAt email with
  | None => false
  | Some (local, domain) =>
      nonempty local && forallb_str plainChar local
      && forallb_str plainChar domain && innerDot false domain
  end.

(** The class of [validatePassword]: a digit or one of the listed
    punctuation characters. *)
Definition numberOrSpecial (c : ascii) : bool :=
  let n := nat_of_ascii c in
  (Nat.leb 48 n && Nat.leb n 57)
  || existsb (Nat.eqb n)
       [33; 64; 35; 36; 37; 94; 38; 42; 40; 41; 95; 43; 45; 61; 91; 93; 123; 125;
        59; 39; 58; 34; 92; 124; 44; 46; 60; 62; 47; 63]%nat.

(** [validatePassword], on a string: the error it reports, if any. *)
Definition validatePassword (password : string) : option string :=
  if negb (nonempty password) then Some "Password is required"
  else if Nat.ltb (String.length password) 6
  then Some "Password must be at least 6 characters long"
  else if Nat.ltb 128 (String.length password)
  then Some "Password must be less than 128 characters"
  else if negb (existsb_str numberOrSpecial password)
  then Some "Password must contain at least one number or special character"
  else None.

End Validate.

(** ** register.js *)

Module Register.

Record Body := mkBody {
  username : option string;
  email : option string;
  password : option string;
  fullName : option string
}.

Definition strTruthy (v : option string) : bool :=
  match v with Some s => nonempty s | None => false end.

Definition bad (msg : string) : Response := createErrorResponse 400 msg None.

Definition lengthOutside (lo hi : nat) (s : string) : bool :=
  (Nat.ltb (String.length s) lo || Nat.ltb hi (String.length s))%bool.

(** The predicate of [mockDB.users.find] in the duplicate check. *)
Definition sameUser (sanitizedEmail sanitizedUsername : string) (u : User.t) : bool :=
  String.eqb (toLowerCase (User.email u)) sanitizedEmail
  || String.eqb (toLowerCase (User.username u)) sanitizedUsername.

(** The handler from the destructuring of the parsed body on.
    [bcrypt_hash] is [bcrypt.hash] with the configured rounds. *)
Definition register (bcrypt_hash : string -> string) (env : Env) (b : Body) (db : MockDB)
    : Response * MockDB :=
  if (negb (strTruthy (username b)) || negb (strTruthy (email b))
      || negb (strTruthy (password b)) || negb (strTruthy (fullName b)))%bool
  then (bad "All fields are required: username, email, password, fullName", db)
  else
    let username := default "" (username b) in
    let email := default "" (email b) in
    let password := default "" (password b) in
    let fullName := default "" (fullName b) in
    if negb (Validate.validateEmail email) then (bad "Invalid email format", db)
    else
      match Validate.validatePassword password with
      | Some err => (bad err, db)
      | None =>
          let sanitizedUsername := sanitizeInput (toLowerCase username) in
          let sanitizedEmail := sanitizeInput (toLowerCase email) in
          let sanitizedFullName := sanitizeInput fullName in
          if lengthOutside 3 30 sanitizedUsername
          then (bad "Username must be between 3-30 characters", db)
          else if lengthOutside 2 100 sanitizedFullName
          then (bad "Full name must be between 2-100 characters", db)
          else
            match List.find (sameUser sanitizedEmail sanitizedUsername) (users db) with
            | Some existingUser =>
                (createErrorResponse 409 "User already exists with this email or username"
                   (Some "USER_EXISTS"), db)
            | None =>
                let hashedPassword := bcrypt_hash password in
                let newUser :=
                  User.mk (Z.of_nat (length (users db)) + 1) sanitizedUsername
                    sanitizedEmail hashedPassword sanitizedFullName "customer"
                    (now env) None (Some true) in
                (createResponse 201 "Registration successful",
                 mkDB (users db ++ [newUser])%list (products db) (orders db))
            end
      end.

Definition handler (bcrypt_hash : string -> string) (env : Env) (event : Event Body)
    (st : Server) : Response * Server :=
  match handleCORS event with
  | Some r => (r, st)
  | None =>
  if negb (String.eqb (httpMethod event) "POST")
  then (createErrorResponse 405 "Method not allowed" None, st)
  else
    match Utils.checkRateLimit (devEnv env) (now env) (clientIP event)
            "register" 3 (60 * 60 * 1000) (rateLimitStore st) with
    | (false, store) =>
        (createErrorResponse 429 "Too many registration attempts, please try again later." None,
         mkServer (mockDB st) store)
    | (true, store) =>
        match body event with
        | None => (bad "Invalid JSON body", mkServer (mockDB st) store)
        | Some b =>
            let '(r, db) := register bcrypt_hash env b (mockDB st) in
            (r, mkServer db store)
        end
    end
  end.

End Register.

(** ** login.js *)

Module Login.

Record Body := mkBody {
  email : option string;
  password : option string
}.

Definition strTruthy (v : option string) : bool :=
  match v with Some s => nonempty s | None => false end.

Definition bad (msg : string) : Response := createErrorResponse 400 msg None.

Definition withLastLogin (u : User.t) (t : Z) : User.t :=
  User.mk (User.id u) (User.username u) (User.email u) (User.password u)
    (User.fullName u) (User.role u) (User.createdAt u) (Some t) (User.isActive u).

(** [user.lastLogin = ...] on the object that [find] returned. *)
Fixpoint touchFirst (sanitizedEmail : string) (t : Z) (us : list User.t) : list User.t :=
  match us with
  | [] => []
  | u :: r =>
      if String.eqb (toLowerCase (User.email u)) sanitizedEmail
      then withLastLogin u t :: r
      else u :: touchFirst sanitizedEmail t r
  end.

(** The handler from the destructuring of the parsed body on, on a body
    whose email and password are strings. [bcrypt_compare] is
    [bcrypt.compare] on strings. The token of the 200 response is part of
    its payload. *)
Definition login (bcrypt_compare : string -> string -> bool) (env : Env) (b : Body)
    (db : MockDB) : Response * MockDB :=
  if (negb (strTruthy (email b)) || negb (strTruthy (password b)))%bool
  then (bad "Email and password are required", db)
  else
    let email := default "" (email b) in
    let password := default "" (password b) in
    if negb (Validate.validateEmail email) then (bad "Invalid email format", db)
    else
      let sanitizedEmail := sanitizeInput (toLowerCase email) in
      match List.find (fun u => String.eqb (toLowerCase (User.email u)) sanitizedEmail)
              (users db) with
      | None =>
          (createErrorResponse 401 "Invalid email or password" (Some "INVALID_CREDENTIALS"), db)
      | Some user =>
          match User.isActive user with
          | Some false =>
              (createErrorResponse 403 "Account is deactivated" (Some "ACCOUNT_DEACTIVATED"), db)
          | _ =>
              if negb (bcrypt_compare password (User.password user))
              then (createErrorResponse 401 "Invalid email or password"
                      (Some "INVALID_CREDENTIALS"), db)
              else (createResponse 200 "Login successful",
                    mkDB (touchFirst sanitizedEmail (now env) (users db))
                      (products db) (orders db))
          end
      end.

Definition serverError : Response :=
  createErrorResponse 500 "Internal server error during login" (Some "LOGIN_ERROR").

(** The handler from the destructuring of the parsed body on, on any
    parsed body. [validateEmail] tests the text of [email]; [toLowerCase]
    is a method of strings only, so that an array that prints as an
    address throws; and [bcrypt.compare] of bcryptjs, which is handed
    [password] as the body has it, rejects an argument that is not a
    string ([Illegal arguments]). Every exception ends in the [catch] of
    the handler, which answers 500. On a body whose email and password
    are strings this is [login]. *)
Definition loginOfBody (bcrypt_compare : string -> string -> bool) (env : Env)
    (body : Js.value) (db : MockDB) : Response * MockDB :=
  match Js.getProp "email" body, Js.getProp "password" body with
  | Some email, Some password =>
      if (negb (Js.truthy email) || negb (Js.truthy password))%bool
      then (bad "Email and password are required", db)
      else
        match Js.toString email with
        | None => (serverError, db)
        | Some emailText =>
            if negb (Validate.validateEmail emailText) then (bad "Invalid email format", db)
            else
              match email with
              | Js.Str email =>
                  let sanitizedEmail := sanitizeInput (toLowerCase email) in
                  match List.find
                          (fun u => String.eqb (toLowerCase (User.email u)) sanitizedEmail)
                          (users db) with
                  | None =>
                      (createErrorResponse 401 "Invalid email or password"
                         (Some "INVALID_CREDENTIALS"), db)
                  | Some user =>
                      match User.isActive user with
                      | Some false =>
                          (createErrorResponse 403 "Account is deactivated"
                             (Some "ACCOUNT_DEACTIVATED"), db)
                      | _ =>
                          match password with
                          | Js.Str password =>
                              if negb (bcrypt_compare password (User.password user))
                              then (createErrorResponse 401 "Invalid email or password"
                                      (Some "INVALID_CREDENTIALS"), db)
                              else (createResponse 200 "Login successful",
                                    mkDB (touchFirst sanitizedEmail (now env) (users db))
                                      (products db) (orders db))
                          | _ => (serverError, db)
                          end
                      end
                  end
              | _ => (serverError, db)
              end
        end
  | _, _ => (serverError, db)
  end.

(** The parsed body that a body of strings is. *)
Definition ofBody (b : Body) : Js.value :=
  Js.Obj [("email", match email b with Some s => Js.Str s | None => Js.Undefined end);
          ("password", match password b with Some s => Js.Str s | None => Js.Undefined end)].

Definition handler (bcrypt_compare : string -> string -> bool) (env : Env)
    (event : Event Js.value) (st : Server) : Response * Server :=
  match handleCORS event with
  | Some r => (r, st)
  | None =>
  if negb (String.eqb (httpMethod event) "POST")
  then (createErrorResponse 405 "Method not allowed" None, st)
  else
    match Utils.checkRateLimit (devEnv env) (now env) (clientIP event)
            "login" 10 (15 * 60 * 1000) (rateLimitStore st) with
    | (false, store) =>
        (createErrorResponse 429
           "Terlalu banyak percobaan login. Silakan coba lagi dalam 15 menit." None,
         mkServer (mockDB st) store)
    | (true, store) =>
        match body event with
        | None => (bad "Invalid JSON body", mkServer (mockDB st) store)
        | Some b =>
            let '(r, db) := loginOfBody bcrypt_compare env b (mockDB st) in
            (r, mkServer db store)
        end
    end
  end.

End Login.

(** ** The Express server *)

Module Express.

Definition json (status : Z) (msg : string) (c : option string) : Response :=
  mkResponse status msg c.

(** [req.user], as the middleware fills it. *)
Record ReqUser := mkReqUser {
  id : JsVal;
  email : JsVal;
  username : JsVal;
  role : JsVal
}.

(** [decoded.iat] as a number. Only what a signed token issued by the
    login route carries is interpreted: a number, or nothing ([NaN], for
    which every comparison is false). *)
Definition numberOf (v : JsVal) : option Z :=
  match v with
  | JNum z => Some z
  | JNull => Some 0
  | JBool b => Some (if b then 1 else 0)
  | _ => None
  end.

(** [Date.now() / 1000 - decoded.iat > 24 * 60 * 60], with both sides
    multiplied by 1000 to stay in the integers ([now] is in
    milliseconds, [iat] in seconds). *)
Definition tooOld (now : Z) (iat : JsVal) : bool :=
  match numberOf iat with
  | Some i => 24 * 60 * 60 * 1000 <? now - 1000 * i
  | None => false
  end.

(** The middleware [verifyToken]: the response it sends, or the identity
    it attaches to the request before calling [next]. *)
Definition verifyToken (jwt_verify : Z -> string -> JwtResult)
    (now : Z) (authHeader : option string) : Response + ReqUser :=
  match authHeader with
  | None =>
      inl (json 401 "Access denied. No valid token provided." (Some "NO_TOKEN"))
  | Some h =>
      if (negb (nonempty h) || negb (startsWith "Bearer " h))%bool
      then inl (json 401 "Access denied. No valid token provided." (Some "NO_TOKEN"))
      else
        let token := trim (removeFirst "Bearer " h) in
        if (negb (nonempty token) || Nat.ltb (String.length token) 10)%bool
        then inl (json 401 "Invalid token format" (Some "INVALID_TOKEN_FORMAT"))
        else
          match jwt_verify now token with
          | JwtOk decoded =>
              match getField "id" decoded, getField "email" decoded,
                    getField "iat" decoded, getField "username" decoded,
                    getField "role" decoded with
              | Some i, Some e, Some iat, Some u, Some r =>
                  if (negb (truthy i) || negb (truthy e))%bool
                  then inl (json 401 "Invalid token payload" (Some "INVALID_PAYLOAD"))
                  else if tooOld now iat
                  then inl (json 401 "Token expired" (Some "TOKEN_EXPIRED"))
                  else inr (mkReqUser i e u r)
              | _, _, _, _, _ =>
                  inl (json 500 "Token verification failed" (Some "VERIFICATION_ERROR"))
              end
          | TokenExpiredError => inl (json 401 "Token has expired" (Some "TOKEN_EXPIRED"))
          | JsonWebTokenError => inl (json 401 "Invalid token" (Some "INVALID_TOKEN"))
          | OtherError =>
              inl (json 500 "Token verification failed" (Some "VERIFICATION_ERROR"))
          end
  end.


(** The body of a registration once the validators have passed. *)
Record RegisterBody := mkRegisterBody {
  r_username : string;
  r_email : string;
  r_password : string;
  r_fullName : string
}.

Definition sameUser (email username : string) (user : User.t) : bool :=
  String.eqb (toLowerCase (User.email user)) email
  || String.eqb (toLowerCase (User.username user)) username.

Definition maxId (us : list User.t) : Z :=
  match us with
  | [] => 0
  | u :: r => fold_left Z.max (map User.id r) (User.id u)
  end.

(** The route [POST /api/register] after [validateInput]. [users] is what
    [readUsers] returns; [writeOk] tells whether [writeUsers] succeeds.
    The result carries the new content of the users file. *)
Definition register (bcrypt_hash : string -> string) (now : Z) (writeOk : bool)
    (b : RegisterBody) (users : list User.t) : Response * list User.t :=
  let username := sanitizeInput (toLowerCase (r_username b)) in
  let email := sanitizeInput (toLowerCase (r_email b)) in
  let fullName := sanitizeInput (r_fullName b) in
  match List.find (sameUser email username) users with
  | Some existingUser =>
      (json 409 "User already exists with this email or username" (Some "USER_EXISTS"),
       users)
  | None =>
      let hashedPassword := bcrypt_hash (r_password b) in
      let newUserId := match users with [] => 1 | _ => maxId users + 1 end in
      let newUser := User.mk newUserId username email hashedPassword fullName "user"
                       now None (Some true) in
      if writeOk
      then (json 201 "User registered successfully" None, (users ++ [newUser])%list)
      else (json 500 "Failed to save user data" (Some "SAVE_ERROR"), users)
  end.

Record LoginBody := mkLoginBody {
  l_email : string;
  l_password : string
}.

Definition withLastLogin (u : User.t) (t : Z) : User.t :=
  User.mk (User.id u) (User.username u) (User.email u) (User.password u)
    (User.fullName u) (User.role u) (User.createdAt u) (Some t) (User.isActive u).

(** [users[users.findIndex(u => u.id === user.id)].lastLogin = ...] *)
Fixpoint touchById (uid : Z) (t : Z) (us : list User.t) : list User.t :=
  match us with
  | [] => []
  | u :: r => if User.id u =? uid then withLastLogin u t :: r
              else u :: touchById uid t r
  end.

(** The route [POST /api/login] after [validateInput]. *)
Definition login (bcrypt_compare : string -> string -> bool) (now : Z) (writeOk : bool)
    (b : LoginBody) (users : list User.t) : Response * list User.t :=
  let email := sanitizeInput (toLowerCase (l_email b)) in
  match List.find (fun u => String.eqb (toLowerCase (User.email u)) email) users with
  | None => (json 401 "Invalid email or password" (Some "INVALID_CREDENTIALS"), users)
  | Some user =>
      match User.isActive user with
      | Some false => (json 403 "Account is deactivated" (Some "ACCOUNT_DEACTIVATED"), users)
      | _ =>
          if negb (bcrypt_compare (l_password b) (User.password user))
          then (json 401 "Invalid email or password" (Some "INVALID_CREDENTIALS"), users)
          else (json 200 "Login successful" None,
                if writeOk then touchById (User.id user) now users else users)
      end
  end.

(** The body of [PUT /api/products/:id] as JSON; a field is [None] when
    absent, and the numbers are whole JSON numbers. The image upload is
    [file]. The fields of a multipart form, which reach the route as
    strings, are outside this record: the text of 0 is truthy, so the
    route would store 0 for it where it keeps the old value for the
    number 0. *)
Record ProductBody := mkProductBody {
  name : option string;
  price : option Z;
  description : option string;
  category : option string;
  stock : option Z;
  file : option string
}.

Definition strOr (v : option string) (old : string) : string :=
  match v with
  | Some s => if nonempty s then s else old
  | None => old
  end.

(** [v ? parseInt(v) : old] *)
Definition numOr (v : option Z) (old : Z) : Z :=
  match v with
  | Some z => if z =? 0 then old else z
  | None => old
  end.

Fixpoint findIndex (pid : Z) (ps : list Product.t) : option nat :=
  match ps with
  | [] => None
  | p :: r => if Product.id p =? pid then Some O else option_map S (findIndex pid r)
  end.

(** The route [PUT /api/products/:id] behind [verifyToken] and
    [verifyAdmin]: no validator runs on the body. The result carries the
    new content of the products file when [writeProducts] succeeds. *)
Definition updateProduct (writeOk : bool) (paramId : Z) (b : ProductBody)
    (products : list Product.t) : Response * list Product.t :=
  match findIndex paramId products with
  | None => (json 404 "Produk tidak ditemukan" None, products)
  | Some productIndex =>
      match products !! productIndex with
      | None => (json 404 "Produk tidak ditemukan" None, products)
      | Some old =>
          let new :=
            Product.mk (Product.id old)
              (strOr (name b) (Product.name old))
              (strOr (description b) (Product.description old))
              (numOr (price b) (Product.price old))
              (strOr (category b) (Product.category old))
              (match file b with
               | Some f => "/images/products/" ++ f
               | None => Product.image old
               end)
              (numOr (stock b) (Product.stock old))
              (Product.isActive old) in
          (json 200 "Produk berhasil diupdate" None,
           if writeOk then <[productIndex := new]> products else products)
      end
  end.

End Express.

(** ** Request sequences against the rate limiter *)

(** A run of requests of one caller on one endpoint, at the given times:
    the verdicts of [checkRateLimit], in order, and the store left behind. *)
Fixpoint serveAll (devEnv : bool) (clientIP endpoint : string) (maxRequests windowMs : Z)
    (times : list Z) (store : gmap string (list Z)) : list bool * gmap string (list Z) :=
  match times with
  | [] => ([], store)
  | t :: rest =>
      let '(ok, store1) :=
        Utils.checkRateLimit devEnv t clientIP endpoint maxRequests windowMs store in
      let '(oks, store2) :=
        serveAll devEnv clientIP endpoint maxRequests windowMs rest store1 in
      (ok :: oks, store2)
  end.

(** The timestamps recorded for a key. *)
Definition recorded (key : string) (store : gmap string (list Z)) : list Z :=
  default [] (store !! key).

(** ** The seeded database of utils.js, and sample data *)

Definition seedUsers : list User.t :=
  [ User.mk 1 "admin" "admin@alandstore.com"
      "$2a$12$LQv3c1yqBWVHxkd0LHAkCOYz6TtxMQJqhN8/LtVNNSqk.hGx0/Y.a"
      "Administrator" "admin" 0 None (Some true);
    User.mk 2 "user" "user@alandstore.com"
      "$2a$12$LQv3c1yqBWVHxkd0LHAkCOYz6TtxMQJqhN8/LtVNNSqk.hGx0/Y.a"
      "Demo User" "user" 0 None (Some true) ].

Definition seedProducts : list Product.t :=
  [ Product.mk 1 "Smartphone Samsung Galaxy S24"
      "Smartphone flagship dengan kamera terbaik dan performa tinggi" 5999000 "Electronics"
      "https://images.pexels.com/photos/788946/pexels-photo-788946.jpeg?auto=compress&cs=tinysrgb&w=400&h=400&dpr=1"
      10 None;
    Product.mk 2 "Laptop Gaming ASUS ROG"
      "Laptop gaming dengan spesifikasi tinggi untuk para gamer" 15999000 "Electronics"
      "https://images.pexels.com/photos/2047905/pexels-photo-2047905.jpeg?auto=compress&cs=tinysrgb&w=400&h=400&dpr=1"
      5 None;
    Product.mk 3 "Sepatu Sneakers Nike Air"
      "Sepatu sneakers dengan kualitas premium dan design modern" 899000 "Fashion"
      "https://images.pexels.com/photos/2529148/pexels-photo-2529148.jpeg?auto=compress&cs=tinysrgb&w=400&h=400&dpr=1"
      20 None;
    Product.mk 4 "Apple Watch Series 9"
      "Smart watch dengan fitur kesehatan dan notifikasi lengkap" 2499000 "Electronics"
      "https://images.pexels.com/photos/437037/pexels-photo-437037.jpeg?auto=compress&cs=tinysrgb&w=400&h=400&dpr=1"
      15 None;
    Product.mk 5 "iPhone 15 Pro Max"
      "iPhone terbaru dengan kamera pro dan performa maksimal" 18999000 "Electronics"
      "https://picsum.photos/400/400?random=5" 8 None ].

Definition seedDB : MockDB := mkDB seedUsers seedProducts [].

(** A catalogue with a sixth product as products-create.js stores one,
    with [isActive: true]. The handler stores it past its admin check
    only, so this catalogue stands for a deployment whose data was
    prepared by hand: from [seedDB] no request leads to it. *)
Definition yogaMat : Product.t :=
  Product.mk 6 "Yoga Mat Premium"
    "Matras yoga anti slip dengan ketebalan optimal untuk kenyamanan" 40 "Sports"
    "https://picsum.photos/400/400?random=23" 5 (Some true).

Definition shopDB : MockDB := mkDB seedUsers (seedProducts ++ [yogaMat])%list [].

Definition sampleEnv : Env := mkEnv 1700000000000 false "K3X9Q".

(** A decoded token of the shape the order handlers read. *)
Definition sampleDecoded : JsVal :=
  JObj [("success", JBool true);
        ("payload", JObj [("id", JNum 2); ("email", JStr "user@alandstore.com");
                          ("role", JStr "user")])].

Definition sampleAddress : OrdersCreate.AddressIn :=
  OrdersCreate.mkAddressIn (Some "Demo User") (Some "Jl. Merdeka 10") (Some "Bandung")
    (Some "40111") (Some "0812345678").

Definition cartOf (lines : list (Z * Q)) : OrdersCreate.Body :=
  OrdersCreate.mkBody
    (Some (map (fun l => OrdersCreate.mkLine (Some (fst l)) (Some (snd l))) lines))
    (Some sampleAddress) (Some "bank_transfer") None.

(** The order that [cartOf [(6, 3%Q)]] creates in [shopDB], and the database
    after it. *)
Definition placedOrder : Order.t :=
  Order.mk 1 (JNum 2) "ORD-1700000000000-K3X9Q"
    [OrderItem.mk 6 "Yoga Mat Premium" "https://picsum.photos/400/400?random=23" 40 3 120%Q]
    (Address.mk "Demo User" "Jl. Merdeka 10" "Bandung" "40111" "0812345678")
    "bank_transfer" "" Pending 120%Q 0%Q 120%Q 1700000000000 1700000000000
    (Some 1700604800000) None PayPending None.

Definition shopAfterOrder : MockDB :=
  mkDB seedUsers (seedProducts ++ [Product.withStock yogaMat 2])%list [placedOrder].

(** Stand-ins for the bcrypt primitives in worked examples: the hash of a
    password is the password behind a marker. *)
Definition sampleHash (password : string) : string := "hash:" ++ password.
Definition sampleCompare (password hash : string) : bool :=
  String.eqb (sampleHash password) hash.

(** The predicate with which both login handlers look a user up. *)
Definition emailIs (sanitizedEmail : string) (u : User.t) : bool :=
  String.eqb (toLowerCase (User.email u)) sanitizedEmail.

(** A stand-in for [jwt.verify] in worked examples: the tokens of a table
    are the ones with a valid signature, and a token whose [exp] claim (in
    seconds) is not after the clock (in milliseconds) has expired. *)
Definition tableJwt (table : list (string * JsVal)) (now : Z) (token : string) : JwtResult :=
  match assoc token table with
  | JUndef => JsonWebTokenError
  | claims =>
      match default JUndef (getField "exp" claims) with
      | JNum e => if e * 1000 <=? now then TokenExpiredError else JwtOk claims
      | _ => JwtOk claims
      end
  end.

(** A token as login.js signs it for the demo user, issued at second
    1700000000 with a lifetime of seven days ([JWT_EXPIRE] set to 7d). *)
Definition demoToken : string := "eyJhbGciOiJIUzI1NiJ9.demo-user.signature".

Definition demoClaims : JsVal :=
  JObj [("id", JNum 2); ("username", JStr "user"); ("email", JStr "user@alandstore.com");
        ("role", JStr "user"); ("iat", JNum 1700000000); ("exp", JNum 1700604800)].

Definition demoJwt : Z -> string -> JwtResult := tableJwt [(demoToken, demoClaims)].






Definition demoHeaders (auth : option string) : Headers :=
  mkHeaders (Some "203.0.113.7") None auth.

Definition emptyServer (db : MockDB) : Server := mkServer db ∅.

(** ** Vocabulary of the registration properties *)

(** Some user has this lower-cased email or this lower-cased username:
    the test of both registration handlers, on the values they compare. *)
Definition taken (email username : string) (us : list User.t) : Prop :=
  Exists (fun u => toLowerCase (User.email u) = email
                   \/ toLowerCase (User.username u) = username) us.

(** No two users share an email or a username, up to letter case. *)
Definition usersUnique (us : list User.t) : Prop :=
  NoDup (map (fun u => toLowerCase (User.email u)) us)
  /\ NoDup (map (fun u => toLowerCase (User.username u)) us).

(** The field checks of register.js, in its order, on a body that has all
    four fields. *)
Definition validRegistration (username email password fullName : string) : bool :=
  nonempty username && nonempty email && nonempty password && nonempty fullName
  && Validate.validateEmail email
  && match Validate.validatePassword password with None => true | Some _ => false end
  && negb (Register.lengthOutside 3 30 (sanitizeInput (toLowerCase username)))
  && negb (Register.lengthOutside 2 100 (sanitizeInput fullName)).

(** The emails and usernames of the stored users are ASCII strings. *)
Definition asciiUsers (us : list User.t) : Prop :=
  Forall (fun u => isAscii (User.email u) = true /\ isAscii (User.username u) = true) us.

(** A string that lower-casing leaves alone. *)
Definition lowered (s : string) : Prop := toLowerCase s = s.

Definition userExists : Response :=
  mkResponse 409 "User already exists with this email or username" (Some "USER_EXISTS").

Definition invalidCredentials : Response :=
  mkResponse 401 "Invalid email or password" (Some "INVALID_CREDENTIALS").

(** ** Vocabulary of the order properties *)




(** A digit from 1 to 9. *)
Definition leading (c : ascii) : Prop :=
  (Nat.leb 49 (nat_of_ascii c) && Nat.leb (nat_of_ascii c) 57)%bool = true.

(** The outcome of the loop on a line of a parsed body and on a line of
    the shop are the same: the same refusal, or an item pushed that is the
    order item. *)
Definition sameLine (a : Response + OrdersCreate.Pushed) (c : Response + OrderItem.t) : Prop :=
  match a, c with
  | inl err, inl err' => err = err'
  | inr pushed, inr it => OrdersCreate.orderItem pushed = Some it
  | _, _ => False
  end.

(** The same of the whole loop: the same refusal, or the same items and
    the same total. *)
Definition sameRun (a : Response + (list OrdersCreate.Pushed * Js.number))
    (c : Response + (list OrderItem.t * Q)) : Prop :=
  match a, c with
  | inl err, inl err' => err = err'
  | inr (pushed, total), inr (its, amount) =>
      OrdersCreate.orderItems pushed = Some its /\ total = Js.Fin amount
  | _, _ => False
  end.

(** An answer of the handler to a request that it refuses or fails on. *)
Definition refusal (r : Response) : Prop := statusCode r = 400 \/ statusCode r = 500.

(** The position of the product that [find] returns for an id. *)
Fixpoint firstWithId (pid : Z) (ps : list Product.t) : option nat :=
  match ps with
  | [] => None
  | p :: r => if Product.id p =? pid then Some O else option_map S (firstWithId pid r)
  end.

(** The quantity that the items of an order record for a product id. *)
Definition owed (items : list OrderItem.t) (pid : Z) : Z :=
  foldr (fun it acc => if OrderItem.productId it =? pid
                       then OrderItem.quantity it + acc else acc) 0 items.

(** The product at position [k] of the catalogue [ps] once the quantities
    of [items] are given back: the product that [find] returns for its id
    gains what the items record for that id; a product that [find] never
    returns (a later one with the same id) is unchanged. *)
Definition restoredAt (items : list OrderItem.t) (ps : list Product.t) (k : nat)
    : option Product.t :=
  (fun p => if decide (firstWithId (Product.id p) ps = Some k)
            then Product.withStock p (Product.stock p + owed items (Product.id p))
            else p) <$> ps !! k.

(** The update body that only asks for a status. *)
Definition statusOnly (raw : string) : OrdersManage.Body :=
  OrdersManage.mkBody (Some raw) None None None.

(** The update body without its status field. *)
Definition withoutStatus (b : OrdersManage.Body) : OrdersManage.Body :=
  OrdersManage.mkBody None (OrdersManage.trackingNumber b) (OrdersManage.notes b)
    (OrdersManage.paymentStatus b).


(** The status that an update body asks for, read as the handler reads it. *)
Definition requestedStatus (b : OrdersManage.Body) : option OrderStatus :=
  match OrdersManage.status b with
  | Some raw => OrdersManage.parseStatus (sanitizeInput (toLowerCase raw))
  | None => None
  end.

(** The transition table as the specification lists it. *)
Definition transitionTable : list (OrderStatus * OrderStatus) :=
  [ (Pending, Confirmed); (Pending, Cancelled);
    (Confirmed, Processing); (Confirmed, Cancelled);
    (Processing, Shipped); (Processing, Cancelled);
    (Shipped, Delivered); (Shipped, Cancelled) ].

(** The payment status field of an update body is absent or names one of
    the four payment statuses. *)
Definition paymentFieldValid (b : OrdersManage.Body) : bool :=
  match OrdersManage.paymentStatus b with
  | None => true
  | Some raw =>
      match OrdersManage.parsePaymentStatus (sanitizeInput (toLowerCase raw)) with
      | Some _ => true
      | None => false
      end
  end.

(** The recorded timestamps of a key that still count at time [t] for a
    window of [windowMs] milliseconds. *)
Definition live (key : string) (windowMs : Z) (t : Z) (store : gmap string (list Z))
    : list Z :=
  List.filter (fun timestamp => t - windowMs <? timestamp) (recorded key store).

(** * Handlers, routes and client code beside the specification *)

(** ** utils.js: clearing the rate limiter *)

Module UtilsClear.

(** [clearRateLimit]: the record of one key is deleted. *)
Definition clearRateLimit (clientIP endpoint : string) (store : gmap string (list Z))
    : gmap string (list Z) :=
  delete (Utils.rateKey clientIP endpoint) store.

(** [clearAllRateLimits] *)
Definition clearAllRateLimits (store : gmap string (list Z)) : gmap string (list Z) := ∅.

End UtilsClear.

(** ** reset-rate-limit.js *)

Module ResetRateLimit.

(** The parsed body: [endpoint] and [ip] are strings when provided;
    [clearAll] is any JSON value, [JUndef] when absent. An absent or empty
    [event.body] is the empty object. *)
Record Body := mkBody {
  endpoint : option string;
  ip : option string;
  clearAll : JsVal
}.

Definition strTruthy (v : option string) : bool :=
  match v with Some s => nonempty s | None => false end.

Definition handler (env : Env) (event : Event Body) (st : Server) : Response * Server :=
  match handleCORS event with
  | Some r => (r, st)
  | None =>
  if negb (String.eqb (httpMethod event) "POST")
  then (createErrorResponse 405 "Method not allowed" None, st)
  else if negb (devEnv env)
  then (createErrorResponse 403 "Operation not allowed in production" None, st)
  else
    match body event with
    | None => (createErrorResponse 400 "Invalid JSON body" None, st)
    | Some b =>
        match clearAll b with
        | JBool true =>
            (createResponse 200 "All rate limits cleared successfully",
             mkServer (mockDB st) (UtilsClear.clearAllRateLimits (rateLimitStore st)))
        | _ =>
            if (strTruthy (endpoint b) && strTruthy (ip b))%bool
            then
              let ip := default "" (ip b) in
              let endpoint := default "" (endpoint b) in
              (createResponse 200 ("Rate limit cleared for " ++ ip ++ " on " ++ endpoint),
               mkServer (mockDB st)
                 (UtilsClear.clearRateLimit ip endpoint (rateLimitStore st)))
            else
              (createErrorResponse 400
                 "Please provide either clearAll=true or both ip and endpoint parameters"
                 None, st)
        end
    end
  end.

End ResetRateLimit.

(** The times of the requests of a run that were allowed. *)
Fixpoint grantedTimes (times : list Z) (oks : list bool) : list Z :=
  match times, oks with
  | t :: times', ok :: oks' =>
      if ok then t :: grantedTimes times' oks' else grantedTimes times' oks'
  | _, _ => []
  end.

(** The allowed requests of a run that fall in the window that ends at [u]. *)
Definition grantedInWindow (windowMs u : Z) (granted : list Z) : list Z :=
  List.filter (fun g => (u - windowMs <? g) && (g <=? u))%bool granted.

(** A string without a colon. *)
Definition colonFree (s : string) : bool :=
  Validate.forallb_str (fun c => negb (Nat.eqb (nat_of_ascii c) 58)) s.

(** A string without any of the four characters that [sanitizeInput] removes. *)
Definition markupFree (s : string) : bool :=
  Validate.forallb_str (fun c => negb (is_markup c)) s.

(** In a run of allowed requests, each one found fewer than [maxRequests]
    earlier ones inside its window. *)
Definition spaced (maxRequests windowMs : Z) (granted : list Z) : Prop :=
  forall i t, granted !! i = Some t ->
    Z.of_nat (length (List.filter (fun x => t - windowMs <? x) (take i granted))) < maxRequests.

(** ** Vocabulary of the stock accounting *)

(** The product at position [k] of the catalogue [ps] once the quantities
    of [items] are taken: the product that [find] returns for its id loses
    what the items record for that id. *)
Definition takenAt (items : list OrderItem.t) (ps : list Product.t) (k : nat)
    : option Product.t :=
  (fun p => if decide (firstWithId (Product.id p) ps = Some k)
            then Product.withStock p (Product.stock p - owed items (Product.id p))
            else p) <$> ps !! k.

(** Orders are numbered from 1 in the order of the list, as
    [mockDB.orders.length + 1] numbers them. *)
Definition numbered (os : list Order.t) : Prop :=
  forall i o, os !! i = Some o -> Order.id o = Z.of_nat i + 1.

(** Two products that differ in their stock at most: every other field
    of the second is the field of the first. *)
Definition sameButStock (p p' : Product.t) : Prop :=
  Product.id p' = Product.id p
  /\ Product.name p' = Product.name p
  /\ Product.description p' = Product.description p
  /\ Product.price p' = Product.price p
  /\ Product.category p' = Product.category p
  /\ Product.image p' = Product.image p
  /\ Product.isActive p' = Product.isActive p.

(** Two orders with the same content: only the fields that an
    administrator edits (status, tracking number, payment status, notes of
    the administrator) and the two dates that follow may differ. *)
Definition sameContent (o o' : Order.t) : Prop :=
  Order.id o' = Order.id o
  /\ Order.userId o' = Order.userId o
  /\ Order.orderNumber o' = Order.orderNumber o
  /\ Order.items o' = Order.items o
  /\ Order.shippingAddress o' = Order.shippingAddress o
  /\ Order.paymentMethod o' = Order.paymentMethod o
  /\ Order.notes o' = Order.notes o
  /\ Order.subtotal o' = Order.subtotal o
  /\ Order.shippingCost o' = Order.shippingCost o
  /\ Order.totalAmount o' = Order.totalAmount o
  /\ Order.createdAt o' = Order.createdAt o.

(** ** Arrays: [sort] and [slice] *)

Module JsArray.

(** [l.sort(cmp)]: the sort is stable, so for a comparator that orders
    its arguments consistently the result is the one of inserting each
    element, from the right, before the first element it does not exceed. *)
Fixpoint insertBy {A} (cmp : A -> A -> Z) (x : A) (l : list A) : list A :=
  match l with
  | [] => [x]
  | y :: r => if cmp x y <=? 0 then x :: l else y :: insertBy cmp x r
  end.

Definition sort {A} (cmp : A -> A -> Z) (l : list A) : list A :=
  foldr (insertBy cmp) [] l.

(** [l.slice(start, stop)] for [0 <= start <= stop]. *)
Definition slice {A} (start stop : Z) (l : list A) : list A :=
  firstn (Z.to_nat (stop - start)) (skipn (Z.to_nat start) l).

(** The comparator of [l.sort()] on strings. *)
Definition compareStrings (a b : string) : Z :=
  match String.compare a b with
  | Lt => -1
  | Eq => 0
  | Gt => 1
  end.

(** [[...new Set(l)]]: the first occurrence of each string, in order. *)
Fixpoint unique (l : list string) : list string :=
  match l with
  | [] => []
  | x :: r => x :: List.filter (fun y => negb (String.eqb x y)) (unique r)
  end.

End JsArray.

(** ** products.js *)

Module ProductsList.

(** [event.queryStringParameters]: each parameter is a string when
    present; a missing object is the object without parameters. *)
Record Query := mkQuery {
  category : option string;
  search : option string;
  limit : option string;
  offset : option string;
  sortBy : option string;
  sortOrder : option string
}.

(** The [data] of the 200 response. *)
Record Page := mkPage {
  pageProducts : list Product.t;
  total : Z;
  pageLimit : Z;
  pageOffset : Z;
  hasMore : bool;
  categories : list string;
  appliedCategory : string;
  appliedSearch : string;
  appliedSortBy : string;
  appliedSortOrder : string
}.

Definition bad (msg : string) : Response := createErrorResponse 400 msg None.

(** [parseInt(v) || d] *)
Definition intOr (v : string) (d : Z) : Z :=
  match JsText.parseInt v with
  | Some z => if z =? 0 then d else z
  | None => d
  end.

Definition numLimit (q : Query) : Z := Z.max 1 (Z.min 100 (intOr (default "20" (limit q)) 20)).
Definition numOffset (q : Query) : Z := Z.max 0 (intOr (default "0" (offset q)) 0).

Definition allowedSortFields : list string := ["name"; "price"; "category"; "createdAt"].
Definition allowedSortOrders : list string := ["asc"; "desc"].

(** What the comparator compares: a number for [price], a date for
    [createdAt], a lower-cased string otherwise. The products of the
    embedding carry no [createdAt], so that date is the invalid one. *)
Inductive SortKey :=
| KNum (z : Z)
| KStr (s : string)
| KInvalidDate.

Definition sortKey (sanitizedSortBy : string) (p : Product.t) : SortKey :=
  if String.eqb sanitizedSortBy "price" then KNum (Product.price p)
  else if String.eqb sanitizedSortBy "createdAt" then KInvalidDate
  else if String.eqb sanitizedSortBy "name" then KStr (toLowerCase (Product.name p))
  else KStr (toLowerCase (Product.category p)).

(** [a < b] on two keys of the same kind; every comparison with the
    invalid date is false. *)
Definition keyLt (a b : SortKey) : bool :=
  match a, b with
  | KNum x, KNum y => x <? y
  | KStr x, KStr y => String.ltb x y
  | _, _ => false
  end.

(** The comparator handed to [sort]. *)
Definition compareProducts (sanitizedSortBy sanitizedSortOrder : string)
    (a b : Product.t) : Z :=
  let aValue := sortKey sanitizedSortBy a in
  let bValue := sortKey sanitizedSortBy b in
  if String.eqb sanitizedSortOrder "desc"
  then (if keyLt aValue bValue then 1 else if keyLt bValue aValue then -1 else 0)
  else (if keyLt bValue aValue then 1 else if keyLt aValue bValue then -1 else 0).

Definition matchesCategory (sanitizedCategory : string) (p : Product.t) : bool :=
  includes sanitizedCategory (toLowerCase (Product.category p)).

Definition matchesSearch (sanitizedSearch : string) (p : Product.t) : bool :=
  includes sanitizedSearch (toLowerCase (Product.name p))
  || includes sanitizedSearch (toLowerCase (Product.description p))
  || includes sanitizedSearch (toLowerCase (Product.category p)).

(** The two filters, each applied when its parameter is not empty. *)
Definition selected (sanitizedCategory sanitizedSearch : string) (all : list Product.t)
    : list Product.t :=
  let byCategory :=
    if nonempty sanitizedCategory
    then List.filter (matchesCategory sanitizedCategory) all else all in
  if nonempty sanitizedSearch
  then List.filter (matchesSearch sanitizedSearch) byCategory else byCategory.

(** The handler from the parsing of the query parameters on. *)
Definition listProducts (q : Query) (db : MockDB) : Response * option Page :=
  let sanitizedCategory := sanitizeInput (toLowerCase (default "" (category q))) in
  let sanitizedSearch := sanitizeInput (toLowerCase (default "" (search q))) in
  let sanitizedSortBy := sanitizeInput (toLowerCase (default "name" (sortBy q))) in
  let sanitizedSortOrder := sanitizeInput (toLowerCase (default "asc" (sortOrder q))) in
  if negb (existsb (String.eqb sanitizedSortBy) allowedSortFields)
  then (bad "Invalid sort field", None)
  else if negb (existsb (String.eqb sanitizedSortOrder) allowedSortOrders)
  then (bad "Invalid sort order", None)
  else
    let sorted :=
      JsArray.sort (compareProducts sanitizedSortBy sanitizedSortOrder)
        (selected sanitizedCategory sanitizedSearch (products db)) in
    let totalProducts := Z.of_nat (length sorted) in
    let paginatedProducts :=
      JsArray.slice (numOffset q) (numOffset q + numLimit q) sorted in
    (createResponse 200 "Products fetched successfully",
     Some (mkPage paginatedProducts totalProducts (numLimit q) (numOffset q)
             (numOffset q + numLimit q <? totalProducts)
             (JsArray.sort JsArray.compareStrings
                (JsArray.unique (map Product.category (products db))))
             sanitizedCategory sanitizedSearch sanitizedSortBy sanitizedSortOrder)).

Definition handler (env : Env) (event : Event unit) (q : Query) (st : Server)
    : Response * option Page * Server :=
  match handleCORS event with
  | Some r => (r, None, st)
  | None =>
  if negb (String.eqb (httpMethod event) "GET")
  then (createErrorResponse 405 "Method not allowed" None, None, st)
  else
    match Utils.checkRateLimit (devEnv env) (now env) (clientIP event)
            "products" 100 (60 * 1000) (rateLimitStore st) with
    | (false, store) =>
        (createErrorResponse 429 "Too many requests, please try again later." None, None,
         mkServer (mockDB st) store)
    | (true, store) =>
        let '(r, page) := listProducts q (mockDB st) in
        (r, page, mkServer (mockDB st) store)
    end
  end.

End ProductsList.

(** ** The admin check that the handlers import *)

(** orders-manage.js, products-create.js, products-manage.js and
    orders.js destructure [checkAdminRole] from utils.js, whose
    [module.exports] has no such name: the binding is [undefined], and the
    call [checkAdminRole(decoded.payload)] throws a [TypeError]. The
    handlers below take the binding as an argument, [None] when undefined. *)
Definition checkAdminRole : option (JsVal -> bool) := None.

(** ** orders-manage.js: the whole handler *)

Module OrdersManageHandler.

Definition strTruthy (v : option string) : bool :=
  match v with Some s => nonempty s | None => false end.

Definition serverError : Response :=
  createErrorResponse 500 "Internal server error during order management"
    (Some "ORDER_MANAGE_ERROR").

(** The two outcomes of the update whose log entry reads
    [decoded.payload.id]: the order that is not found, and the update that
    went through. *)
Definition logsAdminId (r : Response) : bool :=
  (statusCode r =? 404) || (statusCode r =? 200).

Definition handler (verifyToken : Z -> string -> option JsVal)
    (checkAdminRole : option (JsVal -> bool))
    (env : Env) (event : Event OrdersManage.Body) (st : Server) : Response * Server :=
  match handleCORS event with
  | Some r => (r, st)
  | None =>
  if negb (String.eqb (httpMethod event) "PUT")
  then (createErrorResponse 405 "Method not allowed" None, st)
  else
    match Utils.checkRateLimit (devEnv env) (now env) (clientIP event)
            "order-manage" 20 (60 * 60 * 1000) (rateLimitStore st) with
    | (false, store) =>
        (createErrorResponse 429
           "Too many order management requests, please try again later." None,
         mkServer (mockDB st) store)
    | (true, store) =>
        let st1 := mkServer (mockDB st) store in
        let token := option_map (removeFirst "Bearer ") (authorization (headers event)) in
        if negb (strTruthy token)
        then (createErrorResponse 401 "Access token required" (Some "TOKEN_REQUIRED"), st1)
        else
          match verifyToken (now env) (default "" token) with
          | None => (serverError, st1)
          | Some decoded =>
              match getField "success" decoded with
              | None => (serverError, st1)
              | Some ok =>
                  if negb (truthy ok)
                  then (createErrorResponse 401 "Invalid access token" (Some "INVALID_TOKEN"),
                        st1)
                  else
                    match checkAdminRole, getField "payload" decoded with
                    | Some isAdmin, Some payload =>
                        if negb (isAdmin payload)
                        then
                          match getField "id" payload with
                          | None => (serverError, st1)
                          | Some _ =>
                              (createErrorResponse 403 "Admin access required"
                                 (Some "ADMIN_REQUIRED"), st1)
                          end
                        else
                          let orderId := JsText.lastSegment (path event) in
                          match (if nonempty orderId then JsText.parseInt orderId
                                 else None) with
                          | None =>
                              (createErrorResponse 400 "Valid order ID required" None, st1)
                          | Some numOrderId =>
                              match body event with
                              | None =>
                                  (createErrorResponse 400 "Invalid JSON body" None, st1)
                              | Some b =>
                                  let '(r, _, db) :=
                                    OrdersManage.manageOrder env numOrderId b (mockDB st1) in
                                  match getField "id" payload with
                                  | None =>
                                      ((if logsAdminId r then serverError else r),
                                       mkServer db store)
                                  | Some _ => (r, mkServer db store)
                                  end
                              end
                          end
                    | _, _ => (serverError, st1)
                    end
              end
          end
    end
  end.

End OrdersManageHandler.

(** ** products-create.js *)

Module ProductsCreate.

(** The fields of the parsed body, [None] when [undefined]; the texts are
    strings and the price and the stock are whole JSON numbers, as
    everywhere in the catalogue. A price or a stock sent as a string is
    outside this record: the handler tests [!price] on the raw value and
    reads it with [parseFloat] after, so that the text of 0, which is
    truthy, would be stored as the price 0 where the number 0 is
    refused. *)
Record Body := mkBody {
  name : option string;
  description : option string;
  price : option Z;
  category : option string;
  image : option string;
  stock : option Z
}.

Definition strTruthy (v : option string) : bool :=
  match v with Some s => nonempty s | None => false end.
Definition numTruthy (v : option Z) : bool :=
  match v with Some z => negb (z =? 0) | None => false end.

Definition bad (msg : string) : Response := createErrorResponse 400 msg None.

Definition lengthOutside (lo hi : nat) (s : string) : bool :=
  (Nat.ltb (String.length s) lo || Nat.ltb hi (String.length s))%bool.

Definition serverError : Response :=
  createErrorResponse 500 "Internal server error during product creation"
    (Some "PRODUCT_CREATE_ERROR").

(** The predicate of [mockDB.products.find] in the duplicate check. *)
Definition sameName (sanitizedName : string) (p : Product.t) : bool :=
  String.eqb (toLowerCase (Product.name p)) (toLowerCase sanitizedName).

(** The handler from the destructuring of the parsed body on. [payload]
    is [decoded.payload], whose [id] the log entries and the new product
    read. *)
Definition createProduct (env : Env) (payload : JsVal) (b : Body) (db : MockDB)
    : Response * MockDB :=
  if (negb (strTruthy (name b)) || negb (strTruthy (description b))
      || negb (numTruthy (price b)) || negb (strTruthy (category b)))%bool
  then (bad "Required fields: name, description, price, category", db)
  else
    let sanitizedName := sanitizeInput (default "" (name b)) in
    let sanitizedDescription := sanitizeInput (default "" (description b)) in
    let sanitizedCategory := sanitizeInput (default "" (category b)) in
    let sanitizedImage := sanitizeInput (default "" (or_else (image b) (Some ""))) in
    if lengthOutside 2 100 sanitizedName
    then (bad "Product name must be between 2-100 characters", db)
    else if lengthOutside 10 500 sanitizedDescription
    then (bad "Product description must be between 10-500 characters", db)
    else if lengthOutside 2 50 sanitizedCategory
    then (bad "Category must be between 2-50 characters", db)
    else
      let numPrice := default 0 (price b) in
      if numPrice <? 0 then (bad "Price must be a valid positive number", db)
      else
        let numStock := default 0 (stock b) in
        if numStock <? 0 then (bad "Stock must be a valid non-negative number", db)
        else
          match List.find (sameName sanitizedName) (products db), getField "id" payload with
          | _, None => (serverError, db)
          | Some existingProduct, Some _ =>
              (createErrorResponse 409 "Product with this name already exists"
                 (Some "PRODUCT_EXISTS"), db)
          | None, Some _ =>
              let newProduct :=
                Product.mk (Z.of_nat (length (products db)) + 1) sanitizedName
                  sanitizedDescription numPrice sanitizedCategory
                  (if nonempty sanitizedImage then sanitizedImage
                   else "https://picsum.photos/400/300?random=" ++ pretty (now env))
                  numStock (Some true) in
              (createResponse 201 "Product created successfully",
               mkDB (users db) (products db ++ [newProduct])%list (orders db))
          end.

Definition handler (verifyToken : Z -> string -> option JsVal)
    (checkAdminRole : option (JsVal -> bool))
    (env : Env) (event : Event Body) (st : Server) : Response * Server :=
  match handleCORS event with
  | Some r => (r, st)
  | None =>
  if negb (String.eqb (httpMethod event) "POST")
  then (createErrorResponse 405 "Method not allowed" None, st)
  else
    match Utils.checkRateLimit (devEnv env) (now env) (clientIP event)
            "product-create" 10 (60 * 60 * 1000) (rateLimitStore st) with
    | (false, store) =>
        (createErrorResponse 429
           "Too many product creation attempts, please try again later." None,
         mkServer (mockDB st) store)
    | (true, store) =>
        let st1 := mkServer (mockDB st) store in
        let token := option_map (removeFirst "Bearer ") (authorization (headers event)) in
        if negb (strTruthy token)
        then (createErrorResponse 401 "Access token required" (Some "TOKEN_REQUIRED"), st1)
        else
          match verifyToken (now env) (default "" token) with
          | None => (serverError, st1)
          | Some decoded =>
              match getField "success" decoded with
              | None => (serverError, st1)
              | Some ok =>
                  if negb (truthy ok)
                  then (createErrorResponse 401 "Invalid access token" (Some "INVALID_TOKEN"),
                        st1)
                  else
                    match checkAdminRole, getField "payload" decoded with
                    | Some isAdmin, Some payload =>
                        if negb (isAdmin payload)
                        then
                          match getField "id" payload with
                          | None => (serverError, st1)
                          | Some _ =>
                              (createErrorResponse 403 "Admin access required"
                                 (Some "ADMIN_REQUIRED"), st1)
                          end
                        else
                          match body event with
                          | None => (bad "Invalid JSON body", st1)
                          | Some b =>
                              let '(r, db) := createProduct env payload b (mockDB st1) in
                              (r, mkServer db store)
                          end
                    | _, _ => (serverError, st1)
                    end
              end
          end
    end
  end.

End ProductsCreate.

(** ** products-manage.js *)

Module ProductsManage.

Record Body := mkBody {
  name : option string;
  description : option string;
  price : option Z;
  category : option string;
  image : option string;
  stock : option Z;
  isActive : option JsVal
}.

Definition strTruthy (v : option string) : bool :=
  match v with Some s => nonempty s | None => false end.

Definition bad (msg : string) : Response := createErrorResponse 400 msg None.

Definition lengthOutside (lo hi : nat) (s : string) : bool :=
  (Nat.ltb (String.length s) lo || Nat.ltb hi (String.length s))%bool.

Definition serverError : Response :=
  createErrorResponse 500 "Internal server error during product management"
    (Some "PRODUCT_MANAGE_ERROR").

(** [mockDB.products.findIndex(p => p.id === numProductId)] *)
Fixpoint findIndex (numProductId : Z) (ps : list Product.t) : option nat :=
  match ps with
  | [] => None
  | p :: r => if Product.id p =? numProductId then Some O
              else option_map S (findIndex numProductId r)
  end.

(** [products.splice(productIndex, 1)] *)
Definition splice {A} (productIndex : nat) (l : list A) : list A :=
  (firstn productIndex l ++ skipn (S productIndex) l)%list.

(** The predicate of [find] in the duplicate check of an update. *)
Definition duplicateOf (numProductId : Z) (sanitizedName : string) (p : Product.t) : bool :=
  negb (Product.id p =? numProductId)
  && String.eqb (toLowerCase (Product.name p)) (toLowerCase sanitizedName).

Definition withName (p : Product.t) (v : string) : Product.t :=
  Product.mk (Product.id p) v (Product.description p) (Product.price p)
    (Product.category p) (Product.image p) (Product.stock p) (Product.isActive p).
Definition withDescription (p : Product.t) (v : string) : Product.t :=
  Product.mk (Product.id p) (Product.name p) v (Product.price p)
    (Product.category p) (Product.image p) (Product.stock p) (Product.isActive p).
Definition withPrice (p : Product.t) (v : Z) : Product.t :=
  Product.mk (Product.id p) (Product.name p) (Product.description p) v
    (Product.category p) (Product.image p) (Product.stock p) (Product.isActive p).
Definition withCategory (p : Product.t) (v : string) : Product.t :=
  Product.mk (Product.id p) (Product.name p) (Product.description p) (Product.price p)
    v (Product.image p) (Product.stock p) (Product.isActive p).
Definition withImage (p : Product.t) (v : string) : Product.t :=
  Product.mk (Product.id p) (Product.name p) (Product.description p) (Product.price p)
    (Product.category p) v (Product.stock p) (Product.isActive p).
Definition withActive (p : Product.t) (v : bool) : Product.t :=
  Product.mk (Product.id p) (Product.name p) (Product.description p) (Product.price p)
    (Product.category p) (Product.image p) (Product.stock p) (Some v).

(** The copy being edited and the change flag. *)
Definition Draft : Type := Product.t * bool.

(** The blocks [if (field !== undefined)] of the update, in their order. *)
Definition nameStep (numProductId : Z) (ps : list Product.t) (b : Body) (d : Draft)
    : Response + Draft :=
  match name b with
  | None => inr d
  | Some raw =>
      let sanitizedName := sanitizeInput raw in
      if lengthOutside 2 100 sanitizedName
      then inl (bad "Product name must be between 2-100 characters")
      else
        match List.find (duplicateOf numProductId sanitizedName) ps with
        | Some duplicateName =>
            inl (createErrorResponse 409 "Product with this name already exists"
                   (Some "PRODUCT_NAME_EXISTS"))
        | None => inr (withName (fst d) sanitizedName, true)
        end
  end.

Definition descriptionStep (b : Body) (d : Draft) : Response + Draft :=
  match description b with
  | None => inr d
  | Some raw =>
      let sanitizedDescription := sanitizeInput raw in
      if lengthOutside 10 500 sanitizedDescription
      then inl (bad "Product description must be between 10-500 characters")
      else inr (withDescription (fst d) sanitizedDescription, true)
  end.

Definition priceStep (b : Body) (d : Draft) : Response + Draft :=
  match price b with
  | None => inr d
  | Some numPrice =>
      if numPrice <? 0 then inl (bad "Price must be a valid positive number")
      else inr (withPrice (fst d) numPrice, true)
  end.

Definition categoryStep (b : Body) (d : Draft) : Response + Draft :=
  match category b with
  | None => inr d
  | Some raw =>
      let sanitizedCategory := sanitizeInput raw in
      if lengthOutside 2 50 sanitizedCategory
      then inl (bad "Category must be between 2-50 characters")
      else inr (withCategory (fst d) sanitizedCategory, true)
  end.

Definition imageStep (b : Body) (d : Draft) : Draft :=
  match image b with
  | None => d
  | Some raw =>
      let s := sanitizeInput raw in
      (withImage (fst d) (if nonempty s then s else Product.image (fst d)), true)
  end.

Definition stockStep (b : Body) (d : Draft) : Response + Draft :=
  match stock b with
  | None => inr d
  | Some numStock =>
      if numStock <? 0 then inl (bad "Stock must be a valid non-negative number")
      else inr (Product.withStock (fst d) numStock, true)
  end.

Definition activeStep (b : Body) (d : Draft) : Draft :=
  match isActive b with
  | None => d
  | Some v => (withActive (fst d) (truthy v), true)
  end.

(** The update of the product at [productIndex], from the parsed body to
    the product that is saved. *)
Definition updatedProduct (numProductId : Z) (ps : list Product.t)
    (existingProduct : Product.t) (b : Body) : Response + Product.t :=
  match nameStep numProductId ps b (existingProduct, false) with
  | inl err => inl err
  | inr d1 =>
  match descriptionStep b d1 with
  | inl err => inl err
  | inr d2 =>
  match priceStep b d2 with
  | inl err => inl err
  | inr d3 =>
  match categoryStep b d3 with
  | inl err => inl err
  | inr d4 =>
  match stockStep b (imageStep b d4) with
  | inl err => inl err
  | inr d6 =>
      let d7 := activeStep b d6 in
      if negb (snd d7) then inl (bad "No valid fields provided for update")
      else inr (fst d7)
  end end end end end.

(** The handler from the reading of the id in the path on, for the
    methods PUT and DELETE that it lets in. *)
Definition manageProduct (method : string) (payload : JsVal) (path : string)
    (body : option Body) (db : MockDB) : Response * MockDB :=
  let productId := JsText.lastSegment path in
  match (if nonempty productId then JsText.parseInt productId else None) with
  | None => (bad "Valid product ID required", db)
  | Some numProductId =>
      match findIndex numProductId (products db), getField "id" payload with
      | None, None => (serverError, db)
      | None, Some _ =>
          (createErrorResponse 404 "Product not found" (Some "PRODUCT_NOT_FOUND"), db)
      | Some productIndex, adminId =>
          match products db !! productIndex with
          | None => (serverError, db)
          | Some existingProduct =>
              if String.eqb method "DELETE"
              then
                let db' := mkDB (users db) (splice productIndex (products db)) (orders db) in
                match adminId with
                | None => (serverError, db')
                | Some _ => (createResponse 200 "Product deleted successfully", db')
                end
              else
                match body with
                | None => (bad "Invalid JSON body", db)
                | Some b =>
                    match updatedProduct numProductId (products db) existingProduct b with
                    | inl err => (err, db)
                    | inr saved =>
                        let db' := mkDB (users db)
                                     (<[productIndex := saved]> (products db)) (orders db) in
                        match adminId with
                        | None => (serverError, db')
                        | Some _ => (createResponse 200 "Product updated successfully", db')
                        end
                    end
                end
          end
      end
  end.

Definition handler (verifyToken : Z -> string -> option JsVal)
    (checkAdminRole : option (JsVal -> bool))
    (env : Env) (event : Event Body) (st : Server) : Response * Server :=
  match handleCORS event with
  | Some r => (r, st)
  | None =>
  if negb (existsb (String.eqb (httpMethod event)) ["PUT"; "DELETE"])
  then (createErrorResponse 405 "Method not allowed" None, st)
  else
    match Utils.checkRateLimit (devEnv env) (now env) (clientIP event)
            "product-manage" 20 (60 * 60 * 1000) (rateLimitStore st) with
    | (false, store) =>
        (createErrorResponse 429
           "Too many product management requests, please try again later." None,
         mkServer (mockDB st) store)
    | (true, store) =>
        let st1 := mkServer (mockDB st) store in
        let token := option_map (removeFirst "Bearer ") (authorization (headers event)) in
        if negb (strTruthy token)
        then (createErrorResponse 401 "Access token required" (Some "TOKEN_REQUIRED"), st1)
        else
          match verifyToken (now env) (default "" token) with
          | None => (serverError, st1)
          | Some decoded =>
              match getField "success" decoded with
              | None => (serverError, st1)
              | Some ok =>
                  if negb (truthy ok)
                  then (createErrorResponse 401 "Invalid access token" (Some "INVALID_TOKEN"),
                        st1)
                  else
                    match checkAdminRole, getField "payload" decoded with
                    | Some isAdmin, Some payload =>
                        if negb (isAdmin payload)
                        then
                          match getField "id" payload with
                          | None => (serverError, st1)
                          | Some _ =>
                              (createErrorResponse 403 "Admin access required"
                                 (Some "ADMIN_REQUIRED"), st1)
                          end
                        else
                          let '(r, db) :=
                            manageProduct (httpMethod event) payload (path event)
                              (body event) (mockDB st1) in
                          (r, mkServer db store)
                    | _, _ => (serverError, st1)
                    end
              end
          end
    end
  end.

End ProductsManage.

(** The answers of a handler that never got to its work: the preflight
    200, or one of the refusals. *)
Definition turnedAway (event_method : string) (r : Response) : Prop :=
  In (statusCode r) [200; 405; 429; 401; 500]
  /\ (statusCode r = 200 -> event_method = "OPTIONS").

(** ** Vocabulary of the catalogue properties *)

(** A product with a stock and a price that are not negative. *)
Definition stocked (p : Product.t) : Prop :=
  0 <= Product.stock p /\ 0 <= Product.price p.

(** No two products share a name, up to letter case. *)
Definition namesUnique (ps : list Product.t) : Prop :=
  NoDup (map (fun p => toLowerCase (Product.name p)) ps).

(** ** Vocabulary of the listing properties *)


(** The parameters of a query as the handler reads them. *)
Definition readCategory (q : ProductsList.Query) : string :=
  sanitizeInput (toLowerCase (default "" (ProductsList.category q))).
Definition readSearch (q : ProductsList.Query) : string :=
  sanitizeInput (toLowerCase (default "" (ProductsList.search q))).
Definition readSortBy (q : ProductsList.Query) : string :=
  sanitizeInput (toLowerCase (default "name" (ProductsList.sortBy q))).
Definition readSortOrder (q : ProductsList.Query) : string :=
  sanitizeInput (toLowerCase (default "asc" (ProductsList.sortOrder q))).

(** The products that a query selects, in the order of the listing. *)
Definition listing (q : ProductsList.Query) (db : MockDB) : list Product.t :=
  JsArray.sort (ProductsList.compareProducts (readSortBy q) (readSortOrder q))
    (ProductsList.selected (readCategory q) (readSearch q) (products db)).

(** [a] does not come after [b] in the order that a query asks for: for
    an ascending listing the key of [b] is not below the key of [a], for a
    descending one the key of [a] is not below the key of [b]. *)
Definition inOrder (sanitizedSortBy sanitizedSortOrder : string) (a b : Product.t) : Prop :=
  if String.eqb sanitizedSortOrder "desc"
  then ProductsList.keyLt (ProductsList.sortKey sanitizedSortBy a)
         (ProductsList.sortKey sanitizedSortBy b) = false
  else ProductsList.keyLt (ProductsList.sortKey sanitizedSortBy b)
         (ProductsList.sortKey sanitizedSortBy a) = false.

(** A string without a slash. *)
Definition slashFree (s : string) : bool :=
  Validate.forallb_str (fun c => negb (Ascii.eqb c "/"%char)) s.

(** A string of decimal digits. *)
Definition numeral (s : string) : bool :=
  Validate.forallb_str
    (fun c => (Nat.leb 48 (nat_of_ascii c) && Nat.leb (nat_of_ascii c) 57)%bool) s.

(** What the blocks of an update keep of the product being edited: its
    id, that stock and price are not negative, and a name that is the old
    one or one that no product with another id bears. *)
Definition keeps (numProductId : Z) (ps : list Product.t) (existing p : Product.t) : Prop :=
  Product.id p = Product.id existing
  /\ (stocked existing -> stocked p)
  /\ (Product.name p = Product.name existing
      \/ Forall (fun q => Product.id q <> numProductId ->
                          toLowerCase (Product.name q) <> toLowerCase (Product.name p)) ps).

(** [p] and [a] have keys that the comparator does not tell apart. *)
Definition tied (sanitizedSortBy : string) (a p : Product.t) : bool :=
  negb (ProductsList.keyLt (ProductsList.sortKey sanitizedSortBy a)
          (ProductsList.sortKey sanitizedSortBy p))
  && negb (ProductsList.keyLt (ProductsList.sortKey sanitizedSortBy p)
             (ProductsList.sortKey sanitizedSortBy a)).

(** What the filters of a query let through. *)
Definition passes (q : ProductsList.Query) (p : Product.t) : Prop :=
  (nonempty (readCategory q) = true ->
   ProductsList.matchesCategory (readCategory q) p = true)
  /\ (nonempty (readSearch q) = true ->
      ProductsList.matchesSearch (readSearch q) p = true).


(** The ids of a catalogue that was only ever added to: the product at
    index [i] has the id [i + 1]. *)
Definition catalogueNumbered (ps : list Product.t) : Prop :=
  forall i p, ps !! i = Some p -> Product.id p = Z.of_nat i + 1.

(** The path of a product as the client builds it. *)
Definition productPath (base : string) (productId : Z) : string :=
  base ++ "/" ++ pretty productId.

(** The payload of an administrator's token, and the body that adds the
    yoga mat to the seeded catalogue. *)
Definition adminPayload : JsVal :=
  JObj [("id", JNum 1); ("username", JStr "admin"); ("role", JStr "admin")].

Definition yogaMatBody : ProductsCreate.Body :=
  ProductsCreate.mkBody (Some "Yoga Mat Premium")
    (Some "Matras yoga anti slip dengan ketebalan optimal untuk kenyamanan")
    (Some 40) (Some "Sports") (Some "https://picsum.photos/400/400?random=23") (Some 5).

(** Two places of a catalogue hold products with the same id. *)
Definition idShared (ps : list Product.t) : Prop :=
  exists i j p q, i <> j /\ ps !! i = Some p /\ ps !! j = Some q
                  /\ Product.id p = Product.id q.

(** A run of requests to register.js, each in its own environment: the
    answers, in order, and the server left behind. *)
Fixpoint registerAll (bcrypt_hash : string -> string)
    (reqs : list (Env * Event Register.Body)) (st : Server) : list Response * Server :=
  match reqs with
  | [] => ([], st)
  | (env, event) :: rest =>
      let '(r, st1) := Register.handler bcrypt_hash env event st in
      let '(rs, st2) := registerAll bcrypt_hash rest st1 in
      (r :: rs, st2)
  end.

(** The answers of a run that registered a user. *)
Definition registered (rs : list Response) : list Response :=
  List.filter (fun r => statusCode r =? 201) rs.

(** A POST to register.js from one address, at a time. *)
Definition registration (t : Z) (username email : string)
    : Env * Event Register.Body :=
  (mkEnv t false "K3X9Q",
   mkEvent "POST" (mkHeaders (Some "203.0.113.7") None None)
     "/.netlify/functions/register"
     (Some (Register.mkBody (Some username) (Some email) (Some "Passw0rd!")
              (Some "Some One")))).

(** ** The Express server: the catalogue and order routes *)

Module ExpressShop.

(** [a === b] on values read from a token or from a JSON file: two
    objects are never the same object. *)
Definition strictEq (a b : JsVal) : bool :=
  match a, b with
  | JUndef, JUndef => true
  | JNull, JNull => true
  | JBool x, JBool y => Bool.eqb x y
  | JNum x, JNum y => x =? y
  | JStr x, JStr y => String.eqb x y
  | _, _ => false
  end.

(** The route [GET /api/products/:id]: the product found, or the 404.
    [paramId] is [req.params.id]. *)
Definition getProduct (paramId : string) (products : list Product.t)
    : Response + Product.t :=
  match JsText.parseInt paramId with
  | None => inl (Express.json 404 "Produk tidak ditemukan" None)
  | Some n =>
      match List.find (fun p => Product.id p =? n) products with
      | Some product => inr product
      | None => inl (Express.json 404 "Produk tidak ditemukan" None)
      end
  end.

(** The body of [POST /api/products] once the validators have passed:
    the texts are strings and the numbers whole. *)
Record NewProductBody := mkNewProductBody {
  name : string;
  price : Z;
  description : string;
  category : string;
  stock : Z;
  file : option string
}.

(** [Math.max(...products.map(p => p.id))] on a list that is not empty. *)
Definition maxProductId (products : list Product.t) : Z :=
  match products with
  | [] => 0
  | p :: r => fold_left Z.max (map Product.id r) (Product.id p)
  end.

(** The route [POST /api/products] behind its middleware. [writeOk] tells
    whether [writeProducts] succeeds; the route does not look at it. The
    result carries the new content of the products file. *)
Definition addProduct (writeOk : bool) (b : NewProductBody) (products : list Product.t)
    : Response * list Product.t :=
  let newProduct :=
    Product.mk (match products with [] => 1 | _ => maxProductId products + 1 end)
      (name b) (description b) (price b) (category b)
      (match file b with
       | Some f => "/images/products/" ++ f
       | None => "/images/products/default.jpg"
       end)
      (stock b) None in
  (Express.json 201 "Produk berhasil ditambahkan" None,
   if writeOk then (products ++ [newProduct])%list else products).

(** [products.findIndex(p => p.id === parseInt(req.params.id))] *)
Definition findIndexOf (paramId : string) (products : list Product.t) : option nat :=
  match JsText.parseInt paramId with
  | None => None
  | Some n => Express.findIndex n products
  end.

(** The route [DELETE /api/products/:id] behind its middleware. *)
Definition deleteProduct (writeOk : bool) (paramId : string) (products : list Product.t)
    : Response * list Product.t :=
  match findIndexOf paramId products with
  | None => (Express.json 404 "Produk tidak ditemukan" None, products)
  | Some productIndex =>
      (Express.json 200 "Produk berhasil dihapus" None,
       if writeOk then ProductsManage.splice productIndex products else products)
  end.

(** An order as the Express routes store it. What the body carried is
    kept as it came. *)
Record Order := mkOrder {
  id : Z;
  userId : JsVal;
  items : JsVal;
  totalAmount : JsVal;
  shippingAddress : JsVal;
  status : string;
  createdAt : Z
}.

(** The route [POST /api/orders] behind [verifyToken]. A body that is
    [undefined] or [null] cannot be destructured: the route answers 500. *)
Definition createOrder (now : Z) (writeOk : bool) (user : Express.ReqUser) (body : JsVal)
    (orders : list Order) : Response * list Order :=
  match getField "items" body, getField "totalAmount" body,
        getField "shippingAddress" body with
  | Some items, Some totalAmount, Some shippingAddress =>
      let newOrder :=
        mkOrder (Z.of_nat (length orders) + 1) (Express.id user) items totalAmount
          shippingAddress "pending" now in
      (Express.json 201 "Order berhasil dibuat" None,
       if writeOk then (orders ++ [newOrder])%list else orders)
  | _, _, _ => (Express.json 500 "Error server" None, orders)
  end.

(** The route [GET /api/orders] behind [verifyToken]. *)
Definition userOrders (user : Express.ReqUser) (orders : list Order) : list Order :=
  List.filter (fun order => strictEq (userId order) (Express.id user)) orders.

End ExpressShop.


(** ** The Express server: the sanitizing middleware *)

(** A parsed request body or query: a JSON value, with its arrays. *)
Module Json.

#[local] Unset Elimination Schemes.
Inductive t :=
| Null
| Bool (b : bool)
| Num (z : Z)
| Str (s : string)
| Arr (elements : list t)
| Obj (fields : list (string * t)).
#[local] Set Elimination Schemes.

End Json.

Module Sanitize.

(** [key.includes('$') || key.includes('.')] *)
Definition suspicious (key : string) : bool :=
  includes "$" key || includes "." key.

(** [sanitizeObject]. The loop visits the indices of an array and the
    keys of an object; an index is never suspicious. A value that is an
    object, an array or [null] is handed to the recursive call, a string is
    replaced by [sanitizeInput] of it, and anything else is left. The
    function changes its argument in place and returns it; the value after
    the call is the result here. *)
Fixpoint sanitizeObject (obj : Json.t) : Json.t :=
  match obj with
  | Json.Arr elements =>
      Json.Arr
        (map (fun v => match v with
                       | Json.Str s => Json.Str (sanitizeInput s)
                       | _ => sanitizeObject v
                       end) elements)
  | Json.Obj fields =>
      Json.Obj
        ((fix loop (fs : list (string * Json.t)) : list (string * Json.t) :=
            match fs with
            | [] => []
            | (key, v) :: rest =>
                if suspicious key then loop rest
                else (key, match v with
                           | Json.Str s => Json.Str (sanitizeInput s)
                           | _ => sanitizeObject v
                           end) :: loop rest
            end) fields)
  | _ => obj
  end.

End Sanitize.

(** Every key inside the value is free of [$] and of the dot, and every
    string that is the value of a key or an element of an array is free of
    the four markup characters. *)
Fixpoint cleanInside (v : Json.t) : bool :=
  match v with
  | Json.Arr elements =>
      forallb (fun e => match e with
                        | Json.Str s => markupFree s
                        | _ => cleanInside e
                        end) elements
  | Json.Obj fields =>
      forallb (fun kv => negb (Sanitize.suspicious (fst kv))
                         && match snd kv with
                            | Json.Str s => markupFree s
                            | _ => cleanInside (snd kv)
                            end) fields
  | _ => true
  end.

(** The keys of an object, at the top. *)
Definition keysOf (v : Json.t) : list string :=
  match v with
  | Json.Obj fields => map fst fields
  | _ => []
  end.

(** ** The client: the cart of main.js *)

Module Cart.

(** A line of the cart. Ids and quantities are whole numbers. *)
Record Item := mkItem {
  id : Z;
  name : string;
  price : Z;
  image : string;
  quantity : Z
}.

Definition withQuantity (item : Item) (q : Z) : Item :=
  mkItem (id item) (name item) (price item) (image item) q.

(** [existingItem.quantity += 1] on the line that [find] returned, or the
    [push] of a new line. *)
Fixpoint addToCart (product : Product.t) (cart : list Item) : list Item :=
  match cart with
  | [] => [mkItem (Product.id product) (Product.name product) (Product.price product)
             (Product.image product) 1]
  | item :: rest =>
      if id item =? Product.id product
      then withQuantity item (quantity item + 1) :: rest
      else item :: addToCart product rest
  end.

Definition removeFromCart (productId : Z) (cart : list Item) : list Item :=
  List.filter (fun item => negb (id item =? productId)) cart.

(** [item.quantity = newQuantity] on the line that [find] returned. *)
Fixpoint setQuantity (productId newQuantity : Z) (cart : list Item) : list Item :=
  match cart with
  | [] => []
  | item :: rest =>
      if id item =? productId then withQuantity item newQuantity :: rest
      else item :: setQuantity productId newQuantity rest
  end.

Definition updateQuantity (productId newQuantity : Z) (cart : list Item) : list Item :=
  if newQuantity <=? 0 then removeFromCart productId cart
  else setQuantity productId newQuantity cart.

(** [cart.reduce((total, item) => total + item.quantity, 0)] *)
Definition totalItems (cart : list Item) : Z :=
  fold_left (fun total item => total + quantity item) cart 0.

End Cart.

(** One line per product, each with a positive quantity. *)
Definition cartOk (cart : list Cart.Item) : Prop :=
  NoDup (map Cart.id cart) /\ Forall (fun item => 0 < Cart.quantity item) cart.

(** The quantity of a product in the cart, 0 when it has no line. *)
Definition quantityOf (productId : Z) (cart : list Cart.Item) : Z :=
  match List.find (fun item => Cart.id item =? productId) cart with
  | Some item => Cart.quantity item
  | None => 0
  end.

(** ** The client: the cache of api.js *)

Module ApiCache.

Section Cache.

Context {A : Type}.

Record Entry := mkEntry {
  data : A;
  timestamp : Z;
  ttl : Z
}.

(** [getCachedData] at the time [now]: the data it returns, [None] for
    the [null] of a miss, and the cache afterwards. *)
Definition getCachedData (now : Z) (key : string) (cache : gmap string Entry)
    : option A * gmap string Entry :=
  match cache !! key with
  | None => (None, cache)
  | Some cached =>
      if ttl cached <? now - timestamp cached then (None, delete key cache)
      else (Some (data cached), cache)
  end.

Definition setCachedData (now : Z) (key : string) (d : A) (t : Z)
    (cache : gmap string Entry) : gmap string Entry :=
  <[key := mkEntry d now t]> cache.

Definition clearCacheByPattern (pattern : string) (cache : gmap string Entry)
    : gmap string Entry :=
  filter (fun kv => includes pattern (fst kv) = false) cache.

Definition clearAllCache (cache : gmap string Entry) : gmap string Entry := ∅.

End Cache.

Arguments Entry : clear implicits.

End ApiCache.

(** * Properties *)

(** ** Proof steps shared by the handler proofs *)

(** Case analysis on the guards of a handler: the boolean tests and the
    optional fields it branches on. *)
Ltac case_guards :=
  repeat match goal with
         | |- context [match ?x with _ => _ end] =>
             match type of x with
             | bool => destruct x
             | option _ => destruct x
             end
         end.

Ltac case_options :=
  repeat match goal with
         | |- context [match ?x with _ => _ end] =>
             match type of x with
             | option _ => destruct x
             end
         end.

(** The same, also on the lists a handler inspects. *)
Ltac case_inputs :=
  repeat match goal with
         | |- context [match ?x with _ => _ end] =>
             match type of x with
             | bool => destruct x
             | option _ => destruct x
             | list _ => destruct x
             end
         end.

(** The same, down to the results of the loops. *)
Ltac case_branches :=
  repeat match goal with
         | |- context [match ?x with _ => _ end] =>
             match type of x with
             | bool => destruct x
             | option _ => destruct x
             | list _ => destruct x
             | sum _ _ => destruct x
             | prod _ _ => destruct x
             end
         end.

(** Rewriting with the checks that a request is known to pass. *)
Ltac rewrite_checks :=
  repeat match goal with
         | H : _ = true |- _ => rewrite H
         | H : _ = false |- _ => rewrite H
         end.

(** ** String primitives on examples *)

Example trim_strips_both_ends : trim "  a b  " = "a b".
Proof. reflexivity. Qed.

(** [sanitizeInput] trims before it strips, so a blank that followed a
    stripped quote survives at the front. *)
Example sanitizeInput_leaves_inner_blank : sanitizeInput "' bob" = " bob".
Proof. reflexivity. Qed.

Example removeFirst_only_first :
  removeFirst "Bearer " "Bearer Bearer abc" = "Bearer abc".
Proof. reflexivity. Qed.

Example validateEmail_examples :
  Validate.validateEmail "alice@x.com" = true
  /\ Validate.validateEmail "alice@x" = false
  /\ Validate.validateEmail "a lice@x.com" = false
  /\ Validate.validateEmail "alice@@x.com" = false
  /\ Validate.validateEmail "alice@.com" = false
  /\ Validate.validateEmail "alice@x." = false
  /\ Validate.validateEmail "alice@x.com." = true.
Proof. repeat split. Qed.


(** ** Rate limiter *)

Section RateLimiter.

Lemma filter_keep_all (f : Z -> bool) (l : list Z) :
  Forall (fun x => f x = true) l -> List.filter f l = l.
Proof.
  induction 1 as [|x l Hx _ IH]; simpl; [reflexivity|].
  rewrite Hx, IH. reflexivity.
Qed.

Lemma filter_drop_all (f : Z -> bool) (l : list Z) :
  Forall (fun x => f x = false) l -> List.filter f l = [].
Proof.
  induction 1 as [|x l Hx _ IH]; simpl; [reflexivity|].
  rewrite Hx, IH. reflexivity.
Qed.

Variables (key : string) (maxRequests windowMs : Z).

Lemma slidingWindow_refuses t store :
  maxRequests <= Z.of_nat (length (live key windowMs t store)) ->
  exists store',
    Utils.slidingWindow t key maxRequests windowMs store = (false, store')
    /\ recorded key store' = recorded key store
    /\ (is_Some (store !! key) -> store' = store)
    /\ (forall k, k <> key -> store' !! k = store !! k).
Proof.
  intros Hfull. unfold Utils.slidingWindow, live, recorded in *.
  destruct (store !! key) as [l|] eqn:Hk; simpl in *.
  - rewrite Hk. simpl.
    destruct (Z.leb_spec maxRequests
                (Z.of_nat (length (List.filter (fun x => t - windowMs <? x) l)))); [|lia].
    exists store. rewrite Hk. simpl. auto.
  - rewrite lookup_insert_eq. simpl in *.
    destruct (Z.leb_spec maxRequests (Z.of_nat 0)); [|lia].
    exists (<[key := []]> store). rewrite lookup_insert_eq. simpl.
    split; [reflexivity|]. split; [reflexivity|]. split.
    + intros Hsome. destruct Hsome as [x Hx]. discriminate.
    + intros k Hne. apply lookup_insert_ne. congruence.
Qed.

Lemma slidingWindow_allows t store :
  Z.of_nat (length (live key windowMs t store)) < maxRequests ->
  Utils.slidingWindow t key maxRequests windowMs store
  = (true, <[key := (live key windowMs t store ++ [t])%list]> store).
Proof.
  intros Hroom. unfold Utils.slidingWindow, live, recorded in *.
  destruct (store !! key) as [l|] eqn:Hk; simpl in *.
  - rewrite Hk. simpl.
    destruct (Z.leb_spec maxRequests
                (Z.of_nat (length (List.filter (fun x => t - windowMs <? x) l)))); [lia|].
    reflexivity.
  - rewrite lookup_insert_eq. simpl.
    destruct (Z.leb_spec maxRequests (Z.of_nat 0)); [lia|].
    rewrite insert_insert_eq. reflexivity.
Qed.

End RateLimiter.

Section RateLimitedCaller.

Variables (devEnv : bool) (clientIP endpoint : string) (maxRequests windowMs : Z).
Hypothesis not_bypassed : Utils.isDevelopment devEnv clientIP = false.

Let key := Utils.rateKey clientIP endpoint.

Lemma checkRateLimit_window t store :
  Utils.checkRateLimit devEnv t clientIP endpoint maxRequests windowMs store
  = Utils.slidingWindow t key maxRequests windowMs store.
Proof. unfold Utils.checkRateLimit. rewrite not_bypassed. reflexivity. Qed.

(** While fewer than [maxRequests] timestamps are recorded and all of
    them are inside the window of every request of the run, each request
    is allowed and appends its own time. *)
Lemma serveAll_within (horizon : Z) (times pre : list Z) (store : gmap string (list Z)) :
  recorded key store = pre ->
  Forall (fun x => horizon - windowMs < x) pre ->
  Forall (fun x => x <= horizon /\ horizon - windowMs < x) times ->
  Z.of_nat (length pre + length times) <= maxRequests ->
  exists store',
    serveAll devEnv clientIP endpoint maxRequests windowMs times store
    = (repeat true (length times), store')
    /\ recorded key store' = (pre ++ times)%list
    /\ (times <> [] -> store' !! key = Some (pre ++ times)%list)
    /\ (times = [] -> store' = store).
Proof.
  revert pre store.
  induction times as [|t rest IH]; intros pre store Hpre Hlive Htimes Hroom; simpl.
  - exists store. rewrite app_nil_r.
    split; [reflexivity|]. split; [exact Hpre|]. split; [congruence|reflexivity].
  - inversion Htimes as [|? ? [Hle Hin] Hrest]; subst.
    rewrite checkRateLimit_window.
    assert (Hkeep : live key windowMs t store = recorded key store).
    { unfold live. apply filter_keep_all.
      eapply Forall_impl; [exact Hlive|]. simpl. intros x Hx.
      apply Z.ltb_lt. lia. }
    rewrite slidingWindow_allows; rewrite Hkeep.
    2:{ simpl in Hroom. lia. }
    set (store1 := <[key := (recorded key store ++ [t])%list]> store).
    destruct (IH (recorded key store ++ [t])%list store1) as (store' & Hrun & Hrec & Hsome & _).
    + unfold recorded, store1. rewrite lookup_insert_eq. reflexivity.
    + apply Forall_app. split; [exact Hlive|]. constructor; [lia|constructor].
    + exact Hrest.
    + rewrite length_app. simpl in *. lia.
    + exists store'. rewrite Hrun. rewrite <- app_assoc in Hrec. simpl in Hrec.
      split; [reflexivity|]. split; [exact Hrec|]. split; [|discriminate].
      intros _. destruct rest as [|t2 rest2].
      * simpl in Hrun. injection Hrun as <-. unfold store1.
        rewrite lookup_insert_eq. reflexivity.
      * rewrite Hsome by discriminate. rewrite <- app_assoc. reflexivity.
Qed.

(** A request that is allowed leaves, for its key, the timestamps that
    still counted followed by its own time. *)
Lemma checkRateLimit_allowed t store store1 :
  Utils.checkRateLimit devEnv t clientIP endpoint maxRequests windowMs store
  = (true, store1) ->
  Z.of_nat (length (live key windowMs t store)) < maxRequests
  /\ recorded key store1 = (live key windowMs t store ++ [t])%list.
Proof.
  rewrite checkRateLimit_window. intros Hrun.
  destruct (Z.le_gt_cases maxRequests (Z.of_nat (length (live key windowMs t store))))
    as [Hfull|Hroom].
  - destruct (slidingWindow_refuses key maxRequests windowMs t store Hfull)
      as (store' & Hno & _).
    rewrite Hno in Hrun. discriminate.
  - rewrite (slidingWindow_allows key maxRequests windowMs t store) in Hrun by lia.
    injection Hrun as <-. split; [lia|].
    unfold recorded at 1. rewrite lookup_insert_eq. reflexivity.
Qed.

(** When every request of a run was allowed, whatever the store held
    before, the times of the run are the last timestamps of the key: the
    requests of the run inside the window that ends at [horizon] are never
    pruned by a later one of them. *)
Lemma serveAll_allowed_recorded (horizon : Z) (times old acc : list Z)
    (store store1 : gmap string (list Z)) :
  recorded key store = (old ++ acc)%list ->
  Forall (fun x => horizon - windowMs < x) acc ->
  Forall (fun x => x <= horizon /\ horizon - windowMs < x) times ->
  serveAll devEnv clientIP endpoint maxRequests windowMs times store
  = (repeat true (length times), store1) ->
  exists old', recorded key store1 = (old' ++ acc ++ times)%list.
Proof.
  revert old acc store.
  induction times as [|x rest IH]; intros old acc store Hrec Hacc Htimes Hrun; simpl in Hrun.
  - injection Hrun as <-. exists old. rewrite app_nil_r. exact Hrec.
  - apply Forall_cons in Htimes as [[Hle Hin] Hrest].
    destruct (Utils.checkRateLimit devEnv x clientIP endpoint maxRequests windowMs store)
      as [ok s1] eqn:Hstep.
    destruct (serveAll devEnv clientIP endpoint maxRequests windowMs rest s1)
      as [oks s2] eqn:Hrest_run.
    injection Hrun as -> -> ->.
    apply checkRateLimit_allowed in Hstep as [_ Hs1].
    unfold live in Hs1. rewrite Hrec, List.filter_app in Hs1.
    rewrite (filter_keep_all _ acc) in Hs1.
    2:{ eapply Forall_impl; [exact Hacc|]. simpl. intros y Hy. apply Z.ltb_lt. lia. }
    destruct (IH (List.filter (fun timestamp => x - windowMs <? timestamp) old)
                (acc ++ [x])%list s1) as [old' Hold'].
    + rewrite Hs1, <- app_assoc. reflexivity.
    + apply Forall_app. split; [exact Hacc|]. constructor; [lia|constructor].
    + exact Hrest.
    + exact Hrest_run.
    + exists old'. rewrite Hold', <- app_assoc. reflexivity.
Qed.

(** A run is allowed throughout when it fits the limit and every
    timestamp recorded before it is older than the window at each of its
    requests. *)
Lemma serveAll_after_stale (horizon : Z) (times acc : list Z)
    (store : gmap string (list Z)) :
  (exists old, recorded key store = (old ++ acc)%list
               /\ Forall (fun x => Forall (fun y => x <= y - windowMs) times) old) ->
  Forall (fun x => horizon - windowMs < x) acc ->
  Forall (fun x => x <= horizon /\ horizon - windowMs < x) times ->
  Z.of_nat (length acc + length times) <= maxRequests ->
  exists store1,
    serveAll devEnv clientIP endpoint maxRequests windowMs times store
    = (repeat true (length times), store1).
Proof.
  revert acc store.
  induction times as [|x rest IH]; intros acc store (old & Hrec & Hstale) Hacc Htimes Hroom;
    simpl.
  - eauto.
  - apply Forall_cons in Htimes as [[Hle Hin] Hrest].
    assert (Hlive : live key windowMs x store = acc).
    { unfold live. rewrite Hrec, List.filter_app.
      rewrite (filter_drop_all _ old), (filter_keep_all _ acc); [reflexivity| |].
      - eapply Forall_impl; [exact Hacc|]. simpl. intros y Hy. apply Z.ltb_lt. lia.
      - eapply Forall_impl; [exact Hstale|]. simpl. intros y Hy.
        apply Forall_cons in Hy as [Hy _]. apply Z.ltb_ge. lia. }
    rewrite checkRateLimit_window, slidingWindow_allows; rewrite Hlive.
    2:{ simpl in Hroom. lia. }
    destruct (IH (acc ++ [x])%list (<[key := (acc ++ [x])%list]> store)) as [store1 Hrun].
    + exists []. split; [|constructor].
      unfold recorded. rewrite lookup_insert_eq. reflexivity.
    + apply Forall_app. split; [exact Hacc|]. constructor; [lia|constructor].
    + exact Hrest.
    + rewrite length_app. simpl in *. lia.
    + exists store1. rewrite Hrun. reflexivity.
Qed.

(** C6, with the development bypass set aside, whatever the store holds
    for the key: for a caller that the bypass does not exempt and a run of
    [maxRequests] requests inside one window, (1) the requests of the run
    are each allowed when every timestamp recorded before is older than
    the window at each of them (nothing recorded is one such case); (2)
    whenever the requests of the run were each allowed, their times are
    recorded, the next request inside that window is refused and leaves the
    recorded timestamps as they are, and once the window has elapsed since
    every recorded request a request is allowed again and the pruned
    timestamps are gone. *)
Theorem rate_limit_window (times : list Z) (t t' : Z) (store : gmap string (list Z)) :
  Z.of_nat (length times) = maxRequests ->
  Forall (fun x => x <= t /\ t - windowMs < x) times ->
  (Forall (fun x => Forall (fun y => x <= y - windowMs) times) (recorded key store) ->
   exists store1,
     serveAll devEnv clientIP endpoint maxRequests windowMs times store
     = (repeat true (length times), store1))
  /\ (forall store1,
        serveAll devEnv clientIP endpoint maxRequests windowMs times store
        = (repeat true (length times), store1) ->
        exists old store2,
          recorded key store1 = (old ++ times)%list
          /\ Utils.checkRateLimit devEnv t clientIP endpoint maxRequests windowMs store1
             = (false, store2)
          /\ recorded key store2 = recorded key store1
          /\ (forall k, k <> key -> store2 !! k = store1 !! k)
          /\ (0 < maxRequests ->
              Forall (fun x => x <= t' - windowMs) (recorded key store1) ->
              Utils.checkRateLimit devEnv t' clientIP endpoint maxRequests windowMs store2
              = (true, <[key := [t']]> store2))).
Proof.
  intros Hlen Hin. split.
  - intros Hstale.
    apply (serveAll_after_stale t times [] store); [|constructor|exact Hin|simpl; lia].
    exists (recorded key store). rewrite app_nil_r. split; [reflexivity|exact Hstale].
  - intros store1 Hrun.
    destruct (serveAll_allowed_recorded t times (recorded key store) [] store store1)
      as [old Hrec]; [symmetry; apply app_nil_r|constructor|exact Hin|exact Hrun|].
    simpl in Hrec.
    assert (Hfull : maxRequests <= Z.of_nat (length (live key windowMs t store1))).
    { unfold live. rewrite Hrec, List.filter_app, length_app.
      rewrite (filter_keep_all _ times); [lia|].
      eapply Forall_impl; [exact Hin|]. simpl. intros x [_ Hx]. apply Z.ltb_lt. lia. }
    destruct (slidingWindow_refuses key maxRequests windowMs t store1 Hfull)
      as (store2 & Hno & Hrec2 & _ & Hothers).
    exists old, store2. rewrite checkRateLimit_window.
    split; [exact Hrec|]. split; [exact Hno|]. split; [exact Hrec2|].
    split; [exact Hothers|].
    intros Hpos Hout. rewrite checkRateLimit_window.
    assert (Hgone : live key windowMs t' store2 = []).
    { unfold live. rewrite Hrec2. apply filter_drop_all.
      eapply Forall_impl; [exact Hout|]. simpl. intros x Hx. apply Z.ltb_ge. lia. }
    rewrite slidingWindow_allows; rewrite Hgone; [reflexivity|simpl; lia].
Qed.

End RateLimitedCaller.

(** A run inside one window on a key that still holds one timestamp of
    an hour before, checked on a concrete caller. *)
Lemma rate_limit_window_witness :
  let key := Utils.rateKey "203.0.113.7" "login" in
  let store : gmap string (list Z) := {[ key := [-3600000] ]} in
  (Forall (fun x => Forall (fun y => x <= y - 1000) [0; 10]) (recorded key store) ->
   exists store1,
     serveAll false "203.0.113.7" "login" 2 1000 [0; 10] store = (repeat true 2, store1))
  /\ (forall store1,
        serveAll false "203.0.113.7" "login" 2 1000 [0; 10] store = (repeat true 2, store1) ->
        exists old store2,
          recorded key store1 = (old ++ [0; 10])%list
          /\ Utils.checkRateLimit false 20 "203.0.113.7" "login" 2 1000 store1
             = (false, store2)
          /\ recorded key store2 = recorded key store1
          /\ (forall k, k <> key -> store2 !! k = store1 !! k)
          /\ (0 < 2 ->
              Forall (fun x => x <= 1010 - 1000) (recorded key store1) ->
              Utils.checkRateLimit false 1010 "203.0.113.7" "login" 2 1000 store2
              = (true, <[key := [1010]]> store2))).
Proof.
  apply (rate_limit_window false "203.0.113.7" "login" 2 1000 eq_refl [0; 10] 20 1010
           {[ Utils.rateKey "203.0.113.7" "login" := [-3600000] ]}).
  - reflexivity.
  - repeat constructor; lia.
Defined.

(** C6 as stated fails for a caller that the bypass exempts: configured for
    one request per window, the caller [localhost] is allowed a second
    request one millisecond after the first, and neither is recorded. It
    also fails for a key configured for no request at all, whose caller is
    refused although nothing was ever recorded for the key. *)
Lemma rate_limit_bypass_counterexample :
  serveAll false "localhost" "login" 1 1000 [0; 1] ∅ = ([true; true], ∅)
  /\ fst (serveAll false "203.0.113.7" "login" 0 1000 [5000] ∅) = [false].
Proof. split; reflexivity. Qed.

(** An exempted caller is always allowed, and nothing is recorded. *)
Lemma checkRateLimit_bypassed devEnv now clientIP endpoint maxRequests windowMs store :
  Utils.isDevelopment devEnv clientIP = true ->
  Utils.checkRateLimit devEnv now clientIP endpoint maxRequests windowMs store
  = (true, store).
Proof. intros H. unfold Utils.checkRateLimit. rewrite H. reflexivity. Qed.

(** The second copy of utils.js has no bypass: it is the sliding window
    for every caller. *)
Lemma UtilsBase_checkRateLimit_window now clientIP endpoint maxRequests windowMs store :
  UtilsBase.checkRateLimit now clientIP endpoint maxRequests windowMs store
  = Utils.slidingWindow now (Utils.rateKey clientIP endpoint) maxRequests windowMs store.
Proof. reflexivity. Qed.

(** ** Numbers as text *)

Section NumberText.

Import JsNumber.

Lemma append_cons c (a b : string) : String c a ++ b = String c (a ++ b).
Proof. reflexivity. Qed.

(** The digits that [pretty] prints for a positive number. *)
Lemma digits_pretty_go (x : N) :
  (0 < x)%N ->
  exists k : nat,
    forall s acc seen,
      JsText.digits 10 (pretty_N_go x s) acc seen
      = JsText.digits 10 s (acc * 10 ^ Z.of_nat k + Z.of_N x) true.
Proof.
  induction (N.lt_wf_0 x) as [x _ IH]. intros Hpos.
  assert (Hchar : forall r a b,
             JsText.digits 10 (String (pretty_N_char (N.modulo x 10%N)) r) a b
             = JsText.digits 10 r (a * 10 + Z.of_N (N.modulo x 10%N)) true).
  { intros r a b.
    assert (Hlt : (N.modulo x 10%N < 10)%N) by (apply N.mod_lt; lia).
    destruct (N.modulo x 10%N) as [|p] eqn:Hm; [reflexivity|].
    do 4 (destruct p as [p|p|]; try reflexivity; try lia). }
  assert (Hx : Z.of_N x = 10 * Z.of_N (N.div x 10%N) + Z.of_N (N.modulo x 10%N)).
  { rewrite (N.div_mod x 10%N) at 1 by lia. lia. }
  destruct (N.eq_dec (N.div x 10%N) 0%N) as [Hz|Hnz].
  - exists 1%nat. intros s acc seen.
    rewrite pretty_N_go_step by exact Hpos.
    rewrite Hz, pretty_N_go_0, Hchar. f_equal. rewrite Hx, Hz. lia.
  - destruct (IH (N.div x 10%N)) as [k Hk].
    + apply N.div_lt; lia.
    + apply N.neq_0_lt_0. exact Hnz.
    + exists (S k). intros s acc seen.
      rewrite pretty_N_go_step by exact Hpos.
      rewrite Hk, Hchar. f_equal. rewrite Hx.
      rewrite Nat2Z.inj_succ, Z.pow_succ_r by lia. lia.
Qed.

(** What [pretty] prints for a positive number starts with a digit that
    is not zero, and holds digits only. *)
Lemma pretty_go_head (x : N) :
  (0 < x)%N ->
  forall s, exists c r,
    pretty_N_go x s = String c r
    /\ (Nat.leb 49 (nat_of_ascii c) && Nat.leb (nat_of_ascii c) 57)%bool = true.
Proof.
  induction (N.lt_wf_0 x) as [x _ IH]. intros Hpos s.
  rewrite pretty_N_go_step by exact Hpos.
  destruct (N.eq_dec (N.div x 10%N) 0%N) as [Hz|Hnz].
  - rewrite Hz, pretty_N_go_0. do 2 eexists. split; [reflexivity|].
    assert (Hx : x = (N.modulo x 10%N)).
    { rewrite (N.div_mod x 10%N) at 1 by lia. rewrite Hz. lia. }
    assert (Hlt : (N.modulo x 10%N < 10)%N) by (apply N.mod_lt; lia).
    destruct (N.modulo x 10%N) as [|p] eqn:Hm; [lia|].
    do 4 (destruct p as [p|p|]; try reflexivity; try lia).
  - apply IH; [apply N.div_lt; lia|apply N.neq_0_lt_0; exact Hnz].
Qed.

Lemma parseInt_pretty_pos (p : positive) :
  JsText.parseInt (pretty (Z.pos p)) = Some (Z.pos p)
  /\ JsText.parseInt (pretty (Z.neg p)) = Some (Z.neg p).
Proof.
  change (pretty (Z.pos p)) with (pretty_N_go (N.pos p) "").
  change (pretty (Z.neg p)) with ("-" ++ pretty_N_go (N.pos p) "").
  destruct (pretty_go_head (N.pos p) eq_refl "") as (c & r & Hhead & Hc).
  destruct (digits_pretty_go (N.pos p) eq_refl) as [k Hk].
  assert (Hplain : is_space c = false /\ Nat.eqb (nat_of_ascii c) 45 = false
                   /\ Nat.eqb (nat_of_ascii c) 43 = false
                   /\ Nat.eqb (nat_of_ascii c) 48 = false).
  { apply andb_true_iff in Hc as [Hlo Hhi].
    apply Nat.leb_le in Hlo. apply Nat.leb_le in Hhi.
    unfold is_space. repeat split.
    - apply orb_false_iff. split.
      + apply andb_false_iff. right. apply Nat.leb_gt. lia.
      + apply Nat.eqb_neq. lia.
    - apply Nat.eqb_neq. lia.
    - apply Nat.eqb_neq. lia.
    - apply Nat.eqb_neq. lia. }
  destruct Hplain as (Hsp & Hminus & Hplus & Hzero).
  assert (Hprefix : (String.prefix "0x" (String c r) || String.prefix "0X" (String c r))%bool
                    = false).
  { assert (H0 : forall p', String.prefix (String "0" p') (String c r) = false).
    { intros p'. cbn [String.prefix].
      destruct (ascii_dec "0" c) as [<-|Hne]; [discriminate Hzero|reflexivity]. }
    rewrite !H0. reflexivity. }
  assert (Hstart : trimStart (String c r) = String c r).
  { cbn [trimStart]. rewrite Hsp. reflexivity. }
  split.
  - unfold JsText.parseInt. rewrite Hhead, Hstart, Hminus, Hplus.
    cbn [orb]. cbv zeta. rewrite Hprefix. rewrite <- Hhead, Hk. simpl. reflexivity.
  - unfold JsText.parseInt. rewrite append_cons.
    change ("" ++ pretty_N_go (N.pos p) "") with (pretty_N_go (N.pos p) "").
    assert (Hdash : trimStart (String "-" (pretty_N_go (N.pos p) ""))
                    = String "-" (pretty_N_go (N.pos p) "")) by reflexivity.
    rewrite Hdash. cbv zeta.
    assert (Hm : Nat.eqb (nat_of_ascii "-") 45 = true) by reflexivity.
    rewrite Hm. cbn [orb drop]. rewrite Hhead, Hprefix. rewrite <- Hhead, Hk.
    simpl. reflexivity.
Qed.

Lemma parseInt_pretty (z : Z) : JsText.parseInt (pretty z) = Some z.
Proof.
  destruct z as [|p|p]; [reflexivity|apply parseInt_pretty_pos..].
Qed.

Lemma magnitude_lower fuel m e p :
  p = 10 ^ e -> 0 <= e -> p <= m ->
  10 ^ (magnitude fuel m e p) <= m /\ e <= magnitude fuel m e p.
Proof.
  revert e p. induction fuel as [|f IH]; intros e p Hp He Hle; simpl.
  - subst p. split; [exact Hle|lia].
  - destruct (Z.leb_spec (p * 10) m) as [Hnext|Hstop].
    + destruct (IH (e + 1) (p * 10)) as [H1 H2]; [|lia|exact Hnext|split; [exact H1|lia]].
      subst p. rewrite Z.pow_add_r by lia. lia.
    + subst p. split; [exact Hle|lia].
Qed.

Lemma magnitude_upper fuel m e p :
  p = 10 ^ e -> 0 <= e -> 0 < p -> m < p * 2 ^ Z.of_nat fuel ->
  m < 10 ^ (magnitude fuel m e p + 1).
Proof.
  revert e p. induction fuel as [|f IH]; intros e p Hp He Hpos Hlt; simpl.
  - subst p. rewrite Z.pow_add_r by lia. simpl in Hlt. lia.
  - destruct (Z.leb_spec (p * 10) m) as [Hnext|Hstop].
    + apply IH; [subst p; rewrite Z.pow_add_r by lia; lia|lia|lia|].
      rewrite Nat2Z.inj_succ, Z.pow_succ_r in Hlt by lia.
      assert (0 < 2 ^ Z.of_nat f) by (apply Z.pow_pos_nonneg; lia). nia.
    + subst p. rewrite Z.pow_add_r by lia. lia.
Qed.

(** The first of the significant digits is not zero. *)
Lemma significand_pos a d : 0 < a -> 0 < d -> 0 < significand a d (exponent10 a d).
Proof.
  intros Ha Hd. unfold significand, exponent10.
  destruct (Z.leb_spec d a) as [Hbig|Hsmall].
  - assert (H1 : 1 <= a / d) by (apply Z.div_le_lower_bound; lia).
    destruct (magnitude_lower (S (Z.to_nat (Z.log2 (a / d)))) (a / d) 0 1)
      as [Hlow He]; [reflexivity|lia|exact H1|].
    set (e := magnitude _ _ _ _) in *.
    assert (Hde : d * 10 ^ e <= a).
    { pose proof (Z.mul_div_le a d Hd). nia. }
    destruct (Z.leb_spec 0 (16 - e)).
    + apply Z.div_str_pos. split; [lia|].
      assert (1 <= 10 ^ (16 - e)) by (apply Z.pow_le_mono_r with (b := 0) (c := 16 - e); lia).
      nia.
    + apply Z.div_str_pos.
      assert (0 < 10 ^ (e - 16)) by (apply Z.pow_pos_nonneg; lia).
      assert (10 ^ (e - 16) <= 10 ^ e) by (apply Z.pow_le_mono_r; lia).
      split; nia.
  - assert (H1 : 1 <= (d - 1) / a) by (apply Z.div_le_lower_bound; lia).
    pose proof (magnitude_lower (S (Z.to_nat (Z.log2 ((d - 1) / a)))) ((d - 1) / a) 0 1
                  eq_refl ltac:(lia) H1) as [_ He].
    pose proof (magnitude_upper (S (Z.to_nat (Z.log2 ((d - 1) / a)))) ((d - 1) / a) 0 1
                  eq_refl ltac:(lia) ltac:(lia)) as Hup.
    set (g := magnitude _ _ _ _) in *.
    assert (Hlt : (d - 1) / a < 10 ^ (g + 1)).
    { apply Hup. rewrite Z.mul_1_l, Nat2Z.inj_succ, Z2Nat.id by apply Z.log2_nonneg.
      apply Z.log2_spec. lia. }
    assert (Hd1 : d - 1 < a * 10 ^ (g + 1)).
    { pose proof (Z.mul_succ_div_gt (d - 1) a Ha). nia. }
    replace (16 - - (g + 1)) with (g + 1 + 16) by lia.
    destruct (Z.leb_spec 0 (g + 1 + 16)); [|lia].
    apply Z.div_str_pos. split; [lia|].
    rewrite Z.pow_add_r by lia.
    assert (1 <= 10 ^ 16) by lia.
    assert (0 < 10 ^ (g + 1)) by (apply Z.pow_pos_nonneg; lia).
    nia.
Qed.


Lemma leading_not_zero c : leading c -> Ascii.eqb c "0" = false.
Proof.
  unfold leading. intros H. apply andb_true_iff in H as [Hlo _]. apply Nat.leb_le in Hlo.
  destruct (Ascii.eqb_spec c "0") as [->|]; [|reflexivity].
  change (nat_of_ascii "0") with 48%nat in Hlo. lia.
Qed.

(** What is printed for a whole number above zero starts with such a
    digit, and so does what is left of it without its last zeros. *)
Lemma stripZeros_pretty_head (z : Z) :
  0 < z -> exists c r, stripZeros (pretty z) = String c r /\ leading c.
Proof.
  intros Hz. destruct z as [|p|p]; try lia.
  change (pretty (Z.pos p)) with (pretty_N_go (N.pos p) "").
  destruct (pretty_go_head (N.pos p) eq_refl "") as (c & r & -> & Hc).
  cbn [stripZeros]. rewrite (leading_not_zero c Hc).
  destruct (stripZeros r); eauto.
Qed.

Lemma digits_seen radix s acc : exists z, JsText.digits radix s acc true = Some z.
Proof.
  revert acc. induction s as [|c r IH]; intros acc; simpl; [eauto|].
  destruct (JsText.digitValue c) as [d|]; [|eauto].
  destruct (d <? radix); [apply IH|eauto].
Qed.

(** [parseInt] reads a number off a text that starts with a digit from 1
    to 9, behind a minus sign or not. *)
Lemma parseInt_leading (minus : bool) c r :
  leading c ->
  exists z, JsText.parseInt ((if minus then "-" else "") ++ String c r) = Some z.
Proof.
  intros Hc. pose proof (leading_not_zero c Hc) as Hzero.
  unfold leading in Hc. apply andb_true_iff in Hc as [Hlo Hhi].
  apply Nat.leb_le in Hlo. apply Nat.leb_le in Hhi.
  assert (Hsp : is_space c = false).
  { unfold is_space. apply orb_false_iff. split.
    - apply andb_false_iff. right. apply Nat.leb_gt. lia.
    - apply Nat.eqb_neq. lia. }
  assert (Hminus : Nat.eqb (nat_of_ascii c) 45 = false) by (apply Nat.eqb_neq; lia).
  assert (Hplus : Nat.eqb (nat_of_ascii c) 43 = false) by (apply Nat.eqb_neq; lia).
  assert (Hprefix : (String.prefix "0x" (String c r) || String.prefix "0X" (String c r))%bool
                    = false).
  { assert (H0 : forall p', String.prefix (String "0" p') (String c r) = false).
    { intros p'. cbn [String.prefix].
      destruct (ascii_dec "0" c) as [<-|Hne]; [discriminate Hzero|reflexivity]. }
    rewrite !H0. reflexivity. }
  assert (Hdigit : exists d, JsText.digitValue c = Some d /\ (d <? 10) = true).
  { unfold JsText.digitValue.
    assert ((Nat.leb 48 (nat_of_ascii c) && Nat.leb (nat_of_ascii c) 57)%bool = true) as ->.
    { apply andb_true_iff. split; apply Nat.leb_le; lia. }
    eexists. split; [reflexivity|]. apply Z.ltb_lt. lia. }
  destruct Hdigit as (d & Hd & Hlt).
  destruct minus; unfold JsText.parseInt.
  - change ("-" ++ String c r) with (String "-" (String c r)).
    assert (Hdash : trimStart (String "-" (String c r)) = String "-" (String c r))
      by reflexivity.
    rewrite Hdash. cbv zeta.
    assert (Hm : Nat.eqb (nat_of_ascii "-") 45 = true) by reflexivity.
    rewrite Hm. cbn [orb drop]. rewrite Hprefix.
    cbn [JsText.digits]. rewrite Hd, Hlt.
    destruct (digits_seen 10 r (0 * 10 + d)) as [z ->]. eauto.
  - change ("" ++ String c r) with (String c r).
    cbn [trimStart]. rewrite Hsp. cbv zeta. rewrite Hminus, Hplus. cbn [orb].
    rewrite Hprefix. cbn [JsText.digits]. rewrite Hd, Hlt.
    destruct (digits_seen 10 r (0 * 10 + d)) as [z ->]. eauto.
Qed.

Lemma parseInt_zero_point (minus : bool) r :
  exists z, JsText.parseInt ((if minus then "-" else "") ++ "0." ++ r) = Some z.
Proof. destruct minus; eexists; reflexivity. Qed.

(** What [render] writes starts with the first of the digits, or with
    [0.]. *)
Lemma render_head c r n :
  (exists r', render (String c r) n = String c r')
  \/ (exists r', render (String c r) n = "0." ++ r').
Proof.
  unfold render.
  destruct ((Z.of_nat (String.length (String c r)) <=? n) && (n <=? 21))%bool;
    [left; eexists; reflexivity|].
  destruct ((0 <? n) && (n <=? 21))%bool eqn:Hmid.
  { left. apply andb_true_iff in Hmid as [Hpos _]. apply Z.ltb_lt in Hpos.
    destruct (Z.to_nat n) as [|m] eqn:Hn; [lia|]. eexists. reflexivity. }
  destruct ((-6 <? n) && (n <=? 0))%bool; [right; eexists; reflexivity|].
  left. destruct (Z.of_nat (String.length (String c r)) =? 1); eexists; reflexivity.
Qed.

(** [parseInt] of a number is a number: the text of a number starts with
    a digit, behind a minus sign or not. *)
Lemma parseInt_number (q : Q) : exists z, parseInt q = Some z.
Proof.
  unfold parseInt, show. cbv zeta.
  destruct (Z.eqb_spec (Qnum q) 0) as [Hz|Hnz]; [eexists; reflexivity|].
  destruct ((Qnum q mod Z.pos (Qden q) =? 0)
            && (Z.abs (Qnum q / Z.pos (Qden q)) <? 10 ^ 21))%bool;
    [eexists; apply parseInt_pretty|].
  set (a := Z.abs (Qnum q)). set (d := Z.pos (Qden q)).
  destruct (stripZeros_pretty_head (significand a d (exponent10 a d)))
    as (c & r & -> & Hc); [apply significand_pos; unfold a, d; lia|].
  destruct (render_head c r (exponent10 a d + 1)) as [[r' ->]|[r' ->]].
  - apply (parseInt_leading (Qnum q <? 0) c r' Hc).
  - apply (parseInt_zero_point (Qnum q <? 0) r').
Qed.

End NumberText.

(** ** Order creation *)

Section OrderCreation.

Import OrdersCreate.

Lemma findProduct_id pid ps product :
  findProduct pid ps = Some product -> Product.id product = pid.
Proof.
  unfold findProduct. intros H. apply find_some in H as [_ H].
  apply Z.eqb_eq in H. exact H.
Qed.

Lemma ltb_lt a c : JsNumber.ltb a c = true <-> (a < c)%Q.
Proof.
  unfold JsNumber.ltb. rewrite negb_true_iff. split.
  - intros H. apply Qnot_le_lt. intros Hle. apply Qle_bool_iff in Hle. congruence.
  - intros H. destruct (Qle_bool c a) eqn:E; [|reflexivity].
    apply Qle_bool_iff in E. exfalso. eapply Qlt_not_le; eassumption.
Qed.

Lemma ltb_ge a c : JsNumber.ltb a c = false <-> (c <= a)%Q.
Proof.
  unfold JsNumber.ltb. rewrite negb_false_iff. apply Qle_bool_iff.
Qed.

Lemma processLine_rejects_400 ps item err :
  processLine ps item = inl err -> statusCode err = 400.
Proof.
  unfold processLine.
  repeat match goal with
         | |- context [if ?c then _ else _] => destruct c
         | |- context [match findByText ?a ?b with _ => _ end] =>
             destruct (findByText a b)
         end; intros [= <-]; reflexivity.
Qed.

Lemma processItems_rejects_400 ps cart acc total err :
  processItems ps cart acc total = inl err -> statusCode err = 400.
Proof.
  revert acc total. induction cart as [|item rest IH]; intros acc total; simpl.
  - discriminate.
  - destruct (processLine ps item) as [e|it] eqn:Hline.
    + intros [= <-]. eapply processLine_rejects_400. exact Hline.
    + apply IH.
Qed.

(** Every branch of [createOrder] but the last hands the database back
    as it received it. *)
Lemma createOrder_error_keeps_db env decoded b db :
  statusCode (fst (createOrder env decoded b db)) <> 201 ->
  snd (createOrder env decoded b db) = db.
Proof.
  unfold createOrder.
  case_branches; simpl; intros H; try reflexivity; exfalso; apply H; reflexivity.
Qed.


Lemma refusal_bad msg : refusal (bad msg).
Proof. left. reflexivity. Qed.

Lemma refusal_serverError : refusal serverError.
Proof. right. reflexivity. Qed.

#[local] Hint Resolve refusal_bad refusal_serverError : core.

Lemma checkLine_refusal ps item err : checkLine ps item = inl err -> refusal err.
Proof.
  unfold checkLine.
  repeat match goal with
         | |- context [if ?c then _ else _] => destruct c
         | |- context [match ?x with _ => _ end] => destruct x
         end; intros [= <-]; auto.
Qed.


Lemma checkItems_refusal ps cart acc total err :
  checkItems ps cart acc total = inl err -> refusal err.
Proof.
  revert acc total. induction cart as [|item rest IH]; intros acc total; simpl.
  - discriminate.
  - destruct (checkLine ps item) as [e|it] eqn:Hline.
    + intros [= <-]. eapply checkLine_refusal. exact Hline.
    + apply IH.
Qed.







(** The same cart with its numbers sent as strings, and a first line whose
    id prints with an exponent: [parseInt] reads the 6 at its head. *)
Example failed_line_as_text :
  let line productId quantity :=
    Js.Obj [("productId", productId); ("quantity", quantity)] in
  let b := Js.Obj [("items", Js.Arr [line (Js.Num (inject_Z (6 * 10 ^ 21))) (Js.Str "2");
                                     line (Js.Str "6") (Js.Str "9")]);
                   ("shippingAddress", ofAddress sampleAddress);
                   ("paymentMethod", Js.Str "bank_transfer")] in
  createOrderOfBody sampleEnv sampleDecoded b shopDB
  = Done (bad ("Insufficient stock for product " ++ dq ++ "Yoga Mat Premium" ++ dq
               ++ ". Available: 5, Requested: 9")) shopDB.
Proof. vm_compute. reflexivity. Qed.

(** *** The body that the shop sends *)

Lemma truthy_inject z : JsNumber.truthy (inject_Z z) = negb (z =? 0).
Proof.
  unfold JsNumber.truthy, Qeq_bool, inject_Z. cbn [Qnum Qden].
  rewrite Z.mul_1_r. reflexivity.
Qed.

Lemma ltb_inject a c : JsNumber.ltb (inject_Z a) (inject_Z c) = (a <? c).
Proof.
  unfold JsNumber.ltb, Qle_bool, inject_Z. cbn [Qnum Qden].
  rewrite !Z.mul_1_r. symmetry. apply Z.ltb_antisym.
Qed.

Lemma ltb_of_nat n m : (Z.of_nat n <? Z.of_nat m) = Nat.ltb n m.
Proof.
  destruct (Z.ltb_spec (Z.of_nat n) (Z.of_nat m)), (Nat.ltb_spec n m); try reflexivity; lia.
Qed.

Lemma lengthOutsideOf_text lo hi s :
  lengthOutsideOf (Z.of_nat lo) (Z.of_nat hi) (Js.Str s) = Some (lengthOutside lo hi s).
Proof.
  unfold lengthOutsideOf, lengthOutside. simpl.
  rewrite !ltb_inject, !ltb_of_nat. reflexivity.
Qed.


Lemma sameLine_refused err : sameLine (inl err) (inl err).
Proof. reflexivity. Qed.

(** A line of the shop is checked as the line of a parsed body that it
    is, and the item pushed for it is the order item. *)
Lemma checkLine_ofLine ps item : sameLine (checkLine ps (ofLine item)) (processLine ps item).
Proof.
  unfold checkLine, processLine, ofLine, numTruthy, qtyTruthy.
  destruct (productId item) as [pid|], (quantity item) as [qty|]; simpl;
    try apply sameLine_refused.
  2:{ rewrite !orb_true_r. apply sameLine_refused. }
  rewrite truthy_inject.
  destruct (negb (pid =? 0)); simpl; [|apply sameLine_refused].
  destruct (JsNumber.truthy qty); simpl; [|apply sameLine_refused].
  unfold JsNumber.leb, JsNumber.ltb. rewrite negb_involutive.
  destruct (Qle_bool qty 0); [apply sameLine_refused|].
  destruct (findByText _ ps) as [product|]; [|apply sameLine_refused].
  destruct (negb (default false (Product.isActive product))); [apply sameLine_refused|].
  destruct (negb (Qle_bool qty (inject_Z (Product.stock product))));
    [apply sameLine_refused|].
  unfold sameLine, orderItem. simpl.
  destruct (parseInt_number qty) as [z Hz]. unfold JsNumber.parseInt in *.
  rewrite Hz. reflexivity.
Qed.

Lemma orderItems_snoc pushed its it x :
  orderItems pushed = Some its -> orderItem it = Some x ->
  orderItems (pushed ++ [it]) = Some (its ++ [x])%list.
Proof.
  revert its. induction pushed as [|p r IH]; intros its; simpl.
  - intros [= <-] ->. reflexivity.
  - destruct (orderItem p) as [o|]; [|discriminate].
    destruct (orderItems r) as [os|]; [|discriminate].
    intros [= <-] Hit. rewrite (IH os eq_refl Hit). reflexivity.
Qed.


Lemma checkItems_ofLines ps cart pushed acc total :
  orderItems pushed = Some acc ->
  sameRun (checkItems ps (map ofLine cart) pushed (Js.Fin total))
    (processItems ps cart acc total).
Proof.
  revert pushed acc total. induction cart as [|item rest IH]; intros pushed acc total Hacc;
    simpl.
  - split; [exact Hacc|reflexivity].
  - pose proof (checkLine_ofLine ps item) as Hline. unfold sameLine in Hline.
    destruct (checkLine ps (ofLine item)) as [err|it], (processLine ps item) as [err'|x];
      try contradiction; [exact Hline|].
    assert (Htotal : lineTotal it = Js.Fin (OrderItem.subtotal x)).
    { unfold orderItem in Hline. destruct (parsedQuantity it); [|discriminate].
      destruct (lineTotal it); try discriminate. injection Hline as <-. reflexivity. }
    rewrite Htotal. simpl.
    apply IH. apply orderItems_snoc; assumption.
Qed.

(** On the body that the shop sends, the handler on any parsed body is
    [createOrder]: the order it creates is one that [MockDB] holds. *)
Lemma createOrderOfBody_ofBody env decoded b db :
  createOrderOfBody env decoded (ofBody b) db
  = Done (fst (createOrder env decoded b db)) (snd (createOrder env decoded b db)).
Proof.
  unfold createOrderOfBody, createOrder, ofBody.
  cbn [Js.getProp Js.lookup String.eqb Ascii.eqb Bool.eqb default from_option id].
  destruct (items b) as [[|item rest]|]; try reflexivity.
  cbn [map]. set (cart := item :: rest).
  destruct (shippingAddress b) as [addr|]; [|reflexivity].
  unfold ofAddress at 1. cbn [Js.truthy negb].
  unfold strTruthy.
  destruct (paymentMethod b) as [method|]; cbn [ofText Js.truthy]; [|reflexivity].
  destruct (nonempty method); cbn [negb]; [|reflexivity].
  unfold ofAddress.
  cbn [Js.getProp Js.lookup String.eqb Ascii.eqb Bool.eqb default from_option id].
  destruct (fullName addr) as [fullName|]; cbn [ofText Js.truthy negb orb]; [|reflexivity].
  destruct (nonempty fullName); cbn [negb orb]; [|reflexivity].
  destruct (address addr) as [address|]; cbn [ofText Js.truthy negb orb]; [|reflexivity].
  destruct (nonempty address); cbn [negb orb]; [|reflexivity].
  destruct (city addr) as [city|]; cbn [ofText Js.truthy negb orb]; [|reflexivity].
  destruct (nonempty city); cbn [negb orb]; [|reflexivity].
  destruct (postalCode addr) as [postalCode|]; cbn [ofText Js.truthy negb orb];
    [|reflexivity].
  destruct (nonempty postalCode); cbn [negb orb]; [|reflexivity].
  destruct (phone addr) as [phone|]; cbn [ofText Js.truthy negb orb]; [|reflexivity].
  destruct (nonempty phone); cbn [negb orb]; [|reflexivity].
  cbv zeta. cbn [Js.sanitize default from_option id Address.fullName Address.address
                   Address.city].
  rewrite (lengthOutsideOf_text 2 100), (lengthOutsideOf_text 5 200),
    (lengthOutsideOf_text 2 50).
  destruct (lengthOutside 2 100 _); [reflexivity|].
  destruct (lengthOutside 5 200 _); [reflexivity|].
  destruct (lengthOutside 2 50 _); [reflexivity|].
  destruct (negb (existsb (String.eqb method) allowedPaymentMethods)); [reflexivity|].
  pose proof (checkItems_ofLines (products db) cart [] [] 0%Q eq_refl) as Hrun.
  unfold sameRun in Hrun.
  change (item :: rest) with cart.
  change (ofLine item :: map ofLine rest) with (map ofLine cart).
  destruct (checkItems (products db) (map ofLine cart) [] (Js.Fin 0))
    as [err|[pushed total]],
    (processItems (products db) cart [] 0%Q) as [err'|[its amount]];
    try contradiction.
  { rewrite Hrun. reflexivity. }
  destruct Hrun as [Hits ->].
  destruct (getField "payload" decoded) as [payload|]; [|reflexivity].
  destruct (getField "id" payload) as [uid|]; [|reflexivity].
  rewrite Hits. cbn [Js.lt Js.add text].
  destruct (notes b) as [n|]; cbn [ofText Js.truthy]; [|reflexivity].
  destruct (nonempty n); reflexivity.
Qed.

End OrderCreation.

(** ** Order updates *)

Section Catalogue.

Lemma firstWithId_lookup pid ps k :
  firstWithId pid ps = Some k ->
  exists p, ps !! k = Some p /\ Product.id p = pid.
Proof.
  revert k. induction ps as [|p r IH]; intros k; simpl; [discriminate|].
  destruct (Z.eqb_spec (Product.id p) pid) as [Heq|Hne].
  - intros [= <-]. exists p. auto.
  - destruct (firstWithId pid r) as [j|]; simpl; [|discriminate].
    intros [= <-]. simpl. apply IH. reflexivity.
Qed.

Lemma firstWithId_find pid ps :
  findProduct pid ps = None <-> firstWithId pid ps = None.
Proof.
  unfold findProduct. induction ps as [|p r IH]; simpl; [tauto|].
  destruct (Product.id p =? pid); [split; discriminate|].
  destruct IH as [IH1 IH2].
  destruct (firstWithId pid r); simpl; split; intros H; try discriminate; auto.
  apply IH1 in H. discriminate.
Qed.

Variable f : Product.t -> Product.t.
Hypothesis f_id : forall p, Product.id (f p) = Product.id p.

Lemma updateFirst_ids pid ps q :
  firstWithId q (updateFirst pid f ps) = firstWithId q ps.
Proof.
  induction ps as [|p r IH]; simpl; [reflexivity|].
  destruct (Product.id p =? pid); simpl.
  - rewrite f_id. reflexivity.
  - rewrite IH. reflexivity.
Qed.

Lemma updateFirst_lookup pid ps k :
  updateFirst pid f ps !! k
  = (fun p => if decide (firstWithId pid ps = Some k) then f p else p) <$> ps !! k.
Proof.
  revert k. induction ps as [|p r IH]; intros k; [reflexivity|].
  cbn [updateFirst firstWithId].
  destruct (Product.id p =? pid) eqn:Hid.
  - destruct k as [|k]; [reflexivity|].
    change ((f p :: r) !! S k) with (r !! k).
    change ((p :: r) !! S k) with (r !! k).
    destruct (r !! k) as [p'|]; [|reflexivity].
    cbn [fmap option_fmap option_map]. rewrite decide_False by discriminate.
    reflexivity.
  - destruct k as [|k].
    + change ((p :: updateFirst pid f r) !! 0%nat) with (Some p).
      change ((p :: r) !! 0%nat) with (Some p).
      cbn [fmap option_fmap option_map]. rewrite decide_False; [reflexivity|].
      destruct (firstWithId pid r); discriminate.
    + change ((p :: updateFirst pid f r) !! S k) with (updateFirst pid f r !! k).
      change ((p :: r) !! S k) with (r !! k).
      rewrite IH. destruct (r !! k) as [p'|]; [|reflexivity].
      cbn [fmap option_fmap option_map]. f_equal.
      destruct (firstWithId pid r) as [j|]; cbn [option_map].
      * destruct (decide (Some j = Some k)) as [Heq|Hne].
        -- injection Heq as ->. rewrite decide_True by reflexivity. reflexivity.
        -- rewrite decide_False by congruence. reflexivity.
      * rewrite !decide_False by discriminate. reflexivity.
Qed.

(** No product with that id: nothing happens. *)
Lemma updateFirst_missing pid ps :
  findProduct pid ps = None -> updateFirst pid f ps = ps.
Proof.
  unfold findProduct. induction ps as [|p r IH]; simpl; [reflexivity|].
  destruct (Product.id p =? pid); [discriminate|].
  intros H. rewrite IH by exact H. reflexivity.
Qed.

End Catalogue.

Section Restoration.

Import OrdersManage.

Lemma withStock_same p : Product.withStock p (Product.stock p) = p.
Proof. destruct p. reflexivity. Qed.

Lemma withStock_id p s : Product.id (Product.withStock p s) = Product.id p.
Proof. reflexivity. Qed.

Lemma withStock_stock p s : Product.stock (Product.withStock p s) = s.
Proof. reflexivity. Qed.

Lemma withStock_twice p a c :
  Product.withStock (Product.withStock p a) c = Product.withStock p c.
Proof. reflexivity. Qed.

(** The restoration loop, product by product. *)
Lemma restoreStocks_lookup items ps k :
  restoreStocks items ps !! k = restoredAt items ps k.
Proof.
  unfold restoreStocks, restoredAt. revert ps.
  induction items as [|it rest IH]; intros ps; simpl.
  - destruct (ps !! k) as [p|]; simpl; [|reflexivity].
    rewrite Z.add_0_r, withStock_same. destruct (decide _); reflexivity.
  - rewrite IH. rewrite updateFirst_lookup by reflexivity.
    destruct (ps !! k) as [p|] eqn:Hk; simpl; [|reflexivity].
    f_equal.
    destruct (decide (firstWithId (OrderItem.productId it) ps = Some k)) as [Hit|Hit].
    + apply firstWithId_lookup in Hit as Hp. destruct Hp as (p' & Hp' & Hid).
      rewrite Hk in Hp'. injection Hp' as <-. cbn beta.
      rewrite updateFirst_ids by reflexivity.
      rewrite !withStock_id, withStock_stock, withStock_twice.
      rewrite Hid, Z.eqb_refl. rewrite !decide_True by exact Hit.
      f_equal. lia.
    + rewrite updateFirst_ids by reflexivity.
      destruct (decide (firstWithId (Product.id p) ps = Some k)) as [Hfirst|Hfirst];
        [|reflexivity].
      destruct (Z.eqb_spec (OrderItem.productId it) (Product.id p)) as [Heq|Hne];
        [|reflexivity].
      rewrite Heq in Hit. contradiction.
Qed.

(** An item whose product is gone is skipped. *)
Lemma restoreStocks_skips it rest ps :
  findProduct (OrderItem.productId it) ps = None ->
  restoreStocks (it :: rest) ps = restoreStocks rest ps.
Proof.
  intros Hgone. unfold restoreStocks. simpl.
  rewrite updateFirst_missing by exact Hgone. reflexivity.
Qed.

Lemma owed_nonneg items pid :
  Forall (fun it => 0 <= OrderItem.quantity it) items -> 0 <= owed items pid.
Proof.
  induction 1 as [|it rest Hit _ IH]; simpl; [lia|].
  destruct (OrderItem.productId it =? pid); lia.
Qed.

(** Restoration only adds: with the positive quantities that order
    creation records, no stock goes down. *)
Lemma restoreStocks_only_adds items ps k p :
  Forall (fun it => 0 <= OrderItem.quantity it) items ->
  ps !! k = Some p ->
  exists p', restoreStocks items ps !! k = Some p'
             /\ Product.stock p <= Product.stock p'.
Proof.
  intros Hpos Hk. rewrite restoreStocks_lookup. unfold restoredAt. rewrite Hk.
  eexists. split; [reflexivity|].
  destruct (decide _); simpl; [|lia].
  pose proof (owed_nonneg items (Product.id p) Hpos). lia.
Qed.

End Restoration.

Section OrderUpdate.

Import OrdersManage.

Lemma status_eqb_eq a c : status_eqb a c = true <-> a = c.
Proof. destruct a, c; split; intros H; try reflexivity; discriminate. Qed.

Lemma status_eqb_refl a : status_eqb a a = true.
Proof. apply status_eqb_eq. reflexivity. Qed.

Lemma status_eqb_neq a c : a <> c -> status_eqb a c = false.
Proof.
  intros H. destruct (status_eqb a c) eqn:E; [|reflexivity].
  apply status_eqb_eq in E. contradiction.
Qed.

Lemma allowed_In new l : existsb (status_eqb new) l = true <-> In new l.
Proof.
  rewrite existsb_exists. split.
  - intros (x & Hin & Heq). apply status_eqb_eq in Heq. subst. exact Hin.
  - intros Hin. exists new. split; [exact Hin|apply status_eqb_refl].
Qed.

(** The table has no loop: a permitted target differs from the source. *)
Lemma transition_changes cur new : In new (statusTransitions cur) -> new <> cur.
Proof. destruct cur, new; simpl; intuition discriminate. Qed.

Variables (existingOrder : Order.t) (b : Body).
Let cur := Order.status existingOrder.

Lemma statusStep_absent d : status b = None -> statusStep existingOrder b d = inr d.
Proof. unfold statusStep. intros ->. reflexivity. Qed.

Lemma statusStep_unknown d raw :
  status b = Some raw -> requestedStatus b = None ->
  statusStep existingOrder b d
  = inl (bad "Invalid status. Allowed: pending, confirmed, processing, shipped, delivered, cancelled").
Proof. unfold statusStep, requestedStatus. intros -> ->. reflexivity. Qed.

Lemma statusStep_same d :
  requestedStatus b = Some cur -> statusStep existingOrder b d = inr d.
Proof.
  unfold statusStep, requestedStatus. destruct (status b) as [raw|]; [|discriminate].
  intros ->. fold cur. rewrite status_eqb_refl. reflexivity.
Qed.

Lemma statusStep_forbidden d raw new :
  status b = Some raw -> requestedStatus b = Some new ->
  new <> cur -> ~ In new (statusTransitions cur) ->
  statusStep existingOrder b d
  = inl (bad ("Cannot change status from " ++ dq ++ statusName cur ++ dq ++ " to "
              ++ dq ++ sanitizeInput (toLowerCase raw) ++ dq)).
Proof.
  unfold statusStep, requestedStatus. intros -> -> Hne Hnot. fold cur.
  rewrite (status_eqb_neq cur new) by congruence. simpl.
  destruct (existsb (status_eqb new) (statusTransitions cur)) eqn:E; [|reflexivity].
  apply allowed_In in E. contradiction.
Qed.

Lemma statusStep_permitted d new :
  requestedStatus b = Some new -> In new (statusTransitions cur) ->
  exists d1,
    statusStep existingOrder b d = inr d1
    /\ updatedOrder d1 = withStatus (updatedOrder d) new
    /\ hasChanges d1 = true
    /\ catalogue d1 = match new with
                      | Cancelled => restoreStocks (Order.items existingOrder) (catalogue d)
                      | _ => catalogue d
                      end.
Proof.
  unfold statusStep, requestedStatus. destruct (status b) as [raw|]; [|discriminate].
  intros -> Hin. fold cur.
  pose proof (transition_changes _ _ Hin) as Hne.
  rewrite (status_eqb_neq cur new) by congruence. simpl.
  apply allowed_In in Hin as E. rewrite E. simpl.
  destruct new; simpl.
  6:{ rewrite (status_eqb_neq cur Cancelled) by congruence. simpl. eauto. }
  all: eauto.
Qed.

(** The later blocks leave the status and the catalogue of the draft alone
    and never clear the change flag. *)
Lemma trackingStep_keeps d :
  Order.status (updatedOrder (trackingStep existingOrder b d)) = Order.status (updatedOrder d)
  /\ Order.id (updatedOrder (trackingStep existingOrder b d)) = Order.id (updatedOrder d)
  /\ catalogue (trackingStep existingOrder b d) = catalogue d
  /\ (hasChanges d = true -> hasChanges (trackingStep existingOrder b d) = true).
Proof.
  unfold trackingStep. destruct (trackingNumber b); [|auto].
  destruct (negb _); simpl; auto.
Qed.

Lemma notesStep_keeps d :
  Order.status (updatedOrder (notesStep existingOrder b d)) = Order.status (updatedOrder d)
  /\ Order.id (updatedOrder (notesStep existingOrder b d)) = Order.id (updatedOrder d)
  /\ catalogue (notesStep existingOrder b d) = catalogue d
  /\ (hasChanges d = true -> hasChanges (notesStep existingOrder b d) = true).
Proof.
  unfold notesStep. destruct (notes b); [|auto].
  destruct (negb _); simpl; auto.
Qed.

Lemma paymentStep_keeps d d' :
  paymentStep existingOrder b d = inr d' ->
  Order.status (updatedOrder d') = Order.status (updatedOrder d)
  /\ Order.id (updatedOrder d') = Order.id (updatedOrder d)
  /\ catalogue d' = catalogue d
  /\ (hasChanges d = true -> hasChanges d' = true).
Proof.
  unfold paymentStep. destruct (paymentStatus b); [|intros [= <-]; auto].
  destruct (parsePaymentStatus _); [|discriminate].
  destruct (negb _); intros [= <-]; simpl; auto.
Qed.

Lemma statusStep_forbidden_400 d err :
  statusStep existingOrder b d = inl err -> statusCode err = 400.
Proof.
  unfold statusStep.
  case_guards; intros [= <-]; reflexivity.
Qed.

Lemma paymentStep_400 d err :
  paymentStep existingOrder b d = inl err -> statusCode err = 400.
Proof.
  unfold paymentStep.
  case_guards; intros [= <-]; reflexivity.
Qed.

(** What the status block can leave behind when it does not answer. *)
Lemma statusStep_result d d1 :
  statusStep existingOrder b d = inr d1 ->
  Order.id (updatedOrder d1) = Order.id (updatedOrder d)
  /\ ((d1 = d /\ (status b = None \/ requestedStatus b = Some cur))
      \/ (requestedStatus b = Some (Order.status (updatedOrder d1))
          /\ In (Order.status (updatedOrder d1)) (statusTransitions cur)
          /\ hasChanges d1 = true
          /\ catalogue d1
             = match Order.status (updatedOrder d1) with
               | Cancelled => restoreStocks (Order.items existingOrder) (catalogue d)
               | _ => catalogue d
               end)).
Proof.
  destruct (status b) as [raw|] eqn:Hraw.
  2:{ rewrite statusStep_absent by exact Hraw. intros [= <-]. auto. }
  destruct (requestedStatus b) as [new|] eqn:Hreq.
  2:{ rewrite (statusStep_unknown d raw) by assumption. discriminate. }
  destruct (decide (new = cur)) as [->|Hne].
  { rewrite statusStep_same by exact Hreq. intros [= <-]. auto. }
  destruct (in_dec (fun x y => decide (x = y)) new (statusTransitions cur)) as [Hin|Hnot].
  - destruct (statusStep_permitted d new Hreq Hin) as (d' & -> & Hord & Hflag & Hcat).
    intros [= <-]. rewrite Hord. simpl. split; [reflexivity|]. right.
      auto.
  - rewrite (statusStep_forbidden d raw new) by assumption. discriminate.
Qed.

End OrderUpdate.

Section AdminUpdate.

Import OrdersManage.

Lemma transitionTable_spec cur new :
  In new (statusTransitions cur) <-> In (cur, new) transitionTable.
Proof.
  unfold transitionTable. destruct cur, new; simpl; split; intros H;
    repeat (destruct H as [H|H]; try discriminate); tauto.
Qed.

Lemma db_eta db : mkDB (users db) (products db) (orders db) = db.
Proof. destruct db. reflexivity. Qed.

(** A 200 answer: the status block passed, the order saved at its index
    has the status and the id of the draft that block left, and the
    catalogue is the one it left. *)
Lemma updateOrder_success env i o b db r log db' :
  updateOrder env i o b db = (r, log, db') ->
  statusCode r = 200 ->
  exists d1 saved,
    statusStep o b (mkDraft o false [] (products db)) = inr d1
    /\ Order.status saved = Order.status (updatedOrder d1)
    /\ Order.id saved = Order.id o
    /\ db' = mkDB (users db) (catalogue d1) (<[i := saved]> (orders db)).
Proof.
  unfold updateOrder.
  destruct (statusStep o b _) as [err|d1] eqn:Hs.
  { intros [= <- <- <-]. apply statusStep_forbidden_400 in Hs. simpl. lia. }
  destruct (paymentStep o b (trackingStep o b d1)) as [err|d3] eqn:Hp.
  { intros [= <- <- <-]. apply paymentStep_400 in Hp. simpl. lia. }
  destruct (negb (hasChanges (notesStep o b d3))).
  { intros [= <- <- <-]. simpl. lia. }
  intros [= <- <- <-] _.
  destruct (statusStep_result o b _ _ Hs) as [Hid1 _].
  destruct (trackingStep_keeps o b d1) as (Hs2 & Hi2 & Hc2 & _).
  destruct (paymentStep_keeps o b _ _ Hp) as (Hs3 & Hi3 & Hc3 & _).
  destruct (notesStep_keeps o b d3) as (Hs4 & Hi4 & Hc4 & _).
  rewrite Hc4, Hc3, Hc2.
  eexists d1, _. split; [reflexivity|]. split; [|split; [|reflexivity]].
  - simpl. congruence.
  - simpl in *. congruence.
Qed.

Lemma parseStatus_name s st : parseStatus s = Some st -> s = statusName st.
Proof.
  unfold parseStatus. intros H. apply find_some in H as [_ H].
  apply String.eqb_eq in H. congruence.
Qed.

Lemma paymentStep_valid o b d :
  paymentFieldValid b = true -> exists d', paymentStep o b d = inr d'.
Proof.
  unfold paymentFieldValid, paymentStep.
  destruct (paymentStatus b) as [raw|]; [|eauto].
  destruct (parsePaymentStatus _); [|discriminate].
  intros _. destruct (negb _); eauto.
Qed.

Lemma status_transitions_enforced_same env i o b db :
  requestedStatus b = Some (Order.status o) ->
  updateOrder env i o b db = updateOrder env i o (withoutStatus b) db.
Proof.
  intros Hreq. unfold updateOrder.
  rewrite (statusStep_same o b _ Hreq).
  rewrite (statusStep_absent o (withoutStatus b)) by reflexivity.
  reflexivity.
Qed.

(** The code behind the admin check, which no request passes: the status
    block of the update follows the transition table of the
    specification. A status outside the six names, and a transition
    outside the table, are answered with a 400 error and the database is
    handed back untouched; asking for the current status changes nothing
    and counts for nothing, the request being treated exactly as the same
    request without a status; a transition of the table is carried out
    (the order saved at its index has the new status) when the payment
    field does not stop the request; and whenever the update answers 200
    the saved status is the old one or a target the table permits. *)
Lemma updateOrder_follows_table env i o b db :
  (forall raw,
      status b = Some raw -> requestedStatus b = None ->
      exists err, updateOrder env i o b db = (err, [], db) /\ statusCode err = 400)
  /\ (forall new,
         requestedStatus b = Some new -> new <> Order.status o ->
         ~ In (Order.status o, new) transitionTable ->
         updateOrder env i o b db
         = (mkResponse 400
              ("Cannot change status from " ++ dq ++ statusName (Order.status o) ++ dq
               ++ " to " ++ dq ++ statusName new ++ dq) None, [], db))
  /\ (requestedStatus b = Some (Order.status o) ->
      updateOrder env i o b db = updateOrder env i o (withoutStatus b) db)
  /\ (forall new,
         requestedStatus b = Some new -> In (Order.status o, new) transitionTable ->
         paymentFieldValid b = true ->
         exists log saved ps,
           updateOrder env i o b db
           = (createResponse 200 "Order updated successfully", log,
              mkDB (users db) ps (<[i := saved]> (orders db)))
           /\ Order.status saved = new)
  /\ (forall r log db',
         updateOrder env i o b db = (r, log, db') -> statusCode r = 200 ->
         exists saved,
           orders db' = <[i := saved]> (orders db)
           /\ (Order.status saved = Order.status o
               \/ In (Order.status o, Order.status saved) transitionTable)).
Proof.
  split; [|split; [|split; [|split]]].
  - intros raw Hraw Hreq. unfold updateOrder.
    rewrite (statusStep_unknown o b _ raw Hraw Hreq). eauto.
  - intros new Hreq Hne Hnot.
    assert (exists raw, status b = Some raw) as [raw Hraw].
    { unfold requestedStatus in Hreq. destruct (status b); [eauto|discriminate]. }
    unfold updateOrder.
    rewrite (statusStep_forbidden o b _ raw new Hraw Hreq Hne).
    2:{ rewrite transitionTable_spec. exact Hnot. }
    unfold requestedStatus in Hreq. rewrite Hraw in Hreq.
    apply parseStatus_name in Hreq. rewrite Hreq. reflexivity.
  - apply status_transitions_enforced_same.
  - intros new Hreq Hin Hpay. apply transitionTable_spec in Hin.
    destruct (statusStep_permitted o b (mkDraft o false [] (products db)) new Hreq Hin)
      as (d1 & Hs & Hord & Hflag & _).
    destruct (paymentStep_valid o b (trackingStep o b d1) Hpay) as [d3 Hp].
    destruct (trackingStep_keeps o b d1) as (Hs2 & _ & _ & Hf2).
    destruct (paymentStep_keeps o b _ _ Hp) as (Hs3 & _ & _ & Hf3).
    destruct (notesStep_keeps o b d3) as (Hs4 & _ & _ & Hf4).
    unfold updateOrder. rewrite Hs, Hp.
    rewrite Hf4 by auto. simpl.
    do 3 eexists. split; [reflexivity|]. simpl.
    rewrite Hs4, Hs3, Hs2, Hord. reflexivity.
  - intros r log db' Hrun H200.
    destruct (updateOrder_success _ _ _ _ _ _ _ _ Hrun H200)
      as (d1 & saved & Hs & Hst & _ & ->).
    exists saved. split; [reflexivity|]. rewrite Hst.
    destruct (statusStep_result o b _ _ Hs) as [_ [[-> _]|(_ & Hin & _)]].
    + left. reflexivity.
    + right. apply transitionTable_spec. exact Hin.
Qed.

Lemma findIndex_lookup oid os i :
  findIndex oid os = Some i -> exists o, os !! i = Some o /\ Order.id o = oid.
Proof.
  revert i. induction os as [|o r IH]; intros i; simpl; [discriminate|].
  destruct (Z.eqb_spec (Order.id o) oid) as [Heq|Hne].
  - intros [= <-]. exists o. auto.
  - destruct (findIndex oid r) as [j|]; simpl; [|discriminate].
    intros [= <-]. simpl. apply IH. reflexivity.
Qed.

(** Saving an order with the same id at the index where the id was found
    leaves it the order that the id finds. *)
Lemma findIndex_insert oid os i saved :
  findIndex oid os = Some i -> Order.id saved = oid ->
  findIndex oid (<[i := saved]> os) = Some i.
Proof.
  revert i. induction os as [|o r IH]; intros i; simpl; [discriminate|].
  destruct (Z.eqb_spec (Order.id o) oid) as [Heq|Hne].
  - intros [= <-] Hid. simpl. rewrite Hid, Z.eqb_refl. reflexivity.
  - destruct (findIndex oid r) as [j|] eqn:Hj; simpl; [|discriminate].
    intros [= <-] Hid. simpl.
    destruct (Z.eqb_spec (Order.id o) oid); [contradiction|].
    rewrite (IH j) by auto. reflexivity.
Qed.

(** On a cancelled order no request reaches the restoration loop. *)
Lemma updateOrder_cancelled_keeps_products env i o b db :
  Order.status o = Cancelled ->
  products (snd (updateOrder env i o b db)) = products db.
Proof.
  intros Hcan. unfold updateOrder.
  destruct (statusStep o b _) as [err|d1] eqn:Hs; [reflexivity|].
  assert (Hcat : catalogue d1 = products db).
  { destruct (statusStep_result o b _ _ Hs) as [_ [[-> _]|(_ & Hin & _)]];
      [reflexivity|].
    rewrite Hcan in Hin. destruct Hin. }
  destruct (trackingStep_keeps o b d1) as (_ & _ & Hc2 & _).
  destruct (paymentStep o b (trackingStep o b d1)) as [err|d3] eqn:Hp.
  { simpl. congruence. }
  destruct (paymentStep_keeps o b _ _ Hp) as (_ & _ & Hc3 & _).
  destruct (notesStep_keeps o b d3) as (_ & _ & Hc4 & _).
  destruct (negb _); simpl; congruence.
Qed.

Example placedOrder_created :
  OrdersCreate.createOrder sampleEnv sampleDecoded (cartOf [(6, 3%Q)]) shopDB
  = (createResponse 201 "Order created successfully", shopAfterOrder).
Proof. vm_compute. reflexivity. Qed.

(** A remark on the code behind the admin check. The restoration loop
    edits the shared catalogue before the payment status is checked: a
    request that asks for [cancelled] together with an unknown payment
    status is answered 400 and the order stays pending, but the three yoga
    mats are back in stock all the same, and three more after the same
    request is made again. *)
Remark rejected_cancellation_still_restores :
  let b := mkBody (Some "cancelled") None None (Some "bogus") in
  let out := manageOrder sampleEnv 1 b shopAfterOrder in
  let again := manageOrder sampleEnv 1 b (snd out) in
  statusCode (fst (fst out)) = 400
  /\ orders (snd out) = orders shopAfterOrder
  /\ Product.stock <$> findProduct 6 (products shopAfterOrder) = Some 2
  /\ Product.stock <$> findProduct 6 (products (snd out)) = Some 5
  /\ statusCode (fst (fst again)) = 400
  /\ Product.stock <$> findProduct 6 (products (snd again)) = Some 8.
Proof. repeat split. Qed.





End AdminUpdate.

(** ** Login *)

Section LoginFailures.

Variable bcrypt_compare : string -> string -> bool.

Lemma validateEmail_nonempty email :
  Validate.validateEmail email = true -> nonempty email = true.
Proof. destruct email; [discriminate|reflexivity]. Qed.

(** When the passwords are strings, a login with a well-formed email that
    matches no user, and a login with the email of an existing, not
    deactivated user and a password that bcrypt finds wrong, are answered
    with the same response: status 401, the same message, and the code
    INVALID_CREDENTIALS. This holds for the serverless handler and for the
    Express route, and neither attempt changes the users. *)
Lemma failed_logins_indistinguishable env (db : MockDB)
    (unknownEmail knownEmail password1 password2 : string) (user : User.t) :
  Validate.validateEmail unknownEmail = true ->
  Validate.validateEmail knownEmail = true ->
  nonempty password1 = true ->
  nonempty password2 = true ->
  List.find (emailIs (sanitizeInput (toLowerCase unknownEmail))) (users db) = None ->
  List.find (emailIs (sanitizeInput (toLowerCase knownEmail))) (users db) = Some user ->
  User.isActive user <> Some false ->
  bcrypt_compare password2 (User.password user) = false ->
  let attempt1 := Login.mkBody (Some unknownEmail) (Some password1) in
  let attempt2 := Login.mkBody (Some knownEmail) (Some password2) in
  Login.login bcrypt_compare env attempt1 db = (invalidCredentials, db)
  /\ Login.login bcrypt_compare env attempt2 db = (invalidCredentials, db)
  /\ (forall writeOk,
         Express.login bcrypt_compare (now env) writeOk
           (Express.mkLoginBody unknownEmail password1) (users db)
         = (invalidCredentials, users db)
         /\ Express.login bcrypt_compare (now env) writeOk
              (Express.mkLoginBody knownEmail password2) (users db)
            = (invalidCredentials, users db)).
Proof.
  intros Hv1 Hv2 Hp1 Hp2 Hnone Hsome Hactive Hwrong. simpl.
  pose proof (validateEmail_nonempty _ Hv1) as Hn1.
  pose proof (validateEmail_nonempty _ Hv2) as Hn2.
  unfold emailIs in Hnone, Hsome.
  assert (Hact : match User.isActive user with
                 | Some false => True
                 | _ => False
                 end -> False).
  { destruct (User.isActive user) as [[|]|]; auto. }
  split; [|split; [|intros writeOk; split]].
  - unfold Login.login, Login.strTruthy. simpl.
    rewrite Hn1, Hp1, Hv1. simpl. rewrite Hnone. reflexivity.
  - unfold Login.login, Login.strTruthy. simpl.
    rewrite Hn2, Hp2, Hv2. simpl. rewrite Hsome.
    destruct (User.isActive user) as [[|]|]; try (exfalso; apply Hact; exact I);
      rewrite Hwrong; reflexivity.
  - unfold Express.login. simpl. rewrite Hnone. reflexivity.
  - unfold Express.login. simpl. rewrite Hsome.
    destruct (User.isActive user) as [[|]|]; try (exfalso; apply Hact; exact I);
      rewrite Hwrong; reflexivity.
Qed.

(** On a body whose email and password are strings, the handler on any
    body is [login]. *)
Lemma loginOfBody_ofBody env b db :
  Login.loginOfBody bcrypt_compare env (Login.ofBody b) db
  = Login.login bcrypt_compare env b db.
Proof.
  unfold Login.loginOfBody, Login.login, Login.ofBody, Login.strTruthy.
  destruct (Login.email b) as [email|]; destruct (Login.password b) as [password|]; simpl;
    try reflexivity;
    repeat match goal with
           | |- context [nonempty ?x] => destruct (nonempty x); simpl; try reflexivity
           | |- context [Validate.validateEmail ?x] =>
               destruct (Validate.validateEmail x); simpl; try reflexivity
           end.
Qed.

(** A POST that the rate limiter admits is answered by [loginOfBody]. *)
Lemma login_handler_admitted env event st store b :
  httpMethod event = "POST" ->
  Utils.checkRateLimit (devEnv env) (now env) (clientIP event) "login" 10
    (15 * 60 * 1000) (rateLimitStore st) = (true, store) ->
  body event = Some b ->
  Login.handler bcrypt_compare env event st
  = (fst (Login.loginOfBody bcrypt_compare env b (mockDB st)),
     mkServer (snd (Login.loginOfBody bcrypt_compare env b (mockDB st))) store).
Proof.
  intros Hpost Hrate Hbody. unfold Login.handler, handleCORS.
  rewrite Hpost, Hrate, Hbody. simpl.
  destruct (Login.loginOfBody bcrypt_compare env b (mockDB st)). reflexivity.
Qed.

End LoginFailures.

(** C9 fails when the wrong password is not a string. On the seeded
    users, a login whose password is the number 123456 is answered 401
    INVALID_CREDENTIALS for an email that matches no user, and 500
    LOGIN_ERROR for the email of the demo user: [bcrypt.compare] is handed
    the number, rejects it, and the handler answers from its [catch]. The
    two answers tell whether the account exists, whatever
    [bcrypt.compare] says of strings; the database is left as it was by
    both. *)
Theorem wrong_password_type_reveals_account (bcrypt_compare : string -> string -> bool) :
  let attempt email :=
    mkEvent "POST" (demoHeaders None) "/.netlify/functions/login"
      (Some (Js.Obj [("email", Js.Str email); ("password", Js.Num 123456)])) in
  let answer email :=
    Login.handler bcrypt_compare sampleEnv (attempt email) (emptyServer seedDB) in
  fst (answer "nobody@alandstore.com") = invalidCredentials
  /\ fst (answer "user@alandstore.com") = Login.serverError
  /\ statusCode Login.serverError = 500
  /\ mockDB (snd (answer "nobody@alandstore.com")) = seedDB
  /\ mockDB (snd (answer "user@alandstore.com")) = seedDB.
Proof. repeat split; vm_compute; reflexivity. Qed.

(** Against the seeded users: an unknown address, and the demo user with a
    wrong password. *)
Lemma failed_logins_indistinguishable_witness :
  let attempt1 := Login.mkBody (Some "nobody@alandstore.com") (Some "user123") in
  let attempt2 := Login.mkBody (Some "User@AlandStore.com") (Some "letmein") in
  Login.login sampleCompare sampleEnv attempt1 seedDB = (invalidCredentials, seedDB)
  /\ Login.login sampleCompare sampleEnv attempt2 seedDB = (invalidCredentials, seedDB)
  /\ (forall writeOk,
         Express.login sampleCompare (now sampleEnv) writeOk
           (Express.mkLoginBody "nobody@alandstore.com" "user123") (users seedDB)
         = (invalidCredentials, users seedDB)
         /\ Express.login sampleCompare (now sampleEnv) writeOk
              (Express.mkLoginBody "User@AlandStore.com" "letmein") (users seedDB)
            = (invalidCredentials, users seedDB)).
Proof.
  apply (failed_logins_indistinguishable sampleCompare sampleEnv seedDB
           "nobody@alandstore.com" "User@AlandStore.com" "user123" "letmein"
           (User.mk 2 "user" "user@alandstore.com"
              "$2a$12$LQv3c1yqBWVHxkd0LHAkCOYz6TtxMQJqhN8/LtVNNSqk.hGx0/Y.a"
              "Demo User" "user" 0 None (Some true))).
  - reflexivity.
  - reflexivity.
  - reflexivity.
  - reflexivity.
  - reflexivity.
  - reflexivity.
  - discriminate.
  - reflexivity.
Defined.

(** ** Registration *)

Section LowerCase.

Lemma lower_ascii_idem c : lower_ascii (lower_ascii c) = lower_ascii c.
Proof. destruct c as [[] [] [] [] [] [] [] []]; reflexivity. Qed.

Lemma toLowerCase_idem s : toLowerCase (toLowerCase s) = toLowerCase s.
Proof.
  induction s as [|c r IH]; simpl; [reflexivity|].
  rewrite lower_ascii_idem, IH. reflexivity.
Qed.

Lemma lowered_tail c r : lowered (String c r) -> lower_ascii c = c /\ lowered r.
Proof. unfold lowered. simpl. intros [= Hc Hr]. auto. Qed.

Lemma lowered_cons c r : lower_ascii c = c -> lowered r -> lowered (String c r).
Proof. unfold lowered. simpl. intros -> ->. reflexivity. Qed.

Lemma trimStart_lowered s : lowered s -> lowered (trimStart s).
Proof.
  induction s as [|c r IH]; simpl; [auto|].
  intros H. destruct (is_space c); [|exact H].
  apply IH. apply lowered_tail in H. tauto.
Qed.

Lemma trimEnd_lowered s : lowered s -> lowered (trimEnd s).
Proof.
  induction s as [|c r IH]; simpl; [auto|].
  intros H. apply lowered_tail in H as [Hc Hr]. specialize (IH Hr).
  destruct (trimEnd r) as [|c' r'].
  - destruct (is_space c); [reflexivity|]. apply lowered_cons; [exact Hc|reflexivity].
  - apply lowered_cons; assumption.
Qed.

Lemma stripMarkup_lowered s : lowered s -> lowered (stripMarkup s).
Proof.
  induction s as [|c r IH]; simpl; [auto|].
  intros H. apply lowered_tail in H as [Hc Hr].
  destruct (is_markup c); [auto|]. apply lowered_cons; auto.
Qed.

(** What the handlers store for an email or a username is in lower case. *)
Lemma sanitized_lowered s : lowered (sanitizeInput (toLowerCase s)).
Proof.
  unfold sanitizeInput, trim.
  apply stripMarkup_lowered, trimEnd_lowered, trimStart_lowered, toLowerCase_idem.
Qed.

End LowerCase.

Section Registration.

Variable bcrypt_hash : string -> string.

Lemma find_sameUser_taken email username us u :
  List.find (Register.sameUser email username) us = Some u -> taken email username us.
Proof.
  intros H. apply find_some in H as [Hin Hsame].
  apply Exists_exists. exists u. split; [apply list_elem_of_In; exact Hin|].
  unfold Register.sameUser in Hsame. apply orb_true_iff in Hsame.
  destruct Hsame as [H|H]; apply String.eqb_eq in H; auto.
Qed.

Lemma find_sameUser_free email username us :
  List.find (Register.sameUser email username) us = None -> ~ taken email username us.
Proof.
  intros H Htaken. apply Exists_exists in Htaken as (u & Hin & Hu).
  apply list_elem_of_In in Hin.
  pose proof (find_none _ _ H u Hin) as Hsame.
  unfold Register.sameUser in Hsame. apply orb_false_iff in Hsame as [He Hn].
  apply String.eqb_neq in He, Hn. tauto.
Qed.

(** Appending a user whose stored email and username are free keeps the
    users unique. *)
Lemma usersUnique_snoc us new :
  lowered (User.email new) -> lowered (User.username new) ->
  ~ taken (User.email new) (User.username new) us ->
  usersUnique us -> usersUnique (us ++ [new]).
Proof.
  unfold usersUnique, taken, lowered. intros He Hn Hfree [Hemails Hnames].
  rewrite !map_app. simpl. rewrite He, Hn.
  split; apply NoDup_app; (split; [assumption|]); (split; [|apply NoDup_singleton]).
  - intros x Hx Hnew. apply list_elem_of_singleton in Hnew. subst x.
    apply Hfree. apply list_elem_of_fmap in Hx as (u & Hu & Hin).
    apply Exists_exists. exists u. split; [exact Hin|auto].
  - intros x Hx Hnew. apply list_elem_of_singleton in Hnew. subst x.
    apply Hfree. apply list_elem_of_fmap in Hx as (u & Hu & Hin).
    apply Exists_exists. exists u. split; [exact Hin|auto].
Qed.

Lemma find_express_taken email username us u :
  List.find (Express.sameUser email username) us = Some u -> taken email username us.
Proof. apply find_sameUser_taken. Qed.

Lemma taken_found email username us :
  taken email username us ->
  exists u, List.find (Register.sameUser email username) us = Some u.
Proof.
  intros Htaken.
  destruct (List.find (Register.sameUser email username) us) as [u|] eqn:Hfind; [eauto|].
  apply find_sameUser_free in Hfind. contradiction.
Qed.

(** C8, on the values the handlers compare and for ASCII strings (the four
    fields of the request, and the emails and usernames already stored): a
    registration that passes the field checks of register.js and whose
    sanitized (lower-cased, trimmed, markup-stripped) email or username is
    the lower-cased email or username of an existing user is answered 409
    USER_EXISTS and leaves the database as it was; one whose sanitized
    email and username are both free is answered 201 and appends one user,
    after which the users are still unique if they were. The Express route
    does the same on the body its validators let through, when the users
    file can be written. *)
Theorem duplicate_registration_rejected env db username email password fullName :
  isAscii username = true -> isAscii email = true ->
  isAscii password = true -> isAscii fullName = true ->
  asciiUsers (users db) ->
  validRegistration username email password fullName = true ->
  let b := Register.mkBody (Some username) (Some email) (Some password) (Some fullName) in
  let sanitizedEmail := sanitizeInput (toLowerCase email) in
  let sanitizedUsername := sanitizeInput (toLowerCase username) in
  (taken sanitizedEmail sanitizedUsername (users db) ->
   Register.register bcrypt_hash env b db = (userExists, db))
  /\ (~ taken sanitizedEmail sanitizedUsername (users db) ->
      exists newUser,
        Register.register bcrypt_hash env b db
        = (createResponse 201 "Registration successful",
           mkDB (users db ++ [newUser]) (products db) (orders db))
        /\ User.email newUser = sanitizedEmail
        /\ User.username newUser = sanitizedUsername
        /\ (usersUnique (users db) -> usersUnique (users db ++ [newUser])))
  /\ (forall writeOk,
         let eb := Express.mkRegisterBody username email password fullName in
         (taken sanitizedEmail sanitizedUsername (users db) ->
          Express.register bcrypt_hash (now env) writeOk eb (users db)
          = (userExists, users db))
         /\ (~ taken sanitizedEmail sanitizedUsername (users db) -> writeOk = true ->
             exists newUser,
               Express.register bcrypt_hash (now env) writeOk eb (users db)
               = (mkResponse 201 "User registered successfully" None,
                  (users db ++ [newUser])%list)
               /\ (usersUnique (users db) -> usersUnique (users db ++ [newUser])))).
Proof.
  intros _ _ _ _ _ Hvalid. unfold validRegistration in Hvalid.
  repeat (apply andb_prop in Hvalid as [Hvalid ?]).
  destruct (Validate.validatePassword password) as [err|] eqn:Hpw; [discriminate|].
  cbv zeta.
  repeat match goal with
         | H : negb _ = true |- _ => apply negb_true_iff in H
         end.
  split; [|split].
  - intros Htaken. apply taken_found in Htaken as [u Hfind].
    unfold Register.register, Register.strTruthy. simpl.
    rewrite_checks.
    simpl. rewrite Hpw, Hfind. reflexivity.
  - intros Hfree.
    destruct (List.find (Register.sameUser (sanitizeInput (toLowerCase email))
                           (sanitizeInput (toLowerCase username))) (users db))
      as [u|] eqn:Hfind.
    { apply find_sameUser_taken in Hfind. contradiction. }
    unfold Register.register, Register.strTruthy. simpl.
    rewrite_checks.
    simpl. rewrite Hpw, Hfind.
    eexists. split; [reflexivity|]. simpl. split; [reflexivity|]. split; [reflexivity|].
    apply usersUnique_snoc; simpl; auto using sanitized_lowered.
  - intros writeOk. cbv zeta. split.
    + intros Htaken. apply taken_found in Htaken as [u Hfind].
      unfold Express.register. simpl.
      change (Express.sameUser (sanitizeInput (toLowerCase email))
                (sanitizeInput (toLowerCase username)))
        with (Register.sameUser (sanitizeInput (toLowerCase email))
                (sanitizeInput (toLowerCase username))).
      rewrite Hfind. reflexivity.
    + intros Hfree ->.
      destruct (List.find (Register.sameUser (sanitizeInput (toLowerCase email))
                             (sanitizeInput (toLowerCase username))) (users db))
        as [u|] eqn:Hfind.
      { apply find_sameUser_taken in Hfind. contradiction. }
      unfold Express.register. simpl.
      change (Express.sameUser (sanitizeInput (toLowerCase email))
                (sanitizeInput (toLowerCase username)))
        with (Register.sameUser (sanitizeInput (toLowerCase email))
                (sanitizeInput (toLowerCase username))).
      rewrite Hfind.
      eexists. split; [reflexivity|].
      apply usersUnique_snoc; simpl; auto using sanitized_lowered.
Qed.

(** A POST that the rate limiter admits is answered by [register]. *)
Lemma register_handler_admitted env event st store b :
  httpMethod event = "POST" ->
  Utils.checkRateLimit (devEnv env) (now env) (clientIP event) "register" 3
    (60 * 60 * 1000) (rateLimitStore st) = (true, store) ->
  body event = Some b ->
  Register.handler bcrypt_hash env event st
  = (fst (Register.register bcrypt_hash env b (mockDB st)),
     mkServer (snd (Register.register bcrypt_hash env b (mockDB st))) store).
Proof.
  intros Hpost Hrate Hbody. unfold Register.handler, handleCORS.
  rewrite Hpost, Hrate, Hbody. simpl.
  destruct (Register.register bcrypt_hash env b (mockDB st)). reflexivity.
Qed.

End Registration.

(** The scenario of the specification on the seeded users: alice registers,
    then the same email with another username is refused. *)
Lemma duplicate_registration_rejected_witness :
  let db1 := mkDB (seedUsers ++ [User.mk 3 "alice" "alice@x.com" (sampleHash "Passw0rd!")
                                   "Alice A" "customer" (now sampleEnv) None (Some true)])
               seedProducts [] in
  Register.register sampleHash sampleEnv
    (Register.mkBody (Some "alice") (Some "alice@x.com") (Some "Passw0rd!") (Some "Alice A"))
    seedDB
  = (createResponse 201 "Registration successful", db1)
  /\ Register.register sampleHash sampleEnv
       (Register.mkBody (Some "alice2") (Some "Alice@X.com") (Some "Passw0rd!")
          (Some "Alice A")) db1
     = (userExists, db1).
Proof.
  split.
  - reflexivity.
  - apply (duplicate_registration_rejected sampleHash sampleEnv _ "alice2" "Alice@X.com"
             "Passw0rd!" "Alice A").
    + reflexivity.
    + reflexivity.
    + reflexivity.
    + reflexivity.
    + repeat constructor.
    + reflexivity.
    + unfold taken. simpl. do 2 apply Exists_cons_tl. apply Exists_cons_hd.
      left. reflexivity.
Defined.

(** C8 as stated fails: after a registration under a username that starts
    with a quote, which is stored with a leading blank, a second request
    whose username is that stored username, letter for letter, is answered
    201 and adds a fourth user. *)
Lemma duplicate_username_counterexample :
  let first := Register.mkBody (Some "' bob") (Some "bob@x.com") (Some "Passw0rd!")
                 (Some "Bob B") in
  let second := Register.mkBody (Some " bob") (Some "rob@x.com") (Some "Passw0rd!")
                  (Some "Rob R") in
  let db1 := snd (Register.register sampleHash sampleEnv first seedDB) in
  let out := Register.register sampleHash sampleEnv second db1 in
  Exists (fun u => toLowerCase (User.username u) = toLowerCase " bob") (users db1)
  /\ statusCode (fst out) = 201
  /\ length (users db1) = 3%nat
  /\ length (users (snd out)) = 4%nat.
Proof.
  cbv zeta. split; [|split; [|split]]; try reflexivity.
  simpl. do 2 apply Exists_cons_tl. apply Exists_cons_hd. reflexivity.
Qed.

(** ** The token gate of the order handler *)

Section TokenGate.

Variable jwt_verify : Z -> string -> JwtResult.


Lemma removeFirst_bearer t : removeFirst "Bearer " ("Bearer " ++ t) = t.
Proof. destruct t; reflexivity. Qed.

(** What is left of a bearer header after the handler has removed the
    prefix is handed to [verifyToken], which insists on the prefix. *)
Lemma utils_verifyToken_stripped now t :
  startsWith "Bearer " t = false -> Utils.verifyToken jwt_verify now t = None.
Proof.
  intros H. unfold Utils.verifyToken. rewrite H.
  destruct (nonempty t); reflexivity.
Qed.


End TokenGate.



(** A header with the prefix twice leaves the prefix once after the
    handler has stripped it: [verifyToken] accepts the token, and the
    handler, finding no [success] on the claims, answers 401. *)
Example order_handler_double_prefix :
  let event := mkEvent "POST" (demoHeaders (Some ("Bearer Bearer " ++ demoToken)))
                 "/.netlify/functions/orders-create"
                 (Some (OrdersCreate.ofBody (cartOf [(1, 1%Q)]))) in
  Utils.verifyToken demoJwt (now sampleEnv) ("Bearer " ++ demoToken) = Some demoClaims
  /\ fst (OrdersCreate.handler (Utils.verifyToken demoJwt) sampleEnv event
            (emptyServer seedDB))
     = mkResponse 401 "Invalid access token" (Some "INVALID_TOKEN").
Proof. split; vm_compute; reflexivity. Qed.


(** ** The age ceiling of tokens *)

Section TokenAge.

Variable jwt_verify : Z -> string -> JwtResult.

Lemma startsWith_bearer t : startsWith "Bearer " ("Bearer " ++ t) = true.
Proof. destruct t; reflexivity. Qed.

(** The Express middleware answers TOKEN_EXPIRED for a token with a valid
    signature and identity that was issued more than 24 hours ago, whatever
    its own expiry claim. *)
Lemma express_verifyToken_ceiling now t decoded i e iat u r :
  jwt_verify now (trim t) = JwtOk decoded ->
  (10 <= String.length (trim t))%nat ->
  getField "id" decoded = Some i -> truthy i = true ->
  getField "email" decoded = Some e -> truthy e = true ->
  getField "iat" decoded = Some (JNum iat) ->
  getField "username" decoded = Some u -> getField "role" decoded = Some r ->
  24 * 60 * 60 * 1000 < now - 1000 * iat ->
  Express.verifyToken jwt_verify now (Some ("Bearer " ++ t))
  = inl (mkResponse 401 "Token expired" (Some "TOKEN_EXPIRED")).
Proof.
  intros Hjwt Hlen Hi Hti He Hte Hiat Hu Hr Hage.
  assert (Hne : nonempty (trim t) = true).
  { destruct (trim t); [simpl in Hlen; lia|reflexivity]. }
  assert (Hlong : Nat.ltb (String.length (trim t)) 10 = false).
  { apply Nat.ltb_ge. exact Hlen. }
  unfold Express.verifyToken.
  rewrite startsWith_bearer, removeFirst_bearer.
  change (nonempty ("Bearer " ++ t)) with true. cbn [negb orb].
  rewrite Hne, Hlong. cbn [negb orb].
  rewrite Hjwt, Hi, He, Hiat, Hu, Hr, Hti, Hte. cbn [negb orb].
  unfold Express.tooOld, Express.numberOf.
  rewrite (proj2 (Z.ltb_lt _ _) Hage). reflexivity.
Qed.

(** [verifyToken] of utils.js hands the same token back: it has no age
    check of its own. *)
Lemma utils_verifyToken_ignores_age now t decoded i e :
  jwt_verify now (trim t) = JwtOk decoded ->
  getField "id" decoded = Some i -> truthy i = true ->
  getField "email" decoded = Some e -> truthy e = true ->
  Utils.verifyToken jwt_verify now ("Bearer " ++ t) = Some decoded.
Proof.
  intros Hjwt Hi Hti He Hte. unfold Utils.verifyToken.
  rewrite startsWith_bearer, removeFirst_bearer.
  change (nonempty ("Bearer " ++ t)) with true. cbn [negb orb].
  rewrite Hjwt, Hi, He, Hti, Hte. reflexivity.
Qed.

End TokenAge.

(** C5 on the two token checks of the repository, 25 hours after the demo
    token was issued with a lifetime of seven days: the token has not
    expired by its own claim, the Express middleware answers TOKEN_EXPIRED,
    and [verifyToken] of utils.js accepts the token and returns its
    claims. *)
Theorem aged_token_passes_utils_verifyToken :
  let clock := (1700000000 + 25 * 60 * 60) * 1000 in
  Express.tooOld clock (JNum 1700000000) = true
  /\ demoJwt clock demoToken = JwtOk demoClaims
  /\ Express.verifyToken demoJwt clock (Some ("Bearer " ++ demoToken))
     = inl (mkResponse 401 "Token expired" (Some "TOKEN_EXPIRED"))
  /\ Utils.verifyToken demoJwt clock ("Bearer " ++ demoToken) = Some demoClaims.
Proof.
  cbv zeta. split; [reflexivity|]. split; [reflexivity|]. split.
  - apply (express_verifyToken_ceiling demoJwt _ demoToken demoClaims (JNum 2)
             (JStr "user@alandstore.com") 1700000000 (JStr "user") (JStr "user"));
      try reflexivity; simpl; lia.
  - apply (utils_verifyToken_ignores_age demoJwt _ demoToken demoClaims (JNum 2)
             (JStr "user@alandstore.com")); reflexivity.
Qed.

(** ** Quantities that are not whole *)

(** On a catalogue with an active product, the part of the handler after
    the token check prices a line with the quantity as it came and records
    [parseInt(quantity)]: two and a half yoga mats at 40 are accepted, the
    item is recorded with quantity 2 and subtotal 100, and the stock goes
    down by 2. The subtotal of the order is the sum of the item subtotals,
    its total is subtotal plus shipping cost, and 100 does not exceed the
    threshold, so the flat fee is charged. No request reaches this from the
    seeded database, whose products are not active. *)
Example fractional_quantity_priced_not_recorded :
  let out := OrdersCreate.createOrder sampleEnv sampleDecoded (cartOf [(6, 2.5%Q)]) shopDB in
  statusCode (fst out) = 201
  /\ (exists o,
         orders (snd out) = [o]
         /\ Order.items o
            = [OrderItem.mk 6 "Yoga Mat Premium" "https://picsum.photos/400/400?random=23"
                 40 2 (inject_Z 40 * 2.5)%Q]
         /\ (Order.subtotal o == 100)%Q
         /\ (Order.shippingCost o == 15)%Q
         /\ (Order.totalAmount o == 115)%Q)
  /\ Product.stock <$> findProduct 6 (products (snd out)) = Some 3.
Proof.
  cbv zeta. split; [vm_compute; reflexivity|]. split; [|vm_compute; reflexivity].
  eexists. split; [vm_compute; reflexivity|]. split; [vm_compute; reflexivity|].
  repeat split; vm_compute; reflexivity.
Qed.

(** ** Stock below zero *)

(** C7 fails on two paths. The Express route that updates a product
    stores whatever stock the body carries. And a cart with two lines for
    the same product, each within the stock, is accepted and both lines are
    taken off: five yoga mats become minus one. *)
Theorem stock_can_go_negative :
  let out := OrdersCreate.createOrder sampleEnv sampleDecoded (cartOf [(6, 3%Q); (6, 3%Q)])
               shopDB in
  let put := Express.updateProduct true 1
               (Express.mkProductBody None None None None (Some (-5)) None) seedProducts in
  Forall (fun p => 0 <= Product.stock p) (products shopDB)
  /\ statusCode (fst out) = 201
  /\ Product.stock <$> findProduct 6 (products (snd out)) = Some (-1)
  /\ statusCode (fst put) = 200
  /\ Product.stock <$> findProduct 1 (snd put) = Some (-5).
Proof.
  cbv zeta. split; [|repeat split].
  repeat constructor; simpl; lia.
Qed.

(** * Properties read off the code *)




(** ** [sanitizeInput] *)

Section Sanitize.

Lemma stripMarkup_markupFree s : markupFree (stripMarkup s) = true.
Proof.
  induction s as [|c r IH]; simpl; [reflexivity|].
  destruct (is_markup c) eqn:Hc; [exact IH|].
  unfold markupFree in *. simpl. rewrite Hc, IH. reflexivity.
Qed.

Lemma stripMarkup_length s : (String.length (stripMarkup s) <= String.length s)%nat.
Proof.
  induction s as [|c r IH]; simpl; [lia|].
  destruct (is_markup c); simpl; lia.
Qed.

Lemma stripMarkup_id s : markupFree s = true -> stripMarkup s = s.
Proof.
  unfold markupFree. induction s as [|c r IH]; simpl; [reflexivity|].
  intros H. apply andb_true_iff in H as [Hc Hr].
  apply negb_true_iff in Hc. rewrite Hc, IH by exact Hr. reflexivity.
Qed.

Lemma trimStart_length s : (String.length (trimStart s) <= String.length s)%nat.
Proof.
  induction s as [|c r IH]; simpl; [lia|].
  destruct (is_space c); simpl; lia.
Qed.

Lemma trimEnd_length s : (String.length (trimEnd s) <= String.length s)%nat.
Proof.
  induction s as [|c r IH]; simpl; [lia|].
  destruct (trimEnd r) eqn:Hr; [destruct (is_space c)|]; simpl in *; lia.
Qed.

Lemma trim_length s : (String.length (trim s) <= String.length s)%nat.
Proof.
  unfold trim. pose proof (trimEnd_length (trimStart s)). pose proof (trimStart_length s). lia.
Qed.

End Sanitize.

(** X1: on a string of ASCII characters, [sanitizeInput] never leaves one
    of the four markup characters, never makes the string longer, and on a
    string without them it is [trim]. *)
Theorem sanitizeInput_strips_markup (s : string) :
  isAscii s = true ->
  markupFree (sanitizeInput s) = true
  /\ (String.length (sanitizeInput s) <= String.length s)%nat
  /\ (markupFree (trim s) = true -> sanitizeInput s = trim s).
Proof.
  intros _.
  unfold sanitizeInput. split; [apply stripMarkup_markupFree|]. split.
  - pose proof (stripMarkup_length (trim s)). pose proof (trim_length s). lia.
  - apply stripMarkup_id.
Qed.

(** A name between blanks, with a quote in it. *)
Lemma sanitizeInput_strips_markup_witness :
  markupFree (sanitizeInput "  O'Neil <b> ") = true
  /\ (String.length (sanitizeInput "  O'Neil <b> ") <= String.length "  O'Neil <b> ")%nat
  /\ (markupFree (trim "  O'Neil <b> ") = true
      -> sanitizeInput "  O'Neil <b> " = trim "  O'Neil <b> ").
Proof. apply (sanitizeInput_strips_markup "  O'Neil <b> "). reflexivity. Defined.

(** ** The format that [validateEmail] accepts *)

Section EmailFormat.

Import Validate.

Lemma forallb_str_app f a b :
  forallb_str f (a ++ b) = (forallb_str f a && forallb_str f b)%bool.
Proof.
  induction a as [|c r IH]; simpl; [reflexivity|].
  rewrite IH, andb_assoc. reflexivity.
Qed.

Lemma plainChar_not_at c : plainChar c = true -> is_at c = false.
Proof.
  unfold plainChar. intros H. apply negb_true_iff, orb_false_iff in H. tauto.
Qed.

Lemma splitAt_plain local rest :
  forallb_str plainChar local = true ->
  splitAt (local ++ "@" ++ rest) = Some (local, rest).
Proof.
  induction local as [|c r IH]; simpl; intros H; [reflexivity|].
  apply andb_true_iff in H as [Hc Hr].
  rewrite (plainChar_not_at c Hc), (IH Hr). reflexivity.
Qed.

Lemma splitAt_parts s local rest :
  splitAt s = Some (local, rest) -> s = local ++ "@" ++ rest.
Proof.
  revert local. induction s as [|c r IH]; simpl; intros local H; [discriminate|].
  destruct (is_at c) eqn:Hc.
  - injection H as <- <-. simpl. f_equal.
    unfold is_at in Hc. apply Nat.eqb_eq in Hc.
    rewrite <- (ascii_nat_embedding c), Hc. reflexivity.
  - destruct (splitAt r) as [[a b]|] eqn:Hr; [|discriminate].
    injection H as <- <-. rewrite append_cons. f_equal. apply (IH a). reflexivity.
Qed.

Lemma innerDot_seen d1 d2 :
  d2 <> "" -> innerDot true (d1 ++ "." ++ d2) = true.
Proof.
  intros Hd2. induction d1 as [|c r IH]; simpl.
  - destruct d2; [congruence|reflexivity].
  - rewrite IH. apply orb_true_r.
Qed.

Lemma innerDot_parts seen s :
  innerDot seen s = true ->
  exists d1 d2, s = d1 ++ "." ++ d2 /\ d2 <> "" /\ (seen = false -> d1 <> "").
Proof.
  revert seen. induction s as [|c r IH]; simpl; intros seen H; [discriminate|].
  apply orb_true_iff in H as [H|H].
  - apply andb_true_iff in H as [H Hr]. apply andb_true_iff in H as [Hs Hc].
    exists "", r. simpl. split; [|split].
    + f_equal. unfold is_dot in Hc. apply Nat.eqb_eq in Hc.
      rewrite <- (ascii_nat_embedding c), Hc. reflexivity.
    + intros ->. discriminate.
    + intros ->. discriminate.
  - destruct (IH true H) as (d1 & d2 & -> & Hd2 & _).
    exists (String c d1), d2. simpl. split; [reflexivity|]. split; [exact Hd2|].
    intros _. discriminate.
Qed.

End EmailFormat.

(** X2: [validateEmail] accepts exactly the strings of the form
    local@name.rest in which the three parts are not empty and hold neither
    white space nor an at sign. *)
Theorem validateEmail_format (email : string) :
  Validate.validateEmail email = true <->
  exists local d1 d2,
    email = local ++ "@" ++ d1 ++ "." ++ d2
    /\ local <> "" /\ d1 <> "" /\ d2 <> ""
    /\ Validate.forallb_str Validate.plainChar local = true
    /\ Validate.forallb_str Validate.plainChar d1 = true
    /\ Validate.forallb_str Validate.plainChar d2 = true.
Proof.
  unfold Validate.validateEmail. split.
  - destruct (Validate.splitAt email) as [[local domain]|] eqn:Hsplit; [|discriminate].
    intros H. apply andb_true_iff in H as [H Hdot].
    apply andb_true_iff in H as [H Hdom]. apply andb_true_iff in H as [Hne Hloc].
    apply splitAt_parts in Hsplit.
    destruct (innerDot_parts false domain Hdot) as (d1 & d2 & -> & Hd2 & Hd1).
    rewrite forallb_str_app in Hdom. apply andb_true_iff in Hdom as [Hp1 Hp2].
    simpl in Hp2. change ("" ++ d2) with d2 in Hp2.
    exists local, d1, d2. split; [exact Hsplit|]. split.
    { intros ->. discriminate. }
    split; [auto|]. split; [exact Hd2|]. auto.
  - intros (local & d1 & d2 & -> & Hl & Hd1 & Hd2 & Hpl & Hp1 & Hp2).
    rewrite splitAt_plain by exact Hpl.
    rewrite Hpl, forallb_str_app, Hp1. simpl. change ("" ++ d2) with d2. rewrite Hp2.
    assert (Hne : nonempty local = true).
    { destruct local; [congruence|reflexivity]. }
    rewrite Hne. simpl.
    destruct d1 as [|c r]; [congruence|]. simpl.
    rewrite innerDot_seen by exact Hd2. reflexivity.
Qed.

(** ** Buckets and windows of the rate limiter *)

Section Buckets.

Lemma colonFree_app a b : colonFree (a ++ ":" ++ b) = false.
Proof.
  unfold colonFree. induction a as [|c r IH]; simpl; [reflexivity|].
  rewrite IH. apply andb_false_r.
Qed.

Lemma rateKey_inj_aux a b e1 e2 :
  colonFree e1 = true -> colonFree e2 = true ->
  a ++ ":" ++ e1 = b ++ ":" ++ e2 -> a = b /\ e1 = e2.
Proof.
  intros H1 H2. revert b.
  induction a as [|c r IH]; intros [|c' r'] Heq.
  - change (String ":" e1 = String ":" e2) in Heq.
    injection Heq as ->. split; reflexivity.
  - change (String ":" e1 = String c' (r' ++ ":" ++ e2)) in Heq.
    injection Heq as _ ->. rewrite colonFree_app in H1. discriminate.
  - change (String c (r ++ ":" ++ e1) = String ":" e2) in Heq.
    injection Heq as _ <-. rewrite colonFree_app in H2. discriminate.
  - rewrite !append_cons in Heq. injection Heq as -> Heq.
    destruct (IH r' Heq) as [-> ->]. split; reflexivity.
Qed.

Lemma rateKey_inj ip1 e1 ip2 e2 :
  colonFree e1 = true -> colonFree e2 = true ->
  Utils.rateKey ip1 e1 = Utils.rateKey ip2 e2 -> ip1 = ip2 /\ e1 = e2.
Proof. unfold Utils.rateKey. apply rateKey_inj_aux. Qed.

Lemma slidingWindow_frame t key maxRequests windowMs store k :
  k <> key ->
  snd (Utils.slidingWindow t key maxRequests windowMs store) !! k = store !! k.
Proof.
  intros Hne. unfold Utils.slidingWindow.
  destruct (store !! key) eqn:Hk;
    match goal with |- context [if ?c then _ else _] => destruct c end; simpl;
    rewrite ?lookup_insert_ne by congruence; reflexivity.
Qed.

Lemma slidingWindow_local t key maxRequests windowMs store1 store2 :
  store1 !! key = store2 !! key ->
  fst (Utils.slidingWindow t key maxRequests windowMs store1)
  = fst (Utils.slidingWindow t key maxRequests windowMs store2).
Proof.
  intros Heq. unfold Utils.slidingWindow. rewrite <- Heq.
  destruct (store1 !! key) eqn:Hk.
  - rewrite Hk, <- Heq. simpl.
    match goal with |- context [if ?c then _ else _] => destruct c end; reflexivity.
  - rewrite !lookup_insert_eq. simpl.
    match goal with |- context [if ?c then _ else _] => destruct c end; reflexivity.
Qed.

End Buckets.

(** X3: buckets are isolated. For endpoint names without a colon, as all
    the handlers use, two different (caller, endpoint) pairs never share a
    key: a check for one pair changes neither the record nor the next
    verdict of the other. *)
Theorem rate_limit_buckets_isolated devEnv ip1 e1 ip2 e2 t1 t2 n1 w1 n2 w2
    (store : gmap string (list Z)) :
  colonFree e1 = true -> colonFree e2 = true ->
  (ip1, e1) <> (ip2, e2) ->
  let store1 := snd (Utils.checkRateLimit devEnv t1 ip1 e1 n1 w1 store) in
  Utils.rateKey ip1 e1 <> Utils.rateKey ip2 e2
  /\ store1 !! Utils.rateKey ip2 e2 = store !! Utils.rateKey ip2 e2
  /\ fst (Utils.checkRateLimit devEnv t2 ip2 e2 n2 w2 store1)
     = fst (Utils.checkRateLimit devEnv t2 ip2 e2 n2 w2 store).
Proof.
  intros H1 H2 Hne store1.
  assert (Hkey : Utils.rateKey ip1 e1 <> Utils.rateKey ip2 e2).
  { intros Heq. apply rateKey_inj in Heq as [-> ->]; [congruence|assumption..]. }
  assert (Hsame : store1 !! Utils.rateKey ip2 e2 = store !! Utils.rateKey ip2 e2).
  { unfold store1, Utils.checkRateLimit.
    destruct (Utils.isDevelopment devEnv ip1); [reflexivity|].
    apply slidingWindow_frame. congruence. }
  split; [exact Hkey|]. split; [exact Hsame|].
  unfold Utils.checkRateLimit.
  destruct (Utils.isDevelopment devEnv ip2); [reflexivity|].
  apply slidingWindow_local. exact Hsame.
Qed.

Lemma rate_limit_buckets_isolated_witness :
  let store1 := snd (Utils.checkRateLimit false 5 "203.0.113.7" "login" 10 900000 ∅) in
  Utils.rateKey "203.0.113.7" "login" <> Utils.rateKey "203.0.113.7" "register"
  /\ store1 !! Utils.rateKey "203.0.113.7" "register"
     = (∅ : gmap string (list Z)) !! Utils.rateKey "203.0.113.7" "register"
  /\ fst (Utils.checkRateLimit false 6 "203.0.113.7" "register" 3 3600000 store1)
     = fst (Utils.checkRateLimit false 6 "203.0.113.7" "register" 3 3600000 ∅).
Proof.
  apply (rate_limit_buckets_isolated false "203.0.113.7" "login" "203.0.113.7" "register"
           5 6 10 900000 3 3600000 ∅); [reflexivity|reflexivity|discriminate].
Defined.

Section WindowSafety.

Variables (devEnv : bool) (clientIP endpoint : string) (maxRequests windowMs : Z).
Hypothesis not_bypassed : Utils.isDevelopment devEnv clientIP = false.

Let key := Utils.rateKey clientIP endpoint.

Lemma filter_length_impl (P Q : Z -> bool) (l : list Z) :
  (forall x, P x = true -> Q x = true) ->
  (length (List.filter P l) <= length (List.filter Q l))%nat.
Proof.
  intros Himp. induction l as [|x l IH]; simpl; [lia|].
  destruct (P x) eqn:HP.
  - rewrite (Himp x HP). simpl. lia.
  - destruct (Q x); simpl; lia.
Qed.

Lemma filter_filter_impl (P Q : Z -> bool) (l : list Z) :
  (forall x, P x = true -> Q x = true) ->
  List.filter P (List.filter Q l) = List.filter P l.
Proof.
  intros Himp. induction l as [|x l IH]; simpl; [reflexivity|].
  destruct (Q x) eqn:HQ; simpl.
  - rewrite IH. reflexivity.
  - destruct (P x) eqn:HP; [rewrite (Himp x HP) in HQ; discriminate|exact IH].
Qed.

Lemma spaced_snoc granted t :
  spaced maxRequests windowMs granted ->
  Z.of_nat (length (List.filter (fun x => t - windowMs <? x) granted)) < maxRequests ->
  spaced maxRequests windowMs (granted ++ [t]).
Proof.
  intros Hs Ht i x Hi.
  destruct (decide (i < length granted)%nat) as [Hlt|Hge].
  - rewrite lookup_app_l in Hi by exact Hlt.
    rewrite take_app_le by lia. apply Hs. exact Hi.
  - rewrite lookup_app_r in Hi by lia.
    destruct (i - length granted)%nat as [|n] eqn:Hn; simpl in Hi; [|discriminate].
    injection Hi as <-. assert (i = length granted) as -> by lia.
    rewrite take_app_length. exact Ht.
Qed.

Lemma spaced_window granted u :
  0 <= maxRequests ->
  spaced maxRequests windowMs granted ->
  Z.of_nat (length (grantedInWindow windowMs u granted)) <= maxRequests.
Proof.
  intros Hpos. unfold grantedInWindow.
  induction granted as [|t g IH] using rev_ind; intros Hs; [simpl; lia|].
  rewrite List.filter_app, length_app. simpl.
  destruct ((u - windowMs <? t) && (t <=? u))%bool eqn:Hin; simpl.
  - apply andb_true_iff in Hin as [Hlo Hhi].
    apply Z.ltb_lt in Hlo. apply Z.leb_le in Hhi.
    pose proof (Hs (length g) t) as Hg.
    rewrite lookup_app_r, Nat.sub_diag in Hg by lia.
    specialize (Hg eq_refl). rewrite take_app_length in Hg.
    pose proof (filter_length_impl
                  (fun g0 => (u - windowMs <? g0) && (g0 <=? u))%bool
                  (fun x => t - windowMs <? x) g) as Hle.
    assert (Himp : forall x, ((u - windowMs <? x) && (x <=? u))%bool = true ->
                             (t - windowMs <? x) = true).
    { intros x Hx. apply andb_true_iff in Hx as [Hx _].
      apply Z.ltb_lt in Hx. apply Z.ltb_lt. lia. }
    specialize (Hle Himp). lia.
  - rewrite Nat.add_0_r. apply IH.
    intros i x Hi. pose proof (lookup_lt_Some _ _ _ Hi) as Hlt.
    specialize (Hs i x). rewrite lookup_app_l in Hs by exact Hlt.
    rewrite take_app_le in Hs by lia. apply Hs. exact Hi.
Qed.

(** The record of the key tells, at every later time, which of the
    requests allowed so far are still inside the window. *)
Lemma serveAll_spaced (times : list Z) :
  forall (store : gmap string (list Z)) (granted : list Z) (t0 : Z),
    (forall t, t0 <= t ->
       live key windowMs t store = List.filter (fun x => t - windowMs <? x) granted) ->
    Forall (fun t => t0 <= t) times ->
    StronglySorted Z.le times ->
    spaced maxRequests windowMs granted ->
    spaced maxRequests windowMs
      (granted ++ grantedTimes times
                    (fst (serveAll devEnv clientIP endpoint maxRequests windowMs times store))).
Proof.
  induction times as [|t rest IH]; intros store granted t0 Hinv Hfrom Hsorted Hs.
  - simpl. rewrite app_nil_r. exact Hs.
  - simpl. rewrite (checkRateLimit_window devEnv clientIP endpoint maxRequests windowMs
                      not_bypassed).
    fold key.
    inversion Hfrom as [|? ? Ht0 Hfrom']; subst.
    inversion Hsorted as [|? ? Hsorted' Hle]; subst.
    destruct (Z_lt_le_dec (Z.of_nat (length (live key windowMs t store))) maxRequests)
      as [Hroom|Hfull].
    + rewrite (slidingWindow_allows key maxRequests windowMs t store Hroom).
      destruct (serveAll devEnv clientIP endpoint maxRequests windowMs rest
                  (<[key := (live key windowMs t store ++ [t])%list]> store))
        as [oks store2] eqn:Hrun.
      simpl.
      replace (granted ++ t :: grantedTimes rest oks)%list
        with ((granted ++ [t]) ++ grantedTimes rest oks)%list
        by (rewrite <- app_assoc; reflexivity).
      pose proof (IH (<[key := (live key windowMs t store ++ [t])%list]> store)
                    (granted ++ [t])%list t) as IH'.
      rewrite Hrun in IH'. simpl in IH'. apply IH'.
      * intros t' Ht'. unfold live at 1, recorded. rewrite lookup_insert_eq. simpl.
        rewrite (Hinv t Ht0), !List.filter_app. f_equal.
        apply filter_filter_impl. intros x Hx.
        apply Z.ltb_lt in Hx. apply Z.ltb_lt. lia.
      * exact Hle.
      * exact Hsorted'.
      * apply spaced_snoc; [exact Hs|]. rewrite <- (Hinv t Ht0). exact Hroom.
    + destruct (slidingWindow_refuses key maxRequests windowMs t store Hfull)
        as (store1 & Hno & Hrec & _ & _).
      rewrite Hno.
      destruct (serveAll devEnv clientIP endpoint maxRequests windowMs rest store1)
        as [oks store2] eqn:Hrun.
      simpl.
      pose proof (IH store1 granted t) as IH'.
      rewrite Hrun in IH'. simpl in IH'. apply IH'.
      * intros t' Ht'. unfold live. rewrite Hrec. apply (Hinv t'). lia.
      * exact Hle.
      * exact Hsorted'.
      * exact Hs.
Qed.

(** X4: the guarantee of the limiter. For a caller that the bypass does
    not exempt, on a key with nothing recorded, and a clock that does not
    run backwards: whatever the run of requests, no window of [windowMs]
    milliseconds holds more than [maxRequests] allowed requests. *)
Theorem rate_limit_never_exceeded (times : list Z) (store : gmap string (list Z)) (u : Z) :
  0 <= maxRequests ->
  recorded key store = [] ->
  StronglySorted Z.le times ->
  Z.of_nat
    (length (grantedInWindow windowMs u
               (grantedTimes times
                  (fst (serveAll devEnv clientIP endpoint maxRequests windowMs times store)))))
  <= maxRequests.
Proof.
  intros Hpos Hfresh Hsorted.
  apply spaced_window; [exact Hpos|].
  destruct times as [|t0 rest].
  - simpl. intros i t Hi. discriminate.
  - apply (serveAll_spaced (t0 :: rest) store [] t0).
    + intros t _. unfold live. rewrite Hfresh. reflexivity.
    + inversion Hsorted as [|? ? _ Hle]; subst. constructor; [lia|exact Hle].
    + exact Hsorted.
    + intros i t Hi. discriminate.
Qed.

End WindowSafety.

Lemma rate_limit_never_exceeded_witness :
  let oks := fst (serveAll false "203.0.113.7" "login" 2 1000 [0; 10; 20; 1005; 1015] ∅) in
  oks = [true; true; false; true; true]
  /\ Z.of_nat (length (grantedInWindow 1000 1009
                         (grantedTimes [0; 10; 20; 1005; 1015] oks))) <= 2.
Proof.
  split; [vm_compute; reflexivity|].
  apply (rate_limit_never_exceeded false "203.0.113.7" "login" 2 1000 eq_refl
           [0; 10; 20; 1005; 1015] ∅ 1009).
  - lia.
  - reflexivity.
  - repeat constructor; lia.
Defined.

(** ** Clearing the limiter *)

(** X5: after [clearRateLimit] the caller starts afresh: the next request
    on that key is allowed when the limit is positive, and is then the only
    one recorded; the records of the other keys are as they were. *)
Theorem clearRateLimit_unblocks devEnv clientIP endpoint maxRequests windowMs t
    (store : gmap string (list Z)) :
  Utils.isDevelopment devEnv clientIP = false ->
  0 < maxRequests ->
  let key := Utils.rateKey clientIP endpoint in
  let store1 := UtilsClear.clearRateLimit clientIP endpoint store in
  store1 !! key = None
  /\ (forall k, k <> key -> store1 !! k = store !! k)
  /\ Utils.checkRateLimit devEnv t clientIP endpoint maxRequests windowMs store1
     = (true, <[key := [t]]> store1).
Proof.
  intros Hdev Hpos key store1. unfold store1, UtilsClear.clearRateLimit. fold key.
  split; [apply lookup_delete_eq|]. split.
  - intros k Hk. apply lookup_delete_ne. congruence.
  - unfold Utils.checkRateLimit. rewrite Hdev. fold key.
    rewrite (slidingWindow_allows key maxRequests windowMs t (delete key store)).
    + unfold live, recorded. rewrite lookup_delete_eq. reflexivity.
    + unfold live, recorded. rewrite lookup_delete_eq. simpl. lia.
Qed.

Lemma clearRateLimit_unblocks_witness :
  let blocked : gmap string (list Z) := {[ Utils.rateKey "203.0.113.7" "login" := [1; 2] ]} in
  let key := Utils.rateKey "203.0.113.7" "login" in
  let store1 := UtilsClear.clearRateLimit "203.0.113.7" "login" blocked in
  fst (Utils.checkRateLimit false 3 "203.0.113.7" "login" 2 1000 blocked) = false
  /\ store1 !! key = None
  /\ (forall k, k <> key -> store1 !! k = blocked !! k)
  /\ Utils.checkRateLimit false 3 "203.0.113.7" "login" 2 1000 store1
     = (true, <[key := [3]]> store1).
Proof.
  split; [vm_compute; reflexivity|].
  apply (clearRateLimit_unblocks false "203.0.113.7" "login" 2 1000 3); [reflexivity|lia].
Defined.

(** X6: reset-rate-limit.js never touches the database; outside
    development it changes nothing at all and answers a POST with 403; and
    whenever it does change the limiter store, the environment is one in
    which [checkRateLimit] lets every request through unrecorded. In
    development, [clearAll: true] empties the store, and otherwise an
    [ip] and an [endpoint] delete the record of their key only. *)
Theorem reset_only_in_development env (event : Event ResetRateLimit.Body) (st : Server) :
  let out := ResetRateLimit.handler env event st in
  mockDB (snd out) = mockDB st
  /\ (devEnv env = false ->
      snd out = st
      /\ (httpMethod event = "POST" ->
          fst out = mkResponse 403 "Operation not allowed in production" None))
  /\ (rateLimitStore (snd out) <> rateLimitStore st ->
      forall t ip e n w store,
        Utils.checkRateLimit (devEnv env) t ip e n w store = (true, store))
  /\ (forall b,
         devEnv env = true -> httpMethod event = "POST" -> body event = Some b ->
         (ResetRateLimit.clearAll b = JBool true -> rateLimitStore (snd out) = ∅)
         /\ (forall ip e,
                ResetRateLimit.clearAll b <> JBool true ->
                ResetRateLimit.ip b = Some ip -> ResetRateLimit.endpoint b = Some e ->
                ip <> "" -> e <> "" ->
                statusCode (fst out) = 200
                /\ rateLimitStore (snd out) = delete (Utils.rateKey ip e) (rateLimitStore st))).
Proof.
  intros out. unfold out, ResetRateLimit.handler, handleCORS.
  destruct (String.eqb (httpMethod event) "OPTIONS") eqn:Hopt.
  { apply String.eqb_eq in Hopt. simpl.
    split; [reflexivity|]. split.
    - intros _. split; [reflexivity|]. rewrite Hopt. discriminate.
    - split; [congruence|]. intros b _ Hpost. rewrite Hopt in Hpost. discriminate. }
  destruct (String.eqb (httpMethod event) "POST") eqn:Hpost; simpl.
  2:{ split; [reflexivity|]. split.
      - intros _. split; [reflexivity|]. intros H. rewrite H in Hpost. discriminate.
      - split; [congruence|]. intros b _ H. rewrite H in Hpost. discriminate. }
  destruct (devEnv env) eqn:Hdev; simpl.
  2:{ split; [reflexivity|]. split; [auto|]. split; [congruence|]. discriminate. }
  split.
  { destruct (body event) as [b|]; [|reflexivity].
    destruct (ResetRateLimit.clearAll b) as [| |[|]| | |]; simpl;
      try reflexivity;
      destruct (ResetRateLimit.strTruthy (ResetRateLimit.endpoint b)
                && ResetRateLimit.strTruthy (ResetRateLimit.ip b))%bool; reflexivity. }
  split; [discriminate|]. split.
  { intros _ t ip e n w store. unfold Utils.checkRateLimit, Utils.isDevelopment.
    reflexivity. }
  intros b _ _ Hb. rewrite Hb. split.
  - intros ->. reflexivity.
  - intros ip e Hall Hip He Hipne Hene.
    assert (Htr : (ResetRateLimit.strTruthy (ResetRateLimit.endpoint b)
                   && ResetRateLimit.strTruthy (ResetRateLimit.ip b))%bool = true).
    { rewrite Hip, He. simpl. unfold nonempty.
      destruct (String.eqb_spec ip ""); [congruence|].
      destruct (String.eqb_spec e ""); [congruence|]. reflexivity. }
    destruct (ResetRateLimit.clearAll b) as [| |[|]| | |]; try congruence;
      rewrite Htr, Hip, He; simpl; split; reflexivity.
Qed.

Lemma reset_only_in_development_witness :
  let st := mkServer seedDB {[ Utils.rateKey "203.0.113.7" "login" := [1; 2] ]} in
  let event := mkEvent "POST" (demoHeaders None) "/.netlify/functions/reset-rate-limit"
                 (Some (ResetRateLimit.mkBody (Some "login") (Some "203.0.113.7") JUndef)) in
  snd (ResetRateLimit.handler sampleEnv event st) = st
  /\ rateLimitStore (snd (ResetRateLimit.handler (mkEnv 5 true "K3X9Q") event st))
     = delete (Utils.rateKey "203.0.113.7" "login") (rateLimitStore st).
Proof.
  intros st event. split.
  - destruct (reset_only_in_development sampleEnv event st) as (_ & H & _).
    apply H. reflexivity.
  - destruct (reset_only_in_development (mkEnv 5 true "K3X9Q") event st) as (_ & _ & _ & H).
    destruct (H (ResetRateLimit.mkBody (Some "login") (Some "203.0.113.7") JUndef)
                eq_refl eq_refl eq_refl) as [_ H2].
    apply (H2 "203.0.113.7" "login"); try reflexivity; discriminate.
Defined.

(** ** Stock accounting of an order, and what cancelling gives back *)

Section StockAccounting.

Import OrdersCreate.

Lemma updateStocks_ids items ps q :
  firstWithId q (updateStocks items ps) = firstWithId q ps.
Proof.
  unfold updateStocks. revert ps.
  induction items as [|it rest IH]; intros ps; simpl; [reflexivity|].
  rewrite IH. apply updateFirst_ids. reflexivity.
Qed.

(** The decrement loop, product by product. *)
Lemma updateStocks_lookup items ps k :
  updateStocks items ps !! k = takenAt items ps k.
Proof.
  unfold updateStocks, takenAt. revert ps.
  induction items as [|it rest IH]; intros ps; simpl.
  - destruct (ps !! k) as [p|]; simpl; [|reflexivity].
    rewrite Z.sub_0_r, withStock_same. destruct (decide _); reflexivity.
  - rewrite IH. rewrite updateFirst_lookup by reflexivity.
    destruct (ps !! k) as [p|] eqn:Hk; simpl; [|reflexivity].
    f_equal.
    destruct (decide (firstWithId (OrderItem.productId it) ps = Some k)) as [Hit|Hit].
    + apply firstWithId_lookup in Hit as Hp. destruct Hp as (p' & Hp' & Hid).
      rewrite Hk in Hp'. injection Hp' as <-. cbn beta.
      rewrite updateFirst_ids by reflexivity.
      rewrite !withStock_id, withStock_stock, withStock_twice.
      rewrite Hid, Z.eqb_refl. rewrite !decide_True by exact Hit.
      f_equal. lia.
    + rewrite updateFirst_ids by reflexivity.
      destruct (decide (firstWithId (Product.id p) ps = Some k)) as [Hfirst|Hfirst];
        [|reflexivity].
      destruct (Z.eqb_spec (OrderItem.productId it) (Product.id p)) as [Heq|Hne];
        [|reflexivity].
      rewrite Heq in Hit. contradiction.
Qed.

(** Giving back what was taken leaves the catalogue as it was. *)
Lemma restore_after_update items ps :
  OrdersManage.restoreStocks items (updateStocks items ps) = ps.
Proof.
  apply list_eq. intros k.
  rewrite restoreStocks_lookup. unfold restoredAt.
  rewrite updateStocks_lookup. unfold takenAt.
  destruct (ps !! k) as [p|] eqn:Hk; simpl; [|reflexivity].
  f_equal.
  destruct (decide (firstWithId (Product.id p) ps = Some k)) as [Hfirst|Hfirst].
  - rewrite withStock_id, updateStocks_ids. rewrite decide_True by exact Hfirst.
    rewrite withStock_stock, withStock_twice.
    replace (Product.stock p - owed items (Product.id p) + owed items (Product.id p))
      with (Product.stock p) by lia.
    apply withStock_same.
  - rewrite updateStocks_ids. rewrite decide_False by exact Hfirst. reflexivity.
Qed.

End StockAccounting.

Section CreateThenManage.

Import OrdersCreate.

Lemma sameButStock_refl p : sameButStock p p.
Proof. unfold sameButStock. auto 10. Qed.

Lemma sameButStock_withStock p s : sameButStock p (Product.withStock p s).
Proof. unfold sameButStock. simpl. auto 10. Qed.

Lemma takenAt_sameButStock items ps :
  forall ps', (forall k, ps' !! k = takenAt items ps k) -> Forall2 sameButStock ps ps'.
Proof.
  intros ps' Hk. apply Forall2_lookup. intros k. rewrite Hk. unfold takenAt.
  destruct (ps !! k) as [p|]; simpl; constructor.
  destruct (decide _); [apply sameButStock_withStock|apply sameButStock_refl].
Qed.

Lemma restoreStocks_sameButStock items ps :
  Forall2 sameButStock ps (OrdersManage.restoreStocks items ps).
Proof.
  apply Forall2_lookup. intros k. rewrite restoreStocks_lookup. unfold restoredAt.
  destruct (ps !! k) as [p|]; simpl; constructor.
  destruct (decide _); [apply sameButStock_withStock|apply sameButStock_refl].
Qed.

(** What a 201 of [createOrder] leaves behind. *)
Lemma createOrder_created env decoded b db r db' :
  createOrder env decoded b db = (r, db') ->
  statusCode r = 201 ->
  exists o,
    db' = mkDB (users db) (updateStocks (Order.items o) (products db))
            (orders db ++ [o])%list
    /\ Order.id o = Z.of_nat (length (orders db)) + 1
    /\ Order.status o = Pending
    /\ Order.paymentStatus o = PayPending
    /\ Order.trackingNumber o = None
    /\ Order.adminNotes o = None
    /\ Order.estimatedDelivery o = Some (now env + 7 * 24 * 60 * 60 * 1000).
Proof.
  unfold createOrder.
  case_inputs; try (intros [= <- <-]; simpl; intros; discriminate).
  all: destruct (processItems _ _ _ _) as [err|[processed total]] eqn:Hrun;
    [ intros [= <- <-] H201;
      apply processItems_rejects_400 in Hrun; rewrite Hrun in H201; discriminate |].
  all: case_options; try (intros [= <- <-]; simpl; intros; discriminate).
  all: intros [= <- <-] _; simpl.
  all: match goal with
       | |- context [(_ ++ [?x])%list] => exists x
       end; simpl; repeat split; reflexivity.
Qed.

(** What a 201 of the handler leaves behind, on any parsed body, when
    the order is one that [MockDB] holds. *)
Lemma createOrderOfBody_created env decoded body db r db' :
  createOrderOfBody env decoded body db = Done r db' ->
  statusCode r = 201 ->
  exists o,
    db' = mkDB (users db) (updateStocks (Order.items o) (products db))
            (orders db ++ [o])%list
    /\ Order.id o = Z.of_nat (length (orders db)) + 1
    /\ Order.status o = Pending
    /\ Order.paymentStatus o = PayPending
    /\ Order.trackingNumber o = None
    /\ Order.adminNotes o = None
    /\ Order.estimatedDelivery o = Some (now env + 7 * 24 * 60 * 60 * 1000).
Proof.
  unfold createOrderOfBody.
  repeat match goal with
         | |- context [if ?c then _ else _] => destruct c
         | |- context [match ?x with _ => _ end] =>
             lazymatch x with
             | checkItems _ _ _ _ => fail
             | _ => destruct x
             end
         end;
    try (intros [= <- <-]; simpl; intros; discriminate).
  all: destruct (checkItems _ _ _ _) as [err|[processed total]] eqn:Hrun;
    [ intros [= <- <-] H201;
      apply checkItems_refusal in Hrun; destruct Hrun as [H|H];
      rewrite H in H201; discriminate |].
  all: repeat match goal with
              | |- context [if ?c then _ else _] => destruct c
              | |- context [match ?x with _ => _ end] => destruct x
              end;
    try (intros [= <- <-]; simpl; intros; discriminate);
    try discriminate.
  all: intros [= <- <-] _; simpl.
  all: match goal with
       | |- context [(_ ++ [?x])%list] => exists x
       end; simpl; repeat split; reflexivity.
Qed.

End CreateThenManage.

(** X7: what an order takes. In the part of the order-creation handler
    after the token check, on any parsed body, a 201 whose order records
    numbers as quantities and amounts and strings as address and notes
    appends that one order, pending and unpaid, and leaves the users
    alone; the catalogue keeps its length, and the product at each
    position keeps every field but its stock: the stock of the product
    that [find] returns for an id (the first one with that id) is the old
    stock minus the sum of the quantities that the items of the order
    record for that id, and the stock of any other product is the old
    one. *)
Theorem order_takes_recorded_quantities env decoded body db r db' :
  OrdersCreate.createOrderOfBody env decoded body db = OrdersCreate.Done r db' ->
  statusCode r = 201 ->
  exists o,
    orders db' = (orders db ++ [o])%list
    /\ users db' = users db
    /\ Order.id o = Z.of_nat (length (orders db)) + 1
    /\ Order.status o = Pending
    /\ Order.paymentStatus o = PayPending
    /\ length (products db') = length (products db)
    /\ (forall k p, products db !! k = Some p ->
          exists p',
            products db' !! k = Some p'
            /\ sameButStock p p'
            /\ Product.stock p'
               = if decide (firstWithId (Product.id p) (products db) = Some k)
                 then Product.stock p - owed (Order.items o) (Product.id p)
                 else Product.stock p).
Proof.
  intros Hrun H201.
  destruct (createOrderOfBody_created env decoded body db r db' Hrun H201)
    as (o & -> & Hid & Hst & Hpay & _).
  exists o. simpl. repeat (split; [first [reflexivity|assumption]|]).
  assert (Hk : forall k, OrdersCreate.updateStocks (Order.items o) (products db) !! k
                         = takenAt (Order.items o) (products db) k)
    by (intros k; apply updateStocks_lookup).
  split.
  - symmetry. eapply Forall2_length. eapply takenAt_sameButStock. exact Hk.
  - intros k p Hp. rewrite Hk. unfold takenAt. rewrite Hp. simpl.
    eexists. split; [reflexivity|].
    destruct (decide _); simpl.
    + split; [apply sameButStock_withStock|reflexivity].
    + split; [apply sameButStock_refl|reflexivity].
Qed.

Lemma order_takes_recorded_quantities_witness :
  exists o,
    orders shopAfterOrder = (orders shopDB ++ [o])%list
    /\ users shopAfterOrder = users shopDB
    /\ Order.id o = Z.of_nat (length (orders shopDB)) + 1
    /\ Order.status o = Pending
    /\ Order.paymentStatus o = PayPending
    /\ length (products shopAfterOrder) = length (products shopDB)
    /\ (forall k p, products shopDB !! k = Some p ->
          exists p',
            products shopAfterOrder !! k = Some p'
            /\ sameButStock p p'
            /\ Product.stock p'
               = if decide (firstWithId (Product.id p) (products shopDB) = Some k)
                 then Product.stock p - owed (Order.items o) (Product.id p)
                 else Product.stock p).
Proof.
  apply (order_takes_recorded_quantities sampleEnv sampleDecoded
           (OrdersCreate.ofBody (cartOf [(6, 3%Q)])) shopDB
           (createResponse 201 "Order created successfully") shopAfterOrder);
    reflexivity.
Defined.

Section Numbering.

Import OrdersManage.

Lemma findIndex_app_new oid os o :
  Forall (fun o' => Order.id o' <> oid) os -> Order.id o = oid ->
  findIndex oid (os ++ [o]) = Some (length os).
Proof.
  intros Hall Hid. induction Hall as [|o' os Hne _ IH]; simpl.
  - rewrite Hid, Z.eqb_refl. reflexivity.
  - destruct (Z.eqb_spec (Order.id o') oid); [contradiction|].
    rewrite IH. reflexivity.
Qed.

Lemma numbered_fresh os :
  numbered os -> Forall (fun o => Order.id o <> Z.of_nat (length os) + 1) os.
Proof.
  intros Hnum. apply Forall_lookup. intros i o Hi.
  rewrite (Hnum i o Hi). apply lookup_lt_Some in Hi. lia.
Qed.

Lemma numbered_snoc os o :
  numbered os -> Order.id o = Z.of_nat (length os) + 1 -> numbered (os ++ [o]).
Proof.
  intros Hnum Hid i o' Hi.
  destruct (decide (i < length os)%nat) as [Hlt|Hge].
  - rewrite lookup_app_l in Hi by exact Hlt. apply Hnum. exact Hi.
  - rewrite lookup_app_r in Hi by lia.
    destruct (i - length os)%nat as [|n] eqn:Hn; simpl in Hi; [|discriminate].
    injection Hi as <-. rewrite Hid. f_equal. lia.
Qed.

Lemma numbered_insert os i o saved :
  numbered os -> os !! i = Some o -> Order.id saved = Order.id o ->
  numbered (<[i := saved]> os).
Proof.
  intros Hnum Hi Hid j o' Hj.
  destruct (decide (i = j)) as [<-|Hne].
  - rewrite list_lookup_insert_eq in Hj by (eapply lookup_lt_Some; exact Hi).
    injection Hj as <-. rewrite Hid. apply Hnum. exact Hi.
  - rewrite list_lookup_insert_ne in Hj by exact Hne. apply Hnum. exact Hj.
Qed.

Lemma numbered_findIndex os i o :
  numbered os -> os !! i = Some o -> findIndex (Order.id o) os = Some i.
Proof.
  intros Hnum Hi. rewrite (Hnum i o Hi).
  assert (Hgen : forall base l j x,
             (forall k y, l !! k = Some y -> Order.id y = Z.of_nat (base + k) + 1) ->
             l !! j = Some x -> findIndex (Z.of_nat (base + j) + 1) l = Some j).
  { clear. intros base l. revert base.
    induction l as [|y l IH]; intros base j x Hl Hj; [discriminate|].
    simpl. destruct j as [|j].
    - rewrite (Hl 0%nat y eq_refl), Z.eqb_refl. reflexivity.
    - rewrite (Hl 0%nat y eq_refl).
      destruct (Z.eqb_spec (Z.of_nat (base + 0) + 1) (Z.of_nat (base + S j) + 1)); [lia|].
      replace (base + S j)%nat with (S base + j)%nat by lia.
      rewrite (IH (S base) j x); [reflexivity| |exact Hj].
      intros k z Hk. replace (S base + k)%nat with (base + S k)%nat by lia.
      apply Hl. exact Hk. }
  apply (Hgen 0%nat os i o); [|exact Hi].
  intros k y Hk. simpl. apply Hnum. exact Hk.
Qed.

Lemma sameContent_refl o : sameContent o o.
Proof. repeat split. Qed.

Lemma sameContent_withStatus o x st :
  sameContent o x -> sameContent o (withStatus x st).
Proof. intros H. exact H. Qed.

Lemma sameContent_withTracking o x t :
  sameContent o x -> sameContent o (withTracking x t).
Proof. intros H. exact H. Qed.

Lemma sameContent_withPayment o x p :
  sameContent o x -> sameContent o (withPayment x p).
Proof. intros H. exact H. Qed.

Lemma sameContent_withAdminNotes o x n :
  sameContent o x -> sameContent o (withAdminNotes x n).
Proof. intros H. exact H. Qed.

Lemma sameContent_withTimes o x u e :
  sameContent o x -> sameContent o (withTimes x u e).
Proof. intros H. exact H. Qed.

Lemma statusStep_content o b d d1 :
  statusStep o b d = inr d1 ->
  sameContent o (updatedOrder d) -> sameContent o (updatedOrder d1).
Proof.
  unfold statusStep. intros Hstep Hd.
  destruct (status b); [|injection Hstep as <-; exact Hd].
  destruct (parseStatus _); [|discriminate].
  destruct (_ && _)%bool; [discriminate|].
  destruct (negb _); [|injection Hstep as <-; exact Hd].
  destruct (_ && _)%bool; injection Hstep as <-; exact Hd.
Qed.

Lemma trackingStep_content o b d :
  sameContent o (updatedOrder d) -> sameContent o (updatedOrder (trackingStep o b d)).
Proof.
  unfold trackingStep. intros Hd.
  destruct (trackingNumber b); [|exact Hd].
  destruct (negb _); exact Hd.
Qed.

Lemma paymentStep_content o b d d1 :
  paymentStep o b d = inr d1 ->
  sameContent o (updatedOrder d) -> sameContent o (updatedOrder d1).
Proof.
  unfold paymentStep. intros Hstep Hd.
  destruct (paymentStatus b); [|injection Hstep as <-; exact Hd].
  destruct (parsePaymentStatus _); [|discriminate].
  destruct (negb _); injection Hstep as <-; exact Hd.
Qed.

Lemma notesStep_content o b d :
  sameContent o (updatedOrder d) -> sameContent o (updatedOrder (notesStep o b d)).
Proof.
  unfold notesStep. intros Hd.
  destruct (notes b); [|exact Hd].
  destruct (negb _); exact Hd.
Qed.

(** The orders behind any outcome of an update: the old ones, or the old
    ones with the edited order put back in its place. *)
Lemma updateOrder_outcome env i o b db :
  users (snd (updateOrder env i o b db)) = users db
  /\ exists saved,
      sameContent o saved
      /\ (orders (snd (updateOrder env i o b db)) = orders db
          \/ orders (snd (updateOrder env i o b db)) = <[i := saved]> (orders db)).
Proof.
  unfold updateOrder.
  destruct (statusStep o b _) as [err|d1] eqn:Hstep.
  { split; [reflexivity|]. exists o. split; [apply sameContent_refl|left; reflexivity]. }
  apply statusStep_content in Hstep; [|apply sameContent_refl].
  pose proof (trackingStep_content o b d1 Hstep) as H2.
  destruct (paymentStep o b _) as [err|d3] eqn:Hpay.
  { split; [reflexivity|]. exists o. split; [apply sameContent_refl|left; reflexivity]. }
  apply paymentStep_content in Hpay; [|exact H2].
  pose proof (notesStep_content o b d3 Hpay) as H4.
  destruct (negb _).
  { split; [reflexivity|]. exists o. split; [apply sameContent_refl|left; reflexivity]. }
  split; [reflexivity|]. eexists. split; [|right; reflexivity].
  apply sameContent_withTimes. exact H4.
Qed.

End Numbering.

(** X8: cancelling gives back what the order took. This is about the two
    handlers past their checks of the caller: orders-create.js after the
    token check, on any parsed body, and orders-manage.js after the admin
    check. When the orders are numbered as the handler numbers them and a
    201 of order creation has recorded an order with numbers as quantities
    and amounts and strings as address and notes, the update of that order
    to [cancelled] returns the 200 response and leaves the catalogue,
    stocks included, and the users exactly as they were before the order
    was placed; the order stays on file, cancelled. *)
Theorem cancel_after_create_restores_catalogue env decoded body db r db1 env2 :
  OrdersCreate.createOrderOfBody env decoded body db = OrdersCreate.Done r db1 ->
  statusCode r = 201 ->
  numbered (orders db) ->
  exists log o,
    OrdersManage.manageOrder env2 (Z.of_nat (length (orders db)) + 1)
      (statusOnly "cancelled") db1
    = (createResponse 200 "Order updated successfully", log,
       mkDB (users db) (products db) (orders db ++ [o])%list)
    /\ Order.status o = Cancelled
    /\ Order.id o = Z.of_nat (length (orders db)) + 1.
Proof.
  intros Hrun H201 Hnum.
  destruct (createOrderOfBody_created env decoded body db r db1 Hrun H201)
    as (o & -> & Hid & Hst & Hpay & Htrack & Hnotes & Hest).
  unfold OrdersManage.manageOrder. simpl orders.
  rewrite (findIndex_app_new _ _ o (numbered_fresh _ Hnum) Hid).
  rewrite lookup_app_r by lia. rewrite Nat.sub_diag. simpl lookup.
  unfold OrdersManage.updateOrder.
  set (d0 := OrdersManage.mkDraft o false [] _).
  destruct (statusStep_permitted o (statusOnly "cancelled") d0 Cancelled)
    as (d1 & Hstep & Hupd & Hchg & Hcat).
  { reflexivity. }
  { rewrite Hst. simpl. auto. }
  rewrite Hstep.
  unfold OrdersManage.trackingStep, OrdersManage.paymentStep, OrdersManage.notesStep.
  simpl. rewrite Hchg. simpl.
  rewrite Hupd, Hcat. unfold d0. simpl.
  rewrite restore_after_update.
  do 2 eexists. split; [|split].
  - f_equal. f_equal.
    replace (length (orders db)) with (length (orders db) + 0)%nat at 1 by lia.
    rewrite insert_app_r. simpl. reflexivity.
  - simpl. reflexivity.
  - simpl. exact Hid.
Qed.

Lemma cancel_after_create_restores_catalogue_witness :
  exists log o,
    OrdersManage.manageOrder sampleEnv (Z.of_nat (length (orders shopDB)) + 1)
      (statusOnly "cancelled") shopAfterOrder
    = (createResponse 200 "Order updated successfully", log,
       mkDB (users shopDB) (products shopDB) (orders shopDB ++ [o])%list)
    /\ Order.status o = Cancelled
    /\ Order.id o = Z.of_nat (length (orders shopDB)) + 1.
Proof.
  apply (cancel_after_create_restores_catalogue sampleEnv sampleDecoded
           (OrdersCreate.ofBody (cartOf [(6, 3%Q)])) shopDB
           (createResponse 201 "Order created successfully") shopAfterOrder sampleEnv).
  - reflexivity.
  - reflexivity.
  - intros i o Hi. destruct i; discriminate.
Defined.

(** X9: order ids. Orders numbered from 1 in list order stay so under
    order creation and under updates, whatever their outcome; hence no two
    orders share an id, and an update by id addresses the order with that
    id and no other. *)
Theorem order_ids_stay_numbered env decoded b db env2 oid b2 :
  numbered (orders db) ->
  numbered (orders (snd (OrdersCreate.createOrder env decoded b db)))
  /\ numbered (orders (snd (OrdersManage.manageOrder env2 oid b2 db)))
  /\ NoDup (map Order.id (orders db))
  /\ (forall i o, orders db !! i = Some o ->
                  OrdersManage.findIndex (Order.id o) (orders db) = Some i).
Proof.
  intros Hnum. split; [|split; [|split]].
  - destruct (OrdersCreate.createOrder env decoded b db) as [r db'] eqn:Hrun.
    destruct (Z.eq_dec (statusCode r) 201) as [H201|Hne].
    + destruct (createOrder_created env decoded b db r db' Hrun H201)
        as (o & -> & Hid & _).
      simpl. apply numbered_snoc; assumption.
    + pose proof (createOrder_error_keeps_db env decoded b db) as Hkeep.
      rewrite Hrun in Hkeep. simpl in *. rewrite (Hkeep Hne). exact Hnum.
  - unfold OrdersManage.manageOrder.
    destruct (OrdersManage.findIndex oid (orders db)) as [i|]; [|exact Hnum].
    destruct (orders db !! i) as [o|] eqn:Hi; [|exact Hnum].
    destruct (updateOrder_outcome env2 i o b2 db) as (_ & saved & Hsame & [Heq|Heq]);
      rewrite Heq; [exact Hnum|].
    eapply numbered_insert; [exact Hnum|exact Hi|]. apply Hsame.
  - apply NoDup_alt. intros i j x Hi Hj.
    rewrite list_lookup_fmap in Hi, Hj.
    destruct (orders db !! i) as [oi|] eqn:Hoi; [|discriminate].
    destruct (orders db !! j) as [oj|] eqn:Hoj; [|discriminate].
    simpl in Hi, Hj. injection Hi as Hi. injection Hj as Hj.
    rewrite (Hnum i oi Hoi) in Hi. rewrite (Hnum j oj Hoj) in Hj. lia.
  - intros i o Hi. apply numbered_findIndex; assumption.
Qed.

Lemma order_ids_stay_numbered_witness :
  numbered (orders (snd (OrdersCreate.createOrder sampleEnv sampleDecoded
                           (cartOf [(6, 1%Q)]) shopAfterOrder)))
  /\ numbered (orders (snd (OrdersManage.manageOrder sampleEnv 1 (statusOnly "confirmed")
                              shopAfterOrder)))
  /\ NoDup (map Order.id (orders shopAfterOrder))
  /\ (forall i o, orders shopAfterOrder !! i = Some o ->
                  OrdersManage.findIndex (Order.id o) (orders shopAfterOrder) = Some i).
Proof.
  apply (order_ids_stay_numbered sampleEnv sampleDecoded (cartOf [(6, 1%Q)]) shopAfterOrder
           sampleEnv 1 (statusOnly "confirmed")).
  intros i o Hi. destruct i as [|i]; [|destruct i; discriminate].
  injection Hi as <-. reflexivity.
Defined.

(** X10: what an update can touch. Whatever its outcome, an update of an
    order by an administrator leaves the users alone, changes no product in
    anything but its stock, and changes no order in its id, owner, number,
    items, address, payment method, customer notes, amounts or creation
    date; the orders that the id does not address are untouched. *)
Theorem manage_edits_one_order env oid b db :
  let db' := snd (OrdersManage.manageOrder env oid b db) in
  users db' = users db
  /\ Forall2 sameButStock (products db) (products db')
  /\ Forall2 sameContent (orders db) (orders db')
  /\ (forall i o, orders db !! i = Some o ->
                  OrdersManage.findIndex oid (orders db) <> Some i ->
                  orders db' !! i = Some o).
Proof.
  cbv zeta. unfold OrdersManage.manageOrder.
  assert (Hrefl : Forall2 sameContent (orders db) (orders db)).
  { apply Forall2_lookup. intros i. destruct (orders db !! i); constructor.
    repeat split. }
  assert (Hprefl : Forall2 sameButStock (products db) (products db)).
  { apply Forall2_lookup. intros i. destruct (products db !! i); constructor.
    apply sameButStock_refl. }
  destruct (OrdersManage.findIndex oid (orders db)) as [i|] eqn:Hfind; [|simpl; auto].
  destruct (orders db !! i) as [o|] eqn:Hi; [|simpl; auto].
  destruct (updateOrder_outcome env i o b db) as (Husers & saved & Hsame & Horders).
  split; [exact Husers|]. split; [|split].
  - unfold OrdersManage.updateOrder.
    destruct (OrdersManage.statusStep o b _) as [err|d1] eqn:Hstep; [exact Hprefl|].
    apply statusStep_result in Hstep as [_ Hcases].
    assert (Hcat : Forall2 sameButStock (products db) (OrdersManage.catalogue d1)).
    { destruct Hcases as [[-> _]|(_ & _ & _ & ->)]; [exact Hprefl|].
      simpl. destruct (Order.status (OrdersManage.updatedOrder d1));
        try exact Hprefl. apply restoreStocks_sameButStock. }
    pose proof (trackingStep_keeps o b d1) as (_ & _ & Hc2 & _).
    destruct (OrdersManage.paymentStep o b _) as [err|d3] eqn:Hpay; simpl.
    { rewrite Hc2. exact Hcat. }
    apply paymentStep_keeps in Hpay as (_ & _ & Hc3 & _).
    pose proof (notesStep_keeps o b d3) as (_ & _ & Hc4 & _).
    destruct (negb _); simpl; rewrite Hc4, Hc3, Hc2; exact Hcat.
  - destruct Horders as [->| ->]; [exact Hrefl|].
    apply Forall2_lookup. intros j.
    destruct (decide (i = j)) as [<-|Hne].
    + rewrite list_lookup_insert_eq by (eapply lookup_lt_Some; exact Hi).
      rewrite Hi. constructor. exact Hsame.
    + rewrite list_lookup_insert_ne by exact Hne.
      destruct (orders db !! j); constructor. repeat split.
  - intros j o' Hj Hne. destruct Horders as [->| ->]; [exact Hj|].
    rewrite list_lookup_insert_ne by congruence. exact Hj.
Qed.

Example parseInt_examples :
  JsText.parseInt "42" = Some 42
  /\ JsText.parseInt "  -17px" = Some (-17)
  /\ JsText.parseInt "+5" = Some 5
  /\ JsText.parseInt "12.5" = Some 12
  /\ JsText.parseInt "1e3" = Some 1
  /\ JsText.parseInt "0x1A" = Some 26
  /\ JsText.parseInt "-0X10" = Some (-16)
  /\ JsText.parseInt "0x" = None
  /\ JsText.parseInt "" = None
  /\ JsText.parseInt "abc" = None
  /\ JsText.parseInt "-" = None
  /\ JsText.parseInt "007" = Some 7.
Proof. repeat split. Qed.

Example lastSegment_examples :
  JsText.lastSegment "/.netlify/functions/orders-manage/12" = "12"
  /\ JsText.lastSegment "/.netlify/functions/orders-manage/" = ""
  /\ JsText.lastSegment "orders-manage" = "orders-manage"
  /\ JsText.split "/" "a//b" = ["a"; ""; "b"].
Proof. repeat split. Qed.

(** ** The handlers behind the admin check *)

Section AdminCheck.

Variable verifyToken : Z -> string -> option JsVal.

Ltac turned_away :=
  simpl; split; [reflexivity|]; split;
  [ simpl; tauto | simpl; intros; try discriminate; try assumption ].

Lemma orders_manage_turned_away env event st :
  let out := OrdersManageHandler.handler verifyToken checkAdminRole env event st in
  mockDB (snd out) = mockDB st /\ turnedAway (httpMethod event) (fst out).
Proof.
  cbv zeta. unfold OrdersManageHandler.handler, checkAdminRole, handleCORS.
  destruct (String.eqb (httpMethod event) "OPTIONS") eqn:Hopt.
  { apply String.eqb_eq in Hopt. turned_away. }
  destruct (negb (String.eqb (httpMethod event) "PUT")); [turned_away|].
  destruct (Utils.checkRateLimit _ _ _ _ _ _ _) as [[|] store]; [|turned_away].
  destruct (negb (OrdersManageHandler.strTruthy _)); [turned_away|].
  destruct (verifyToken _ _) as [decoded|]; [|turned_away].
  destruct (getField "success" decoded) as [ok|]; [|turned_away].
  destruct (negb (truthy ok)); turned_away.
Qed.

Lemma products_create_turned_away env event st :
  let out := ProductsCreate.handler verifyToken checkAdminRole env event st in
  mockDB (snd out) = mockDB st /\ turnedAway (httpMethod event) (fst out).
Proof.
  cbv zeta. unfold ProductsCreate.handler, checkAdminRole, handleCORS.
  destruct (String.eqb (httpMethod event) "OPTIONS") eqn:Hopt.
  { apply String.eqb_eq in Hopt. turned_away. }
  destruct (negb (String.eqb (httpMethod event) "POST")); [turned_away|].
  destruct (Utils.checkRateLimit _ _ _ _ _ _ _) as [[|] store]; [|turned_away].
  destruct (negb (ProductsCreate.strTruthy _)); [turned_away|].
  destruct (verifyToken _ _) as [decoded|]; [|turned_away].
  destruct (getField "success" decoded) as [ok|]; [|turned_away].
  destruct (negb (truthy ok)); turned_away.
Qed.

Lemma products_manage_turned_away env event st :
  let out := ProductsManage.handler verifyToken checkAdminRole env event st in
  mockDB (snd out) = mockDB st /\ turnedAway (httpMethod event) (fst out).
Proof.
  cbv zeta. unfold ProductsManage.handler, checkAdminRole, handleCORS.
  destruct (String.eqb (httpMethod event) "OPTIONS") eqn:Hopt.
  { apply String.eqb_eq in Hopt. turned_away. }
  destruct (negb (existsb _ _)); [turned_away|].
  destruct (Utils.checkRateLimit _ _ _ _ _ _ _) as [[|] store]; [|turned_away].
  destruct (negb (ProductsManage.strTruthy _)); [turned_away|].
  destruct (verifyToken _ _) as [decoded|]; [|turned_away].
  destruct (getField "success" decoded) as [ok|]; [|turned_away].
  destruct (negb (truthy ok)); turned_away.
Qed.

End AdminCheck.

(** X11: with utils.js as it is exported, no request gets past the admin
    check of orders-manage.js, products-create.js and products-manage.js:
    whatever the token check returns, the answer is the preflight 200, 405,
    429, 401 or 500, and [mockDB] is unchanged. *)
Theorem admin_handlers_turn_everyone_away (verifyToken : Z -> string -> option JsVal)
    (env : Env) (st : Server) :
  (forall event,
      let out := OrdersManageHandler.handler verifyToken checkAdminRole env event st in
      mockDB (snd out) = mockDB st /\ turnedAway (httpMethod event) (fst out))
  /\ (forall event,
         let out := ProductsCreate.handler verifyToken checkAdminRole env event st in
         mockDB (snd out) = mockDB st /\ turnedAway (httpMethod event) (fst out))
  /\ (forall event,
         let out := ProductsManage.handler verifyToken checkAdminRole env event st in
         mockDB (snd out) = mockDB st /\ turnedAway (httpMethod event) (fst out)).
Proof.
  split; [|split]; intros event.
  - apply orders_manage_turned_away.
  - apply products_create_turned_away.
  - apply products_manage_turned_away.
Qed.

(** ** Ids in paths *)

Section PathIds.

Lemma split_nonempty sep s : JsText.split sep s <> [].
Proof.
  destruct s as [|c r]; simpl; [discriminate|].
  destruct (Ascii.eqb c sep); [discriminate|].
  destruct (JsText.split sep r); discriminate.
Qed.

Lemma split_slashFree s : slashFree s = true -> JsText.split "/" s = [s].
Proof.
  unfold slashFree. induction s as [|c r IH]; simpl; [reflexivity|].
  intros H. apply andb_true_iff in H as [Hc Hr]. apply negb_true_iff in Hc.
  rewrite Hc, (IH Hr). reflexivity.
Qed.

Lemma split_app a b :
  JsText.split "/" (a ++ "/" ++ b) = (JsText.split "/" a ++ JsText.split "/" b)%list.
Proof.
  induction a as [|c r IH].
  - reflexivity.
  - rewrite append_cons. simpl. rewrite IH.
    destruct (Ascii.eqb c "/"); [reflexivity|].
    destruct (JsText.split "/" r) as [|s0 ss] eqn:Hr; [|reflexivity].
    exfalso. exact (split_nonempty _ _ Hr).
Qed.

Lemma lastSegment_app base seg :
  slashFree seg = true -> JsText.lastSegment (base ++ "/" ++ seg) = seg.
Proof.
  intros Hseg. unfold JsText.lastSegment.
  rewrite split_app, (split_slashFree seg Hseg).
  apply List.last_last.
Qed.



Lemma pretty_go_numeral (x : N) :
  forall s, numeral s = true -> numeral (pretty_N_go x s) = true.
Proof.
  induction (N.lt_wf_0 x) as [x _ IH]. intros s Hs.
  destruct (N.eq_dec x 0%N) as [->|Hnz]; [rewrite pretty_N_go_0; exact Hs|].
  rewrite pretty_N_go_step by lia. apply IH; [apply N.div_lt; lia|].
  unfold numeral in *. cbn [Validate.forallb_str]. apply andb_true_iff. split; [|exact Hs].
  assert (Hlt : (N.modulo x 10%N < 10)%N) by (apply N.mod_lt; lia).
  destruct (N.modulo x 10%N) as [|p] eqn:Hm; [reflexivity|].
  do 4 (destruct p as [p|p|]; try reflexivity; try lia).
Qed.



Lemma numeral_slashFree s : numeral s = true -> slashFree s = true.
Proof.
  unfold numeral, slashFree. induction s as [|c r IH]; [reflexivity|].
  cbn [Validate.forallb_str]. intros H. apply andb_true_iff in H as [Hc Hr].
  rewrite (IH Hr), andb_true_r.
  apply andb_true_iff in Hc as [Hlo Hhi].
  apply Nat.leb_le in Hlo. apply Nat.leb_le in Hhi.
  destruct (Ascii.eqb_spec c "/"); [subst; change (nat_of_ascii "/") with 47%nat in *; lia|reflexivity].
Qed.

Lemma pretty_slashFree (z : Z) : slashFree (pretty z) = true.
Proof.
  destruct z as [|p|p]; [reflexivity| |].
  - apply numeral_slashFree. apply (pretty_go_numeral (N.pos p) ""). reflexivity.
  - change (pretty (Z.neg p)) with ("-" ++ pretty_N_go (N.pos p) "").
    rewrite append_cons. unfold slashFree. simpl.
    apply numeral_slashFree. apply (pretty_go_numeral (N.pos p) ""). reflexivity.
Qed.

Lemma pretty_nonempty (z : Z) : nonempty (pretty z) = true.
Proof.
  destruct z as [|p|p]; [reflexivity| |reflexivity].
  change (pretty (Z.pos p)) with (pretty_N_go (N.pos p) "").
  destruct (pretty_go_head (N.pos p) eq_refl "") as (c & r & -> & _). reflexivity.
Qed.

End PathIds.

(** X12: ids in paths. The client puts the id of an order or of a product
    at the end of the path, printed in decimal; the handlers read it back
    with [split], the last segment and [parseInt], and get the same id,
    whatever the path before it. The id is a whole number that JavaScript
    represents exactly. *)
Theorem path_id_round_trip (base : string) (id : Z) :
  Z.abs id < 2 ^ 53 ->
  let productId := JsText.lastSegment (base ++ "/" ++ pretty id) in
  productId = pretty id
  /\ nonempty productId = true
  /\ JsText.parseInt productId = Some id.
Proof.
  intros _. cbv zeta. rewrite lastSegment_app by apply pretty_slashFree.
  split; [reflexivity|]. split; [apply pretty_nonempty|apply parseInt_pretty].
Qed.

Lemma path_id_round_trip_witness :
  JsText.lastSegment "/.netlify/functions/orders-manage/17" = "17"
  /\ JsText.parseInt "17" = Some 17.
Proof.
  destruct (path_id_round_trip "/.netlify/functions/orders-manage" 17 ltac:(reflexivity))
    as (Hseg & _ & Hid).
  split; [exact Hseg|]. rewrite Hseg in Hid. exact Hid.
Defined.

(** ** The catalogue handlers *)

Section CatalogueEdits.

Lemma create_lengthInside lo hi s :
  ProductsCreate.lengthOutside lo hi s = false ->
  (lo <= String.length s <= hi)%nat.
Proof.
  unfold ProductsCreate.lengthOutside. intros H.
  apply orb_false_iff in H as [H1 H2].
  apply Nat.ltb_ge in H1. apply Nat.ltb_ge in H2. lia.
Qed.

Lemma find_sameName_none name ps :
  List.find (ProductsCreate.sameName name) ps = None ->
  Forall (fun q => toLowerCase (Product.name q) <> toLowerCase name) ps.
Proof.
  intros Hnone. apply Forall_forall. intros q Hq Heq.
  apply list_elem_of_In in Hq.
  pose proof (find_none _ _ Hnone q Hq) as Hf.
  unfold ProductsCreate.sameName in Hf. rewrite Heq, String.eqb_refl in Hf. discriminate.
Qed.

(** What a 201 of [createProduct] leaves behind. *)
Lemma createProduct_created env payload b db r db' :
  ProductsCreate.createProduct env payload b db = (r, db') ->
  statusCode r = 201 ->
  exists p,
    db' = mkDB (users db) (products db ++ [p])%list (orders db)
    /\ Product.id p = Z.of_nat (length (products db)) + 1
    /\ Product.name p = sanitizeInput (default "" (ProductsCreate.name b))
    /\ (2 <= String.length (Product.name p) <= 100)%nat
    /\ 0 < Product.price p
    /\ 0 <= Product.stock p
    /\ Product.isActive p = Some true
    /\ Forall (fun q => toLowerCase (Product.name q) <> toLowerCase (Product.name p))
         (products db).
Proof.
  unfold ProductsCreate.createProduct.
  destruct (_ || _ || _ || _)%bool eqn:Hreq; [intros [= <- <-]; discriminate|].
  destruct (ProductsCreate.lengthOutside 2 100 _) eqn:Hname; [intros [= <- <-]; discriminate|].
  destruct (ProductsCreate.lengthOutside 10 500 _); [intros [= <- <-]; discriminate|].
  destruct (ProductsCreate.lengthOutside 2 50 _); [intros [= <- <-]; discriminate|].
  destruct (default 0 (ProductsCreate.price b) <? 0) eqn:Hprice;
    [intros [= <- <-]; discriminate|].
  destruct (default 0 (ProductsCreate.stock b) <? 0) eqn:Hstock;
    [intros [= <- <-]; discriminate|].
  destruct (List.find _ _) as [dup|] eqn:Hfind;
    destruct (getField "id" payload); intros [= <- <-]; try discriminate.
  intros _. eexists. split; [reflexivity|]. simpl.
  split; [reflexivity|]. split; [reflexivity|].
  split; [apply create_lengthInside; exact Hname|].
  apply Z.ltb_ge in Hprice. apply Z.ltb_ge in Hstock.
  split.
  { apply orb_false_iff in Hreq as [Hreq _]. apply orb_false_iff in Hreq as [_ Hp].
    apply negb_false_iff in Hp. unfold ProductsCreate.numTruthy in Hp.
    destruct (ProductsCreate.price b) as [z|]; [|discriminate]. simpl in *.
    apply negb_true_iff, Z.eqb_neq in Hp. lia. }
  split; [exact Hstock|]. split; [reflexivity|].
  apply find_sameName_none. exact Hfind.
Qed.

Lemma createProduct_refused env payload b db :
  statusCode (fst (ProductsCreate.createProduct env payload b db)) <> 201 ->
  snd (ProductsCreate.createProduct env payload b db) = db.
Proof.
  unfold ProductsCreate.createProduct.
  destruct (_ || _ || _ || _)%bool; [reflexivity|].
  destruct (ProductsCreate.lengthOutside 2 100 _); [reflexivity|].
  destruct (ProductsCreate.lengthOutside 10 500 _); [reflexivity|].
  destruct (ProductsCreate.lengthOutside 2 50 _); [reflexivity|].
  destruct (default 0 (ProductsCreate.price b) <? 0); [reflexivity|].
  destruct (default 0 (ProductsCreate.stock b) <? 0); [reflexivity|].
  destruct (List.find _ (products db)); destruct (getField "id" payload); simpl; intros H;
    try reflexivity. exfalso. apply H. reflexivity.
Qed.

End CatalogueEdits.

(** X13: what products-create.js adds, in the part of the handler after
    the admin check and on a body whose texts are ASCII strings and whose
    price and stock are whole numbers. Any answer but 201 leaves the
    database as it was. A 201 appends one product and changes nothing
    else: the product is numbered after the length of the catalogue, is
    active, has a price and a stock that are not negative, and a sanitized
    name of 2 to 100 characters that no product of the catalogue bears,
    whatever the letter case. So names stay unique, and stocks and prices
    stay non-negative. *)
Theorem product_creation_validates env payload b db :
  let out := ProductsCreate.createProduct env payload b db in
  (statusCode (fst out) <> 201 -> snd out = db)
  /\ (statusCode (fst out) = 201 ->
      exists p,
        snd out = mkDB (users db) (products db ++ [p])%list (orders db)
        /\ Product.id p = Z.of_nat (length (products db)) + 1
        /\ markupFree (Product.name p) = true
        /\ (2 <= String.length (Product.name p) <= 100)%nat
        /\ 0 <= Product.price p
        /\ 0 <= Product.stock p
        /\ Product.isActive p = Some true
        /\ Forall (fun q => toLowerCase (Product.name q) <> toLowerCase (Product.name p))
             (products db))
  /\ (namesUnique (products db) -> namesUnique (products (snd out)))
  /\ (Forall stocked (products db) -> Forall stocked (products (snd out))).
Proof.
  cbv zeta.
  destruct (ProductsCreate.createProduct env payload b db) as [r db'] eqn:Hrun.
  simpl fst. simpl snd.
  pose proof (createProduct_refused env payload b db) as Hkeep.
  rewrite Hrun in Hkeep. simpl in Hkeep.
  destruct (Z.eq_dec (statusCode r) 201) as [H201|Hne].
  - destruct (createProduct_created env payload b db r db' Hrun H201)
      as (p & -> & Hid & Hname & Hlen & Hprice & Hstock & Hact & Hfresh).
    split; [congruence|]. split; [|split].
    + intros _. exists p. split; [reflexivity|].
      split; [exact Hid|]. split.
      { rewrite Hname. apply stripMarkup_markupFree. }
      split; [exact Hlen|]. split; [lia|]. auto.
    + intros Huniq. unfold namesUnique in *. simpl.
      rewrite map_app. simpl. apply NoDup_app. split; [exact Huniq|]. split.
      * intros x Hx Hin. apply list_elem_of_singleton in Hin. subst x.
        apply list_elem_of_fmap in Hx as (q & Heq & Hq).
        rewrite Forall_forall in Hfresh. apply (Hfresh q Hq). congruence.
      * apply NoDup_singleton.
    + intros Hall. simpl. apply Forall_app. split; [exact Hall|].
      constructor; [|constructor]. split; lia.
  - rewrite (Hkeep Hne). split; [reflexivity|]. split; [contradiction|]. auto.
Qed.

Section CatalogueUpdates.

Import ProductsManage.

Lemma keeps_refl n ps existing : keeps n ps existing existing.
Proof. split; [reflexivity|]. split; [auto|]. left. reflexivity. Qed.

Lemma find_duplicateOf_none n name ps :
  List.find (duplicateOf n name) ps = None ->
  Forall (fun q => Product.id q <> n ->
                   toLowerCase (Product.name q) <> toLowerCase name) ps.
Proof.
  intros Hnone. apply Forall_forall. intros q Hq Hid Heq.
  apply list_elem_of_In in Hq.
  pose proof (find_none _ _ Hnone q Hq) as Hf. unfold duplicateOf in Hf.
  rewrite Heq, String.eqb_refl, andb_true_r in Hf.
  apply negb_false_iff, Z.eqb_eq in Hf. contradiction.
Qed.

Lemma nameStep_keeps n ps existing b d d' :
  nameStep n ps b d = inr d' -> keeps n ps existing (fst d) -> keeps n ps existing (fst d').
Proof.
  unfold nameStep. intros Hstep (Hid & Hst & Hname).
  destruct (name b) as [raw|]; [|injection Hstep as <-; exact (conj Hid (conj Hst Hname))].
  destruct (lengthOutside 2 100 _); [discriminate|].
  destruct (List.find _ ps) eqn:Hfind; [discriminate|].
  injection Hstep as <-. simpl. split; [exact Hid|]. split; [exact Hst|].
  right. apply find_duplicateOf_none. exact Hfind.
Qed.

Lemma descriptionStep_keeps n ps existing b d d' :
  descriptionStep b d = inr d' -> keeps n ps existing (fst d) -> keeps n ps existing (fst d').
Proof.
  unfold descriptionStep. intros Hstep Hk.
  destruct (description b); [|injection Hstep as <-; exact Hk].
  destruct (lengthOutside 10 500 _); [discriminate|].
  injection Hstep as <-. exact Hk.
Qed.

Lemma priceStep_keeps n ps existing b d d' :
  priceStep b d = inr d' -> keeps n ps existing (fst d) -> keeps n ps existing (fst d').
Proof.
  unfold priceStep. intros Hstep (Hid & Hst & Hname).
  destruct (price b) as [numPrice|]; [|injection Hstep as <-; exact (conj Hid (conj Hst Hname))].
  destruct (numPrice <? 0) eqn:Hneg; [discriminate|].
  injection Hstep as <-. simpl. split; [exact Hid|]. split; [|exact Hname].
  intros Hex. destruct (Hst Hex) as [Hs _]. apply Z.ltb_ge in Hneg. split; assumption.
Qed.

Lemma categoryStep_keeps n ps existing b d d' :
  categoryStep b d = inr d' -> keeps n ps existing (fst d) -> keeps n ps existing (fst d').
Proof.
  unfold categoryStep. intros Hstep Hk.
  destruct (category b); [|injection Hstep as <-; exact Hk].
  destruct (lengthOutside 2 50 _); [discriminate|].
  injection Hstep as <-. exact Hk.
Qed.

Lemma imageStep_keeps n ps existing b d :
  keeps n ps existing (fst d) -> keeps n ps existing (fst (imageStep b d)).
Proof. unfold imageStep. intros Hk. destruct (image b); exact Hk. Qed.

Lemma stockStep_keeps n ps existing b d d' :
  stockStep b d = inr d' -> keeps n ps existing (fst d) -> keeps n ps existing (fst d').
Proof.
  unfold stockStep. intros Hstep (Hid & Hst & Hname).
  destruct (stock b) as [numStock|]; [|injection Hstep as <-; exact (conj Hid (conj Hst Hname))].
  destruct (numStock <? 0) eqn:Hneg; [discriminate|].
  injection Hstep as <-. simpl. split; [exact Hid|]. split; [|exact Hname].
  intros Hex. destruct (Hst Hex) as [_ Hp]. apply Z.ltb_ge in Hneg. split; assumption.
Qed.

Lemma activeStep_keeps n ps existing b d :
  keeps n ps existing (fst d) -> keeps n ps existing (fst (activeStep b d)).
Proof. unfold activeStep. intros Hk. destruct (isActive b); exact Hk. Qed.

Lemma updatedProduct_keeps n ps existing b saved :
  updatedProduct n ps existing b = inr saved -> keeps n ps existing saved.
Proof.
  unfold updatedProduct. intros Hrun.
  destruct (nameStep n ps b _) as [|d1] eqn:H1; [discriminate|].
  apply (nameStep_keeps n ps existing) in H1; [|apply keeps_refl].
  destruct (descriptionStep b d1) as [|d2] eqn:H2; [discriminate|].
  apply (descriptionStep_keeps n ps existing) in H2; [|exact H1].
  destruct (priceStep b d2) as [|d3] eqn:H3; [discriminate|].
  apply (priceStep_keeps n ps existing) in H3; [|exact H2].
  destruct (categoryStep b d3) as [|d4] eqn:H4; [discriminate|].
  apply (categoryStep_keeps n ps existing) in H4; [|exact H3].
  destruct (stockStep b (imageStep b d4)) as [|d6] eqn:H6; [discriminate|].
  apply (stockStep_keeps n ps existing) in H6; [|apply imageStep_keeps; exact H4].
  destruct (negb _); [discriminate|]. injection Hrun as <-.
  apply activeStep_keeps. exact H6.
Qed.

Lemma pm_findIndex_lookup n ps i :
  findIndex n ps = Some i -> exists p, ps !! i = Some p /\ Product.id p = n.
Proof.
  revert i. induction ps as [|p r IH]; intros i; simpl; [discriminate|].
  destruct (Z.eqb_spec (Product.id p) n) as [Heq|Hne].
  - intros [= <-]. exists p. auto.
  - destruct (findIndex n r) as [j|]; simpl; [|discriminate].
    intros [= <-]. simpl. apply IH. reflexivity.
Qed.

Lemma splice_delete {A} i (l : list A) : splice i l = delete i l.
Proof. unfold splice. symmetry. apply delete_take_drop. Qed.

Lemma NoDup_insert_fresh {A} (l : list A) i x :
  NoDup l -> (forall j, j <> i -> l !! j <> Some x) -> NoDup (<[i := x]> l).
Proof.
  intros Hnd Hfresh. apply NoDup_alt. intros j k y Hj Hk.
  destruct (decide (j = k)) as [|Hjk]; [assumption|exfalso].
  destruct (decide (i < length l)%nat) as [Hi|Hi].
  2:{ rewrite list_insert_ge in Hj, Hk by lia.
      apply Hjk. eapply NoDup_lookup; eassumption. }
  destruct (decide (j = i)) as [->|Hji].
  - rewrite list_lookup_insert_eq in Hj by exact Hi. injection Hj as <-.
    rewrite list_lookup_insert_ne in Hk by congruence.
    apply (Hfresh k); [congruence|exact Hk].
  - rewrite list_lookup_insert_ne in Hj by congruence.
    destruct (decide (k = i)) as [->|Hki].
    + rewrite list_lookup_insert_eq in Hk by exact Hi. injection Hk as <-.
      apply (Hfresh j); [exact Hji|exact Hj].
    + rewrite list_lookup_insert_ne in Hk by congruence.
      apply Hjk. eapply NoDup_lookup; eassumption.
Qed.

End CatalogueUpdates.

(** X14: what products-manage.js can do to the catalogue. It never touches
    users or orders; a 400, 404 or 409 leaves the database as it was; a
    stock or a price that is not negative stays so; ids that are unique
    stay unique; and when ids are unique, names that are unique up to
    letter case stay so. *)
Theorem product_update_validates method payload path body db :
  let out := ProductsManage.manageProduct method payload path body db in
  users (snd out) = users db
  /\ orders (snd out) = orders db
  /\ (In (statusCode (fst out)) [400; 404; 409] -> snd out = db)
  /\ (Forall stocked (products db) -> Forall stocked (products (snd out)))
  /\ (NoDup (map Product.id (products db)) ->
      NoDup (map Product.id (products (snd out)))
      /\ (namesUnique (products db) -> namesUnique (products (snd out)))).
Proof.
  cbv zeta. unfold ProductsManage.manageProduct.
  destruct (if nonempty _ then _ else _) as [numProductId|]; [|simpl; tauto].
  destruct (ProductsManage.findIndex numProductId (products db)) as [i|] eqn:Hfind.
  2:{ destruct (getField "id" payload); simpl; tauto. }
  destruct (pm_findIndex_lookup _ _ _ Hfind) as (existing & Hi & Hid).
  rewrite Hi.
  assert (Hdel : forall r : Response,
             let out := (r, mkDB (users db) (ProductsManage.splice i (products db))
                              (orders db)) in
             (Forall stocked (products db) -> Forall stocked (products (snd out)))
             /\ (NoDup (map Product.id (products db)) ->
                 NoDup (map Product.id (products (snd out)))
                 /\ (namesUnique (products db) -> namesUnique (products (snd out))))).
  { intros r. simpl. rewrite splice_delete. split.
    - apply Forall_delete.
    - intros Hnd. unfold namesUnique. rewrite !list_fmap_delete.
      split; [|intros Hnames]; (eapply sublist_NoDup; [|apply sublist_delete]); assumption. }
  destruct (String.eqb method "DELETE").
  { destruct (getField "id" payload); simpl.
    - split; [reflexivity|]. split; [reflexivity|]. split.
      { intros [H|[H|[H|[]]]]; discriminate. }
      apply (Hdel (createResponse 200 "Product deleted successfully")).
    - split; [reflexivity|]. split; [reflexivity|]. split.
      { intros [H|[H|[H|[]]]]; discriminate. }
      apply (Hdel ProductsManage.serverError). }
  destruct body as [b|]; [|simpl; tauto].
  destruct (ProductsManage.updatedProduct numProductId (products db) existing b)
    as [err|saved] eqn:Hupd; [simpl; tauto|].
  apply updatedProduct_keeps in Hupd as (Hsid & Hst & Hname).
  assert (Hput : forall r : Response,
             let out := (r, mkDB (users db) (<[i := saved]> (products db)) (orders db)) in
             (Forall stocked (products db) -> Forall stocked (products (snd out)))
             /\ (NoDup (map Product.id (products db)) ->
                 NoDup (map Product.id (products (snd out)))
                 /\ (namesUnique (products db) -> namesUnique (products (snd out))))).
  { intros r. simpl. split.
    - intros Hall. apply Forall_insert; [exact Hall|].
      apply Hst. rewrite Forall_lookup in Hall. apply (Hall i existing Hi).
    - intros Hnd.
      assert (Hids : map Product.id (<[i := saved]> (products db))
                     = map Product.id (products db)).
      { change (map Product.id) with (fmap (M:=list) Product.id).
        rewrite list_fmap_insert, Hsid. apply list_insert_id.
        rewrite list_lookup_fmap, Hi. reflexivity. }
      rewrite Hids. split; [exact Hnd|].
      unfold namesUnique. intros Hnames.
      change (map (fun p => toLowerCase (Product.name p)))
        with (fmap (M:=list) (fun p => toLowerCase (Product.name p))).
      rewrite list_fmap_insert.
      destruct Hname as [Hsame|Hfresh].
      + rewrite Hsame. rewrite list_insert_id; [exact Hnames|].
        rewrite list_lookup_fmap, Hi. reflexivity.
      + apply NoDup_insert_fresh; [exact Hnames|].
        intros j Hji Hj. rewrite list_lookup_fmap in Hj.
        destruct (products db !! j) as [q|] eqn:Hq; [|discriminate].
        simpl in Hj. injection Hj as Hj.
        rewrite Forall_lookup in Hfresh. apply (Hfresh j q Hq); [|exact Hj].
        intros Hqid. apply Hji.
        eapply NoDup_lookup; [exact Hnd| |].
        * rewrite list_lookup_fmap, Hq. simpl. reflexivity.
        * rewrite list_lookup_fmap, Hi. simpl. congruence. }
  destruct (getField "id" payload); simpl.
  - split; [reflexivity|]. split; [reflexivity|]. split.
    { intros [H|[H|[H|[]]]]; discriminate. }
    apply (Hput (createResponse 200 "Product updated successfully")).
  - split; [reflexivity|]. split; [reflexivity|]. split.
    { intros [H|[H|[H|[]]]]; discriminate. }
    apply (Hput ProductsManage.serverError).
Qed.

(** ** Sorting *)

Section Sorting.

Context {A : Type} (cmp : A -> A -> Z).

Lemma insertBy_Permutation x l : Permutation (JsArray.insertBy cmp x l) (x :: l).
Proof.
  induction l as [|y r IH]; simpl; [reflexivity|].
  destruct (cmp x y <=? 0); [reflexivity|].
  rewrite IH. apply perm_swap.
Qed.

Lemma sort_Permutation l : Permutation (JsArray.sort cmp l) l.
Proof.
  unfold JsArray.sort. induction l as [|x r IH]; simpl; [reflexivity|].
  rewrite insertBy_Permutation, IH. reflexivity.
Qed.

Lemma sort_length l : length (JsArray.sort cmp l) = length l.
Proof. apply Permutation_length, sort_Permutation. Qed.

(** The relation that the comparator stands for: [x] may come before [y]. *)
Let before (x y : A) : Prop := (cmp x y <=? 0) = true.

Hypothesis before_total : forall x y, ~ before x y -> before y x.
Hypothesis before_trans : forall x y z, before x y -> before y z -> before x z.

Lemma insertBy_sorted x l :
  StronglySorted before l -> StronglySorted before (JsArray.insertBy cmp x l).
Proof.
  induction 1 as [|y r Hr IH Hy]; simpl; [repeat constructor|].
  destruct (cmp x y <=? 0) eqn:Hxy.
  - constructor; [constructor; assumption|].
    constructor; [exact Hxy|].
    eapply Forall_impl; [exact Hy|]. intros z Hz. eapply before_trans; eassumption.
  - constructor; [exact IH|].
    assert (Hyx : before y x).
    { apply before_total. unfold before. rewrite Hxy. discriminate. }
    rewrite (Forall_forall (before y)).
    intros z Hz. apply list_elem_of_In in Hz.
    apply (Permutation_in _ (insertBy_Permutation x r)) in Hz.
    destruct Hz as [<-|Hz]; [exact Hyx|].
    rewrite Forall_forall in Hy. apply Hy. apply list_elem_of_In. exact Hz.
Qed.

Lemma sort_sorted l : StronglySorted before (JsArray.sort cmp l).
Proof.
  unfold JsArray.sort. induction l as [|x r IH]; simpl; [constructor|].
  apply insertBy_sorted. exact IH.
Qed.

(** Stability: the elements of a class that the comparator cannot tell
    apart keep their order. *)
Lemma insertBy_filter (P : A -> bool) x l :
  (forall y, P x = true -> P y = true -> (cmp x y <=? 0) = true) ->
  List.filter P (JsArray.insertBy cmp x l) = List.filter P (x :: l).
Proof.
  intros Hclass. induction l as [|y r IH]; [reflexivity|].
  cbn [JsArray.insertBy]. destruct (cmp x y <=? 0) eqn:Hxy; [reflexivity|].
  cbn [List.filter] in *. rewrite IH.
  destruct (P x) eqn:Hx; [|reflexivity].
  destruct (P y) eqn:Hy; [|reflexivity].
  rewrite (Hclass y eq_refl Hy) in Hxy. discriminate.
Qed.

Lemma sort_filter (P : A -> bool) l :
  (forall x y, P x = true -> P y = true -> (cmp x y <=? 0) = true) ->
  List.filter P (JsArray.sort cmp l) = List.filter P l.
Proof.
  intros Hclass. unfold JsArray.sort. induction l as [|x r IH]; [reflexivity|].
  cbn [foldr]. rewrite insertBy_filter by (apply Hclass).
  cbn [List.filter]. rewrite IH. reflexivity.
Qed.

End Sorting.

(** ** Order of strings *)

Section StringOrder.

Lemma ascii_compare_trans a b c :
  Ascii.compare a b = Lt -> Ascii.compare b c = Lt -> Ascii.compare a c = Lt.
Proof.
  unfold Ascii.compare. rewrite !N.compare_lt_iff. lia.
Qed.

Lemma string_compare_refl s : String.compare s s = Eq.
Proof.
  induction s as [|c r IH]; simpl; [reflexivity|].
  unfold Ascii.compare. rewrite N.compare_refl. exact IH.
Qed.

Lemma string_compare_lt_trans a : forall b c,
  String.compare a b = Lt -> String.compare b c = Lt -> String.compare a c = Lt.
Proof.
  induction a as [|x a IH]; intros [|y b] [|z c]; simpl; try discriminate; try reflexivity.
  destruct (Ascii.compare x y) eqn:Hxy; try discriminate.
  - apply Ascii.compare_eq_iff in Hxy. subst y.
    destruct (Ascii.compare x z) eqn:Hxz; try discriminate; auto.
    intros Hab Hbc. eapply IH; eassumption.
  - intros _. destruct (Ascii.compare y z) eqn:Hyz; try discriminate.
    + apply Ascii.compare_eq_iff in Hyz. subst z. rewrite Hxy. reflexivity.
    + rewrite (ascii_compare_trans x y z Hxy Hyz). reflexivity.
Qed.

Lemma string_ltb_asym a b : String.ltb a b = true -> String.ltb b a = false.
Proof.
  unfold String.ltb. rewrite (String.compare_antisym a b).
  destruct (String.compare b a); simpl; congruence.
Qed.

(** If [c] is below [a], it is below [b] or [b] is below [a]. *)
Lemma string_ltb_cotrans a b c :
  String.ltb b a = false -> String.ltb c b = false -> String.ltb c a = false.
Proof.
  unfold String.ltb. intros Hba Hcb.
  destruct (String.compare c a) eqn:Hca; try reflexivity. exfalso.
  destruct (String.compare b a) eqn:Hba'; try discriminate.
  - apply String.compare_eq_iff in Hba'. subst b. rewrite Hca in Hcb. discriminate.
  - destruct (String.compare c b) eqn:Hcb'; try discriminate.
    + apply String.compare_eq_iff in Hcb'. subst c. rewrite Hca in Hba'. discriminate.
    + assert (Hab : String.compare a b = Lt).
      { rewrite String.compare_antisym, Hba'. reflexivity. }
      pose proof (string_compare_lt_trans c a b Hca Hab) as Hcb2. congruence.
Qed.

End StringOrder.

Section KeyOrder.

Import ProductsList.

Variable sanitizedSortBy : string.

Let key := sortKey sanitizedSortBy.

Lemma keyLt_asym a b : keyLt (key a) (key b) = true -> keyLt (key b) (key a) = false.
Proof.
  unfold key, sortKey.
  destruct (String.eqb sanitizedSortBy "price"); simpl.
  { intros H. apply Z.ltb_lt in H. apply Z.ltb_ge. lia. }
  destruct (String.eqb sanitizedSortBy "createdAt"); simpl; [discriminate|].
  destruct (String.eqb sanitizedSortBy "name"); simpl; apply string_ltb_asym.
Qed.

Lemma keyLt_cotrans a b c :
  keyLt (key b) (key a) = false -> keyLt (key c) (key b) = false ->
  keyLt (key c) (key a) = false.
Proof.
  unfold key, sortKey.
  destruct (String.eqb sanitizedSortBy "price"); simpl.
  { intros H1 H2. apply Z.ltb_ge in H1, H2. apply Z.ltb_ge. lia. }
  destruct (String.eqb sanitizedSortBy "createdAt"); simpl; [reflexivity|].
  destruct (String.eqb sanitizedSortBy "name"); simpl; apply string_ltb_cotrans.
Qed.

Lemma compareProducts_before sanitizedSortOrder a b :
  (compareProducts sanitizedSortBy sanitizedSortOrder a b <=? 0) = true
  <-> inOrder sanitizedSortBy sanitizedSortOrder a b.
Proof.
  unfold compareProducts, inOrder. fold key.
  destruct (String.eqb sanitizedSortOrder "desc").
  - destruct (keyLt (key a) (key b)) eqn:Hab; [split; discriminate|].
    destruct (keyLt (key b) (key a)); split; reflexivity.
  - destruct (keyLt (key b) (key a)) eqn:Hba; [split; discriminate|].
    destruct (keyLt (key a) (key b)); split; reflexivity.
Qed.

Lemma inOrder_total sanitizedSortOrder a b :
  ~ inOrder sanitizedSortBy sanitizedSortOrder a b ->
  inOrder sanitizedSortBy sanitizedSortOrder b a.
Proof.
  unfold inOrder. fold key. destruct (String.eqb sanitizedSortOrder "desc"); intros H.
  - apply keyLt_asym. destruct (keyLt (key a) (key b)); congruence.
  - apply keyLt_asym. destruct (keyLt (key b) (key a)); congruence.
Qed.

Lemma inOrder_trans sanitizedSortOrder a b c :
  inOrder sanitizedSortBy sanitizedSortOrder a b ->
  inOrder sanitizedSortBy sanitizedSortOrder b c ->
  inOrder sanitizedSortBy sanitizedSortOrder a c.
Proof.
  unfold inOrder. fold key. destruct (String.eqb sanitizedSortOrder "desc"); intros H1 H2.
  - eapply (keyLt_cotrans c b a); eassumption.
  - eapply (keyLt_cotrans a b c); eassumption.
Qed.

End KeyOrder.

Section Listing.

Import ProductsList.

Lemma StronglySorted_skipn {A} (R : A -> A -> Prop) n l :
  StronglySorted R l -> StronglySorted R (skipn n l).
Proof.
  revert l. induction n as [|n IH]; intros l Hl; [exact Hl|].
  destruct l as [|x r]; [constructor|]. simpl. apply IH.
  inversion Hl; assumption.
Qed.

Lemma StronglySorted_firstn {A} (R : A -> A -> Prop) n l :
  StronglySorted R l -> StronglySorted R (firstn n l).
Proof.
  revert l. induction n as [|n IH]; intros l Hl; [constructor|].
  destruct l as [|x r]; [constructor|]. simpl.
  inversion Hl as [|? ? Hr Hx]; subst. constructor; [apply IH; exact Hr|].
  rewrite Forall_forall in *. intros y Hy. apply Hx.
  exact (subseteq_take n r y Hy).
Qed.

Lemma StronglySorted_impl {A} (R R' : A -> A -> Prop) l :
  (forall a b, R a b -> R' a b) -> StronglySorted R l -> StronglySorted R' l.
Proof.
  intros HR. induction 1 as [|x r Hr IH Hx]; constructor; [exact IH|].
  eapply Forall_impl; [exact Hx|]. intros y. apply HR.
Qed.

Lemma slice_sorted {A} (R : A -> A -> Prop) a b l :
  StronglySorted R l -> StronglySorted R (JsArray.slice a b l).
Proof. intros H. apply StronglySorted_firstn, StronglySorted_skipn, H. Qed.

Lemma slice_In {A} a b (l : list A) x : In x (JsArray.slice a b l) -> In x l.
Proof.
  unfold JsArray.slice. intros H. apply list_elem_of_In in H.
  apply subseteq_take, subseteq_drop in H. apply list_elem_of_In. exact H.
Qed.



Lemma selected_In q db p :
  In p (selected (readCategory q) (readSearch q) (products db))
  <-> In p (products db) /\ passes q p.
Proof.
  unfold selected, passes.
  destruct (nonempty (readCategory q)), (nonempty (readSearch q));
    rewrite ?filter_In; intuition congruence.
Qed.

Lemma listProducts_page q db r page :
  listProducts q db = (r, Some page) ->
  r = createResponse 200 "Products fetched successfully"
  /\ existsb (String.eqb (readSortBy q)) allowedSortFields = true
  /\ page = mkPage (JsArray.slice (numOffset q) (numOffset q + numLimit q) (listing q db))
              (Z.of_nat (length (listing q db))) (numLimit q) (numOffset q)
              (numOffset q + numLimit q <? Z.of_nat (length (listing q db)))
              (JsArray.sort JsArray.compareStrings
                 (JsArray.unique (map Product.category (products db))))
              (readCategory q) (readSearch q) (readSortBy q) (readSortOrder q).
Proof.
  unfold listProducts. fold (readSortBy q) (readSortOrder q) (readCategory q) (readSearch q).
  destruct (existsb (String.eqb (readSortBy q)) allowedSortFields); [|discriminate].
  destruct (existsb (String.eqb (readSortOrder q)) allowedSortOrders); [|discriminate].
  cbn [negb]. intros [= <- <-]. auto.
Qed.






End Listing.

(** X15: products.js, what is listed. The products that a query lists are
    the products of the catalogue that pass its filters, each as often as
    the catalogue has it; they are in the order that the query asks for,
    and the products that the sort key does not tell apart stay in the
    order of the catalogue. *)
Theorem products_listing_order (q : ProductsList.Query) (db : MockDB) :
  let shown := listing q db in
  (forall p, In p shown <-> In p (products db) /\ passes q p)
  /\ Permutation shown
       (ProductsList.selected (readCategory q) (readSearch q) (products db))
  /\ StronglySorted (inOrder (readSortBy q) (readSortOrder q)) shown
  /\ (forall a, List.filter (tied (readSortBy q) a) shown
                = List.filter (tied (readSortBy q) a)
                    (ProductsList.selected (readCategory q) (readSearch q) (products db))).
Proof.
  cbv zeta. unfold listing.
  set (cmp := ProductsList.compareProducts (readSortBy q) (readSortOrder q)).
  set (chosen := ProductsList.selected (readCategory q) (readSearch q) (products db)).
  pose proof (sort_Permutation cmp chosen) as Hperm.
  split; [|split; [exact Hperm|split]].
  - intros p. rewrite <- selected_In. fold chosen. split; intros H.
    + exact (Permutation_in _ Hperm H).
    + exact (Permutation_in _ (Permutation_sym Hperm) H).
  - eapply StronglySorted_impl; [|apply (sort_sorted cmp)].
    + intros a b. apply compareProducts_before.
    + intros a b Hn. apply compareProducts_before. apply inOrder_total.
      intros H. apply Hn. apply compareProducts_before. exact H.
    + intros a b c Hab Hbc. apply compareProducts_before.
      eapply inOrder_trans; apply compareProducts_before; eassumption.
  - intros a. apply sort_filter. intros x y Hx Hy.
    apply compareProducts_before. unfold tied in Hx, Hy.
    apply andb_true_iff in Hx as [Hax Hxa]. apply andb_true_iff in Hy as [Hay Hya].
    apply negb_true_iff in Hax, Hxa, Hay, Hya.
    unfold inOrder. destruct (String.eqb (readSortOrder q) "desc").
    + exact (keyLt_cotrans _ y a x Hay Hxa).
    + exact (keyLt_cotrans _ x a y Hax Hya).
Qed.



(** X17: products.js, the sort fields. The list of the allowed sort fields
    names [createdAt], but the field that a request names is lower-cased
    before it is looked up in that list: a request for [createdAt], in
    any capitalisation, is refused with 400, and every listing that is
    answered is sorted by name, price or category. *)
Theorem products_never_sorted_by_date (q : ProductsList.Query) (db : MockDB) :
  (toLowerCase (default "name" (ProductsList.sortBy q)) = "createdat" ->
   ProductsList.listProducts q db = (ProductsList.bad "Invalid sort field", None))
  /\ (forall r page, ProductsList.listProducts q db = (r, Some page) ->
      In (ProductsList.appliedSortBy page) ["name"; "price"; "category"]).
Proof.
  split.
  - intros Hlow. unfold ProductsList.listProducts. rewrite Hlow. reflexivity.
  - intros r page Hpage. apply listProducts_page in Hpage as (_ & Hfield & ->).
    cbn [ProductsList.appliedSortBy].
    pose proof (sanitized_lowered (default "name" (ProductsList.sortBy q))) as Hlow.
    fold (readSortBy q) in Hlow.
    unfold ProductsList.allowedSortFields in Hfield. cbn [existsb] in Hfield.
    repeat (apply orb_true_iff in Hfield as [Hfield|Hfield]);
      try (apply String.eqb_eq in Hfield; rewrite Hfield; simpl; tauto).
    + apply String.eqb_eq in Hfield. rewrite Hfield in Hlow. discriminate Hlow.
    + discriminate.
Qed.

Section CatalogueIds.

Import ProductsManage.

Lemma pm_findIndex_first n ps : forall i p,
  ps !! i = Some p -> Product.id p = n ->
  (forall j q, (j < i)%nat -> ps !! j = Some q -> Product.id q <> n) ->
  findIndex n ps = Some i.
Proof.
  induction ps as [|x r IH]; intros i p Hi Hid Hbefore; [discriminate|].
  cbn [findIndex]. destruct i as [|i].
  - injection Hi as ->. rewrite (proj2 (Z.eqb_eq _ _) Hid). reflexivity.
  - destruct (Z.eqb_spec (Product.id x) n) as [Heq|_].
    + exfalso. exact (Hbefore O x ltac:(lia) eq_refl Heq).
    + rewrite (IH i p Hi Hid); [reflexivity|].
      intros j q Hj Hq. apply (Hbefore (S j) q); [lia|exact Hq].
Qed.

Lemma pm_findIndex_none n ps :
  (forall j q, ps !! j = Some q -> Product.id q <> n) -> findIndex n ps = None.
Proof.
  induction ps as [|x r IH]; intros Hall; [reflexivity|].
  cbn [findIndex]. destruct (Z.eqb_spec (Product.id x) n) as [Heq|_].
  - exfalso. exact (Hall O x eq_refl Heq).
  - rewrite IH; [reflexivity|]. intros j q Hq. exact (Hall (S j) q Hq).
Qed.

Lemma numbered_findIndex_in ps k :
  catalogueNumbered ps -> 1 <= k <= Z.of_nat (length ps) ->
  findIndex k ps = Some (Z.to_nat (k - 1)).
Proof.
  intros Hnum Hk.
  destruct (lookup_lt_is_Some_2 ps (Z.to_nat (k - 1)) ltac:(lia)) as [p Hp].
  apply (pm_findIndex_first k ps _ p Hp).
  - rewrite (Hnum _ _ Hp). lia.
  - intros j q Hj Hq. rewrite (Hnum _ _ Hq). lia.
Qed.

Lemma numbered_findIndex_out ps k :
  catalogueNumbered ps -> Z.of_nat (length ps) < k -> findIndex k ps = None.
Proof.
  intros Hnum Hk. apply pm_findIndex_none. intros j q Hq.
  rewrite (Hnum _ _ Hq). apply lookup_lt_Some in Hq. lia.
Qed.

Lemma manageProduct_reads_id method payload base k body db :
  manageProduct method payload (productPath base k) body db
  = match findIndex k (products db), getField "id" payload with
    | None, None => (serverError, db)
    | None, Some _ =>
        (createErrorResponse 404 "Product not found" (Some "PRODUCT_NOT_FOUND"), db)
    | Some productIndex, adminId =>
        match products db !! productIndex with
        | None => (serverError, db)
        | Some existingProduct =>
            if String.eqb method "DELETE"
            then
              let db' := mkDB (users db) (splice productIndex (products db)) (orders db) in
              match adminId with
              | None => (serverError, db')
              | Some _ => (createResponse 200 "Product deleted successfully", db')
              end
            else
              match body with
              | None => (bad "Invalid JSON body", db)
              | Some b =>
                  match updatedProduct k (products db) existingProduct b with
                  | inl err => (err, db)
                  | inr saved =>
                      let db' := mkDB (users db)
                                   (<[productIndex := saved]> (products db)) (orders db) in
                      match adminId with
                      | None => (serverError, db')
                      | Some _ => (createResponse 200 "Product updated successfully", db')
                      end
                  end
              end
        end
    end.
Proof.
  unfold manageProduct, productPath.
  rewrite lastSegment_app by apply pretty_slashFree.
  rewrite pretty_nonempty, parseInt_pretty. reflexivity.
Qed.

Lemma createProduct_admin env payload b db r db' :
  ProductsCreate.createProduct env payload b db = (r, db') ->
  statusCode r = 201 -> exists adminId, getField "id" payload = Some adminId.
Proof.
  unfold ProductsCreate.createProduct.
  destruct (_ || _ || _ || _)%bool; [intros [= <- <-]; discriminate|].
  destruct (ProductsCreate.lengthOutside 2 100 _); [intros [= <- <-]; discriminate|].
  destruct (ProductsCreate.lengthOutside 10 500 _); [intros [= <- <-]; discriminate|].
  destruct (ProductsCreate.lengthOutside 2 50 _); [intros [= <- <-]; discriminate|].
  destruct (default 0 (ProductsCreate.price b) <? 0); [intros [= <- <-]; discriminate|].
  destruct (default 0 (ProductsCreate.stock b) <? 0); [intros [= <- <-]; discriminate|].
  destruct (List.find _ (products db));
    destruct (getField "id" payload) as [a|]; intros [= <- <-]; try discriminate.
  intros _. exists a. reflexivity.
Qed.

Lemma numbered_snoc_product ps p :
  catalogueNumbered ps -> Product.id p = Z.of_nat (length ps) + 1 ->
  catalogueNumbered (ps ++ [p]).
Proof.
  intros Hnum Hid i q Hq.
  destruct (decide (i < length ps)%nat) as [Hi|Hi].
  - rewrite lookup_app_l in Hq by exact Hi. apply Hnum. exact Hq.
  - rewrite lookup_app_r in Hq by lia.
    destruct (i - length ps)%nat as [|m] eqn:Hm; [|destruct m; discriminate].
    injection Hq as <-. rewrite Hid. lia.
Qed.

End CatalogueIds.

(** X18: a product that was created can be deleted again. In a catalogue
    whose products are numbered in their order, the id that a creation
    hands out is not yet in use; the DELETE of that id, with the path that
    the client builds, is answered with 200 and gives back the catalogue as
    it was before the creation, and the same DELETE once more finds no
    product. *)
Theorem product_create_delete_round_trip (env : Env) (payload : JsVal)
    (b : ProductsCreate.Body) (db : MockDB) (r : Response) (db' : MockDB)
    (base : string) :
  catalogueNumbered (products db) ->
  ProductsCreate.createProduct env payload b db = (r, db') ->
  statusCode r = 201 ->
  let path := productPath base (Z.of_nat (length (products db)) + 1) in
  catalogueNumbered (products db')
  /\ ProductsManage.manageProduct "DELETE" payload path None db'
     = (createResponse 200 "Product deleted successfully", db)
  /\ ProductsManage.manageProduct "DELETE" payload path None db
     = (createErrorResponse 404 "Product not found" (Some "PRODUCT_NOT_FOUND"), db).
Proof.
  intros Hnum Hrun H201 path. subst path.
  destruct (createProduct_admin _ _ _ _ _ _ Hrun H201) as [adminId Hadmin].
  destruct (createProduct_created _ _ _ _ _ _ Hrun H201) as (p & -> & Hid & _).
  pose proof (numbered_snoc_product _ _ Hnum Hid) as Hnum'.
  split; [exact Hnum'|]. split.
  - rewrite manageProduct_reads_id. cbn [products users orders].
    rewrite (numbered_findIndex_in _ _ Hnum') by (rewrite length_app; simpl; lia).
    replace (Z.to_nat (Z.of_nat (length (products db)) + 1 - 1))
      with (length (products db) + 0)%nat by lia.
    rewrite lookup_app_r, Nat.add_comm, Nat.add_sub by lia.
    cbn [lookup list_lookup String.eqb]. rewrite Hadmin.
    change (String.eqb "DELETE" "DELETE") with true. cbv iota zeta.
    rewrite splice_delete.
    replace (delete (0 + length (products db))%nat (products db ++ [p])%list)
      with (products db).
    + rewrite db_eta. reflexivity.
    + rewrite Nat.add_0_l. symmetry.
      rewrite delete_take_drop, take_app_length, drop_ge, app_nil_r;
        [reflexivity|rewrite length_app; simpl; lia].
  - rewrite manageProduct_reads_id.
    rewrite (numbered_findIndex_out _ _ Hnum) by lia.
    rewrite Hadmin. reflexivity.
Qed.

Lemma seedProducts_numbered : catalogueNumbered seedProducts.
Proof.
  intros i p Hp. do 5 (destruct i as [|i]; [injection Hp as <-; reflexivity|]).
  discriminate.
Qed.

Lemma product_create_delete_round_trip_witness :
  ProductsCreate.createProduct sampleEnv adminPayload yogaMatBody seedDB
  = (createResponse 201 "Product created successfully", shopDB)
  /\ ProductsManage.manageProduct "DELETE" adminPayload
       (productPath "/.netlify/functions/products-manage" 6) None shopDB
     = (createResponse 200 "Product deleted successfully", seedDB).
Proof.
  split; [reflexivity|].
  exact (proj1 (proj2 (product_create_delete_round_trip sampleEnv adminPayload yogaMatBody
                         seedDB _ shopDB "/.netlify/functions/products-manage"
                         seedProducts_numbered eq_refl eq_refl))).
Defined.

(** X19: ids are handed out by counting. A new product gets the number of
    products plus one as its id. Once a product other than the last one
    has been deleted from a catalogue numbered in its order, the next
    creation hands out the id of the last product again: two products
    share an id. *)
Theorem product_id_reused_after_delete (env : Env) (payload : JsVal)
    (b : ProductsCreate.Body) (db db1 db2 : MockDB) (r1 r2 : Response)
    (base : string) (k : Z) :
  catalogueNumbered (products db) ->
  1 <= k < Z.of_nat (length (products db)) ->
  ProductsManage.manageProduct "DELETE" payload (productPath base k) None db = (r1, db1) ->
  statusCode r1 = 200 ->
  ProductsCreate.createProduct env payload b db1 = (r2, db2) ->
  statusCode r2 = 201 ->
  idShared (products db2).
Proof.
  intros Hnum Hk Hdel H200 Hnew H201.
  rewrite manageProduct_reads_id in Hdel.
  rewrite (numbered_findIndex_in _ _ Hnum) in Hdel by lia.
  destruct (lookup_lt_is_Some_2 (products db) (Z.to_nat (k - 1)) ltac:(lia)) as [gone Hgone].
  rewrite Hgone in Hdel. change (String.eqb "DELETE" "DELETE") with true in Hdel.
  cbv iota zeta in Hdel. rewrite splice_delete in Hdel.
  destruct (getField "id" payload); injection Hdel as <- <-; [|discriminate].
  destruct (createProduct_created _ _ _ _ _ _ Hnew H201) as (p & -> & Hid & _).
  cbn [products] in *.
  set (ps := products db) in *.
  assert (Hlen : length (delete (Z.to_nat (k - 1)) ps) = (length ps - 1)%nat).
  { rewrite length_delete; [reflexivity|]. rewrite Hgone. eauto. }
  destruct (lookup_lt_is_Some_2 ps (length ps - 1) ltac:(lia)) as [last Hlast].
  exists (length ps - 2)%nat, (length ps - 1)%nat, last, p.
  split; [lia|]. split; [|split].
  - rewrite lookup_app_l by lia.
    rewrite list_lookup_delete_ge by lia.
    replace (S (length ps - 2)) with (length ps - 1)%nat by lia. exact Hlast.
  - rewrite lookup_app_r by lia. rewrite Hlen, Nat.sub_diag. reflexivity.
  - rewrite (Hnum _ _ Hlast), Hid, Hlen. lia.
Qed.

Lemma product_id_reused_after_delete_witness :
  exists db1 db2,
    ProductsManage.manageProduct "DELETE" adminPayload
      (productPath "/.netlify/functions/products-manage" 2) None seedDB
    = (createResponse 200 "Product deleted successfully", db1)
    /\ ProductsCreate.createProduct sampleEnv adminPayload yogaMatBody db1
       = (createResponse 201 "Product created successfully", db2)
    /\ map Product.id (products db2) = [1; 3; 4; 5; 5]
    /\ idShared (products db2).
Proof.
  eexists. eexists. split; [reflexivity|]. split; [reflexivity|]. split; [reflexivity|].
  eapply (product_id_reused_after_delete sampleEnv adminPayload yogaMatBody seedDB)
    with (k := 2) (base := "/.netlify/functions/products-manage").
  - exact seedProducts_numbered.
  - simpl. lia.
  - reflexivity.
  - reflexivity.
  - reflexivity.
  - reflexivity.
Defined.

Section LoginSound.

Variable bcrypt_compare : string -> string -> bool.


End LoginSound.


Section RegisterThenLogin.

Variable bcrypt_hash : string -> string.
Variable bcrypt_compare : string -> string -> bool.

(** What a 201 of [register] has checked and stored. *)
Lemma register_created env b db r db' :
  Register.register bcrypt_hash env b db = (r, db') ->
  statusCode r = 201 ->
  exists username email password fullName,
    b = Register.mkBody (Some username) (Some email) (Some password) (Some fullName)
    /\ nonempty email = true /\ nonempty password = true
    /\ Validate.validateEmail email = true
    /\ Validate.validatePassword password = None
    /\ List.find (Register.sameUser (sanitizeInput (toLowerCase email))
                    (sanitizeInput (toLowerCase username))) (users db) = None
    /\ db' = mkDB (users db
                   ++ [User.mk (Z.of_nat (length (users db)) + 1)
                         (sanitizeInput (toLowerCase username))
                         (sanitizeInput (toLowerCase email)) (bcrypt_hash password)
                         (sanitizeInput fullName) "customer" (now env) None (Some true)])
               (products db) (orders db).
Proof.
  unfold Register.register. destruct b as [[u|] [e|] [p|] [f|]];
    cbn [Register.username Register.email Register.password Register.fullName
         Register.strTruthy negb orb default from_option id];
    rewrite ?orb_true_r; try (intros [= <- <-]; discriminate).
  destruct (nonempty u) eqn:Hu; [|intros [= <- <-]; discriminate].
  destruct (nonempty e) eqn:He; [|intros [= <- <-]; discriminate].
  destruct (nonempty p) eqn:Hp; [|intros [= <- <-]; discriminate].
  destruct (nonempty f) eqn:Hf; [|intros [= <- <-]; discriminate].
  cbn [negb orb].
  destruct (Validate.validateEmail e) eqn:Hvalid; [|intros [= <- <-]; discriminate].
  cbn [negb].
  destruct (Validate.validatePassword p) eqn:Hpw; [intros [= <- <-]; discriminate|].
  destruct (Register.lengthOutside 3 30 _); [intros [= <- <-]; discriminate|].
  destruct (Register.lengthOutside 2 100 _); [intros [= <- <-]; discriminate|].
  destruct (List.find _ (users db)) eqn:Hfind; intros [= <- <-]; [discriminate|].
  intros _. exists u, e, p, f. repeat (split; [first [reflexivity|assumption]|]).
  reflexivity.
Qed.

Lemma find_emailIs_none sanitizedEmail sanitizedUsername us :
  List.find (Register.sameUser sanitizedEmail sanitizedUsername) us = None ->
  List.find (emailIs sanitizedEmail) us = None.
Proof.
  induction us as [|u r IH]; [reflexivity|]. cbn [List.find].
  unfold Register.sameUser at 1, emailIs at 1.
  destruct (String.eqb (toLowerCase (User.email u)) sanitizedEmail); [discriminate|].
  destruct (String.eqb (toLowerCase (User.username u)) sanitizedUsername); [discriminate|].
  exact IH.
Qed.

Lemma find_app_none {A} (f : A -> bool) l x :
  List.find f l = None -> List.find f (l ++ [x]) = (if f x then Some x else None).
Proof.
  induction l as [|y r IH]; [reflexivity|]. cbn [List.find app].
  destruct (f y); [discriminate|exact IH].
Qed.

Lemma touchFirst_app_none sanitizedEmail t us x :
  List.find (emailIs sanitizedEmail) us = None ->
  Login.touchFirst sanitizedEmail t (us ++ [x])
  = (us ++ Login.touchFirst sanitizedEmail t [x])%list.
Proof.
  unfold emailIs. induction us as [|u r IH]; [reflexivity|].
  cbn [List.find Login.touchFirst app].
  destruct (String.eqb (toLowerCase (User.email u)) sanitizedEmail); [discriminate|].
  intros H. rewrite (IH H). reflexivity.
Qed.

End RegisterThenLogin.

(** X21: register.js and login.js together. After a registration that was
    answered 201, the login with the same email and password is answered
    200, provided bcrypt accepts a password against its own hash; it is
    the new user that is logged in, and only the [lastLogin] of that user
    changes. A password that bcrypt rejects against that hash is answered
    401 and changes nothing. *)
Theorem register_then_login (bcrypt_hash : string -> string)
    (bcrypt_compare : string -> string -> bool) (env env' : Env)
    (b : Register.Body) (db db' : MockDB) (r : Response) :
  Register.register bcrypt_hash env b db = (r, db') ->
  statusCode r = 201 ->
  exists newUser password,
    Register.password b = Some password
    /\ users db' = (users db ++ [newUser])%list
    /\ User.password newUser = bcrypt_hash password
    /\ (bcrypt_compare password (bcrypt_hash password) = true ->
        Login.login bcrypt_compare env' (Login.mkBody (Register.email b) (Some password)) db'
        = (createResponse 200 "Login successful",
           mkDB (users db ++ [Login.withLastLogin newUser (now env')])
             (products db) (orders db)))
    /\ (forall other, nonempty other = true ->
        bcrypt_compare other (bcrypt_hash password) = false ->
        Login.login bcrypt_compare env' (Login.mkBody (Register.email b) (Some other)) db'
        = (invalidCredentials, db')).
Proof.
  intros Hrun H201.
  destruct (register_created bcrypt_hash _ _ _ _ _ Hrun H201)
    as (username & email & password & fullName & -> & He & Hp & Hvalid & _ & Hfree & ->).
  eexists. exists password. split; [reflexivity|]. split; [reflexivity|].
  split; [reflexivity|].
  apply find_emailIs_none in Hfree.
  pose proof (sanitized_lowered email) as Hlow. unfold lowered in Hlow.
  assert (Hfound : forall x,
            User.email x = sanitizeInput (toLowerCase email) ->
            List.find (fun u => String.eqb (toLowerCase (User.email u))
                                  (sanitizeInput (toLowerCase email)))
              (users db ++ [x]) = Some x).
  { intros x Hx.
    change (fun u : User.t => String.eqb (toLowerCase (User.email u))
                                (sanitizeInput (toLowerCase email)))
      with (emailIs (sanitizeInput (toLowerCase email))).
    rewrite (find_app_none _ _ _ Hfree). unfold emailIs.
    rewrite Hx, Hlow, String.eqb_refl. reflexivity. }
  split.
  - intros Hcmp. unfold Login.login.
    cbn [Login.email Login.password Register.email Login.strTruthy default from_option id
         users products orders].
    rewrite He, Hp, Hvalid. cbn [negb orb].
    rewrite Hfound by reflexivity. cbn [User.isActive User.password].
    rewrite Hcmp. cbn [negb]. f_equal. f_equal.
    rewrite (touchFirst_app_none _ _ _ _ Hfree). cbn [Login.touchFirst User.email].
    rewrite Hlow, String.eqb_refl. reflexivity.
  - intros other Hother Hcmp. unfold Login.login.
    cbn [Login.email Login.password Register.email Login.strTruthy default from_option id
         users products orders].
    rewrite He, Hother, Hvalid. cbn [negb orb].
    rewrite Hfound by reflexivity. cbn [User.isActive User.password].
    rewrite Hcmp. reflexivity.
Qed.

Lemma register_then_login_witness :
  exists db' db'',
    Register.register sampleHash sampleEnv
      (Register.mkBody (Some "alice") (Some "Alice@X.com") (Some "Passw0rd!") (Some "Alice A"))
      seedDB = (createResponse 201 "Registration successful", db')
    /\ Login.login sampleCompare sampleEnv
         (Login.mkBody (Some "Alice@X.com") (Some "Passw0rd!")) db'
       = (createResponse 200 "Login successful", db'')
    /\ map User.lastLogin (users db'') = [None; None; Some (now sampleEnv)].
Proof.
  destruct (register_then_login sampleHash sampleCompare sampleEnv sampleEnv
              (Register.mkBody (Some "alice") (Some "Alice@X.com") (Some "Passw0rd!")
                 (Some "Alice A")) seedDB _ _ eq_refl eq_refl)
    as (newUser & password & Hpw & Husers & _ & Hlogin & _).
  injection Hpw as <-. cbn [users] in Husers.
  apply app_inj_tail in Husers as [_ <-].
  eexists. eexists. split; [reflexivity|]. split.
  - apply Hlogin. reflexivity.
  - reflexivity.
Defined.

Section Throttle.

Variable bcrypt_hash : string -> string.
Variable ip : string.

Let key := Utils.rateKey ip "register".
Let windowMs := 60 * 60 * 1000.

Lemma register_grows env b db :
  (length (users (snd (Register.register bcrypt_hash env b db)))
   <= length (users db) + 1)%nat
  /\ (statusCode (fst (Register.register bcrypt_hash env b db)) <> 201 ->
      snd (Register.register bcrypt_hash env b db) = db).
Proof.
  destruct (Register.register bcrypt_hash env b db) as [r db'] eqn:Hrun. cbn [fst snd].
  destruct (Z.eq_dec (statusCode r) 201) as [H201|Hnot].
  - destruct (register_created bcrypt_hash _ _ _ _ _ Hrun H201)
      as (? & ? & ? & ? & _ & _ & _ & _ & _ & _ & ->).
    cbn [users]. rewrite length_app. simpl. split; [lia|]. intros H. contradiction.
  - assert (Hsame : db' = db).
    { revert Hrun. unfold Register.register.
      repeat match goal with
             | |- context [if ?c then _ else _] => destruct c
             | |- context [match Validate.validatePassword ?p with _ => _ end] =>
                 destruct (Validate.validatePassword p)
             | |- context [match List.find ?f ?l with _ => _ end] => destruct (List.find f l)
             end; intros [= <- <-]; try reflexivity.
      exfalso. apply Hnot. reflexivity. }
    subst db'. split; [lia|]. intros _. reflexivity.
Qed.

(** One request of the caller [ip]: either the limiter is not asked and
    nothing changes, or it refuses, or it allows and at most one user is
    added. *)
Lemma register_handler_step env event st :
  clientIP event = ip ->
  Utils.isDevelopment (devEnv env) ip = false ->
  let r := fst (Register.handler bcrypt_hash env event st) in
  let st' := snd (Register.handler bcrypt_hash env event st) in
  (st' = st /\ statusCode r <> 201)
  \/ (mockDB st' = mockDB st /\ statusCode r <> 201
      /\ rateLimitStore st'
         = snd (Utils.slidingWindow (now env) key 3 windowMs (rateLimitStore st))
      /\ fst (Utils.slidingWindow (now env) key 3 windowMs (rateLimitStore st)) = false)
  \/ ((length (users (mockDB st')) <= length (users (mockDB st)) + 1)%nat
      /\ rateLimitStore st'
         = snd (Utils.slidingWindow (now env) key 3 windowMs (rateLimitStore st))
      /\ fst (Utils.slidingWindow (now env) key 3 windowMs (rateLimitStore st)) = true).
Proof.
  intros Hip Hdev. cbv zeta. unfold Register.handler, handleCORS.
  destruct (String.eqb (httpMethod event) "OPTIONS").
  { left. split; [reflexivity|discriminate]. }
  destruct (String.eqb (httpMethod event) "POST"); cbn [negb].
  2:{ left. split; [reflexivity|discriminate]. }
  unfold Utils.checkRateLimit. rewrite Hip, Hdev. fold key. fold windowMs.
  destruct (Utils.slidingWindow (now env) key 3 windowMs (rateLimitStore st))
    as [[|] store]; cbn [fst snd].
  - right. right. destruct (body event) as [b|]; cbn [fst snd mockDB rateLimitStore].
    + pose proof (register_grows env b (mockDB st)) as [Hgrow _].
      destruct (Register.register bcrypt_hash env b (mockDB st)) as [r db'].
      cbn [fst snd mockDB rateLimitStore] in *. auto.
    + split; [lia|]. auto.
  - right. left. cbn [mockDB rateLimitStore]. repeat split; discriminate.
Qed.

Lemma registerAll_spaced (reqs : list (Env * Event Register.Body)) :
  forall (st : Server) (granted : list Z) (t0 : Z),
    Forall (fun re => clientIP (snd re) = ip
                      /\ Utils.isDevelopment (devEnv (fst re)) ip = false) reqs ->
    (forall t, t0 <= t ->
       live key windowMs t (rateLimitStore st)
       = List.filter (fun x => t - windowMs <? x) granted) ->
    Forall (fun re => t0 <= now (fst re)) reqs ->
    StronglySorted Z.le (map (fun re => now (fst re)) reqs) ->
    spaced 3 windowMs granted ->
    exists later,
      spaced 3 windowMs (granted ++ later)
      /\ Forall (fun g => In g (map (fun re => now (fst re)) reqs)) later
      /\ (length (users (mockDB (snd (registerAll bcrypt_hash reqs st))))
          <= length (users (mockDB st)) + length later)%nat
      /\ (length (registered (fst (registerAll bcrypt_hash reqs st))) <= length later)%nat.
Proof.
  induction reqs as [|[env event] rest IH]; intros st granted t0 Hcaller Hinv Hfrom Hsorted Hs.
  - exists []. rewrite app_nil_r. simpl. repeat split; [exact Hs|constructor|lia|lia].
  - apply Forall_cons in Hcaller as [[Hip Hdev] Hcaller'].
    apply Forall_cons in Hfrom as [Ht0 Hfrom'].
    cbn [map] in Hsorted. apply StronglySorted_inv in Hsorted as [Hsorted' Hle].
    cbn [fst snd] in *.
    assert (Hfrom_t : Forall (fun re : Env * Event Register.Body => now env <= now (fst re)) rest).
    { rewrite Forall_forall. intros re Hre. rewrite Forall_forall in Hle.
      apply Hle. apply list_elem_of_In.
      apply (in_map (fun re0 : Env * Event Register.Body => now (fst re0))).
      apply list_elem_of_In. exact Hre. }
    cbn [registerAll].
    pose proof (register_handler_step env event st Hip Hdev) as Hstep. cbv zeta in Hstep.
    destruct (Register.handler bcrypt_hash env event st) as [r st1]. cbn [fst snd] in Hstep.
    destruct Hstep as [[-> Hr]|[(Hdb & Hr & Hstore & Hno)|(Hgrow & Hstore & Hyes)]].
    + destruct (IH st granted t0 Hcaller' Hinv Hfrom' Hsorted' Hs)
        as (later & Hs' & Hin & Hu & Hreg).
      destruct (registerAll bcrypt_hash rest st) as [rs st2]. cbn [fst snd] in *.
      exists later. split; [exact Hs'|]. split.
      { eapply Forall_impl; [exact Hin|]. intros g Hg. right. exact Hg. }
      split; [exact Hu|]. unfold registered in *. cbn [List.filter].
      destruct (Z.eqb_spec (statusCode r) 201); [contradiction|exact Hreg].
    + destruct (Z_lt_le_dec (Z.of_nat (length (live key windowMs (now env) (rateLimitStore st)))) 3)
        as [Hroom|Hfull].
      { rewrite (slidingWindow_allows key 3 windowMs (now env) _ Hroom) in Hno. discriminate. }
      destruct (slidingWindow_refuses key 3 windowMs (now env) _ Hfull)
        as (store1 & Hrefuse & Hrec & _ & _).
      rewrite Hrefuse in Hstore. cbn [snd] in Hstore.
      destruct (IH st1 granted (now env) Hcaller') as (later & Hs' & Hin & Hu & Hreg);
        [|exact Hfrom_t|exact Hsorted'|exact Hs|].
      { intros t Ht. unfold live. rewrite Hstore, Hrec. apply (Hinv t). lia. }
      destruct (registerAll bcrypt_hash rest st1) as [rs st2]. cbn [fst snd] in *.
      exists later. split; [exact Hs'|]. split.
      { eapply Forall_impl; [exact Hin|]. intros g Hg. right. exact Hg. }
      split; [rewrite <- Hdb; exact Hu|]. unfold registered in *. cbn [List.filter].
      destruct (Z.eqb_spec (statusCode r) 201); [contradiction|exact Hreg].
    + destruct (Z_lt_le_dec (Z.of_nat (length (live key windowMs (now env) (rateLimitStore st)))) 3)
        as [Hroom|Hfull].
      2:{ destruct (slidingWindow_refuses key 3 windowMs (now env) _ Hfull)
            as (store1 & Hrefuse & _). rewrite Hrefuse in Hyes. discriminate. }
      rewrite (slidingWindow_allows key 3 windowMs (now env) _ Hroom) in Hstore.
      cbn [snd] in Hstore.
      destruct (IH st1 (granted ++ [now env])%list (now env) Hcaller')
        as (later & Hs' & Hin & Hu & Hreg); [|exact Hfrom_t|exact Hsorted'| |].
      { intros t Ht. unfold live at 1, recorded. rewrite Hstore, lookup_insert_eq. simpl.
        rewrite (Hinv (now env) Ht0), !List.filter_app. f_equal.
        apply filter_filter_impl. intros x Hx.
        apply Z.ltb_lt in Hx. apply Z.ltb_lt. lia. }
      { apply spaced_snoc; [exact Hs|]. rewrite <- (Hinv (now env) Ht0). exact Hroom. }
      destruct (registerAll bcrypt_hash rest st1) as [rs st2]. cbn [fst snd] in *.
      exists (now env :: later). split.
      { replace (granted ++ now env :: later)%list
          with ((granted ++ [now env]) ++ later)%list
          by (rewrite <- app_assoc; reflexivity). exact Hs'. }
      split.
      { constructor; [left; reflexivity|].
        eapply Forall_impl; [exact Hin|]. intros g Hg. right. exact Hg. }
      cbn [length]. split; [lia|]. unfold registered in *. cbn [List.filter].
      destruct (statusCode r =? 201); cbn [length]; lia.
Qed.

End Throttle.

(** X22: register.js behind its limiter. Of the requests that one caller,
    whom the bypass does not exempt, sends within one hour, starting with
    nothing recorded for the caller, at most three are answered 201, and
    at most three users are added, whatever the requests are. *)
Theorem registrations_throttled (bcrypt_hash : string -> string) (ip : string)
    (reqs : list (Env * Event Register.Body)) (st : Server) (t0 : Z) :
  Forall (fun re => clientIP (snd re) = ip
                    /\ Utils.isDevelopment (devEnv (fst re)) ip = false) reqs ->
  recorded (Utils.rateKey ip "register") (rateLimitStore st) = [] ->
  StronglySorted Z.le (map (fun re => now (fst re)) reqs) ->
  Forall (fun re => t0 <= now (fst re) < t0 + 60 * 60 * 1000) reqs ->
  (length (registered (fst (registerAll bcrypt_hash reqs st))) <= 3)%nat
  /\ (length (users (mockDB (snd (registerAll bcrypt_hash reqs st))))
      <= length (users (mockDB st)) + 3)%nat.
Proof.
  intros Hcaller Hfresh Hsorted Hhour.
  destruct (registerAll_spaced bcrypt_hash ip reqs st [] t0 Hcaller)
    as (later & Hs & Hin & Hu & Hreg).
  - intros t _. unfold live. rewrite Hfresh. reflexivity.
  - eapply Forall_impl; [exact Hhour|]. intros re Hre. exact (proj1 Hre).
  - exact Hsorted.
  - intros i t Hi. discriminate.
  - cbn [app] in Hs.
    pose proof (spaced_window 3 (60 * 60 * 1000) later (t0 + 60 * 60 * 1000 - 1)
                  ltac:(lia) Hs) as Hwin.
    assert (Hall : grantedInWindow (60 * 60 * 1000) (t0 + 60 * 60 * 1000 - 1) later = later).
    { unfold grantedInWindow. apply filter_keep_all.
      rewrite Forall_forall in Hin. rewrite Forall_forall in Hhour.
      apply Forall_forall. intros g Hg.
      specialize (Hin g Hg).
      apply in_map_iff in Hin as (re & <- & Hre).
      specialize (Hhour re (proj2 (list_elem_of_In _ _) Hre)).
      apply andb_true_iff. split; [apply Z.ltb_lt|apply Z.leb_le]; lia. }
    rewrite Hall in Hwin. lia.
Qed.

Lemma registrations_throttled_witness :
  let reqs := [registration 1000 "alice" "alice@x.com";
               registration 2000 "alice" "alice@x.com";
               registration 3000 "bob" "bob-at-x.com";
               registration 4000 "carol" "carol@x.com";
               registration 5000 "dave" "dave@x.com"] in
  map statusCode (fst (registerAll sampleHash reqs (emptyServer seedDB)))
  = [201; 409; 400; 429; 429]
  /\ (length (registered (fst (registerAll sampleHash reqs (emptyServer seedDB)))) <= 3)%nat
  /\ (length (users (mockDB (snd (registerAll sampleHash reqs (emptyServer seedDB)))))
      <= length (users seedDB) + 3)%nat.
Proof.
  cbv zeta. split; [vm_compute; reflexivity|].
  apply (registrations_throttled sampleHash "203.0.113.7" _ (emptyServer seedDB) 1000).
  - repeat constructor.
  - reflexivity.
  - repeat constructor; cbn; lia.
  - repeat constructor; cbn; lia.
Defined.




Section ExpressCatalogue.

Import ExpressShop.

Lemma fold_max_ge (l : list Z) : forall a,
  a <= fold_left Z.max l a /\ Forall (fun x => x <= fold_left Z.max l a) l.
Proof.
  induction l as [|x r IH]; intros a; cbn [fold_left]; [split; [lia|constructor]|].
  destruct (IH (Z.max a x)) as [Hacc Hall]. split; [lia|].
  constructor; [lia|exact Hall].
Qed.

Lemma maxProductId_ge ps :
  Forall (fun p => Product.id p <= maxProductId ps) ps.
Proof.
  destruct ps as [|p r]; [constructor|]. unfold maxProductId.
  destruct (fold_max_ge (map Product.id r) (Product.id p)) as [Hp Hr].
  constructor; [exact Hp|].
  rewrite Forall_map in Hr. exact Hr.
Qed.

(** The id that [POST /api/products] hands out is above every id of the
    catalogue. *)
Lemma newId_above ps :
  Forall (fun p => Product.id p < match ps with [] => 1 | _ => maxProductId ps + 1 end) ps.
Proof.
  destruct ps as [|p r]; [constructor|].
  eapply Forall_impl; [apply (maxProductId_ge (p :: r))|].
  intros q Hq. cbv beta in Hq. lia.
Qed.

Lemma express_findIndex_lookup n ps i :
  Express.findIndex n ps = Some i -> exists p, ps !! i = Some p /\ Product.id p = n.
Proof.
  revert i. induction ps as [|p r IH]; intros i; cbn [Express.findIndex]; [discriminate|].
  destruct (Z.eqb_spec (Product.id p) n) as [Heq|Hne].
  - intros [= <-]. exists p. auto.
  - destruct (Express.findIndex n r) as [j|]; cbn [option_map]; [|discriminate].
    intros [= <-]. apply IH. reflexivity.
Qed.

Lemma express_findIndex_none n ps :
  Forall (fun p => Product.id p <> n) ps -> Express.findIndex n ps = None.
Proof.
  induction 1 as [|p r Hp _ IH]; cbn [Express.findIndex]; [reflexivity|].
  destruct (Z.eqb_spec (Product.id p) n); [contradiction|]. rewrite IH. reflexivity.
Qed.

Lemma express_findIndex_last n ps p :
  Forall (fun q => Product.id q <> n) ps -> Product.id p = n ->
  Express.findIndex n (ps ++ [p]) = Some (length ps).
Proof.
  intros Hps Hp. induction Hps as [|q r Hq _ IH]; cbn [Express.findIndex app length].
  - rewrite (proj2 (Z.eqb_eq _ _) Hp). reflexivity.
  - destruct (Z.eqb_spec (Product.id q) n); [contradiction|]. rewrite IH. reflexivity.
Qed.

Lemma find_id_none n ps :
  Forall (fun p => Product.id p <> n) ps ->
  List.find (fun p => Product.id p =? n) ps = None.
Proof.
  induction 1 as [|p r Hp _ IH]; cbn [List.find]; [reflexivity|].
  destruct (Z.eqb_spec (Product.id p) n); [contradiction|]. exact IH.
Qed.

Lemma ids_insert_same i (new old : Product.t) ps :
  ps !! i = Some old -> Product.id new = Product.id old ->
  map Product.id (<[i := new]> ps) = map Product.id ps.
Proof.
  intros Hold Hid. change (map Product.id) with (fmap (M := list) Product.id).
  rewrite list_fmap_insert, Hid.
  apply list_insert_id. rewrite list_lookup_fmap, Hold. reflexivity.
Qed.

End ExpressCatalogue.

(** X24: the ids of the Express catalogue. A catalogue in which no two
    products share an id stays so under the three admin routes, whatever
    the request and whether or not the file can be written: the new
    product gets an id above all the others, an update keeps the id of the
    product, and a deletion takes one product out. *)
Theorem express_catalogue_ids_unique (products : list Product.t) :
  NoDup (map Product.id products) ->
  (forall writeOk b,
      NoDup (map Product.id (snd (ExpressShop.addProduct writeOk b products))))
  /\ (forall writeOk paramId b,
        NoDup (map Product.id (snd (Express.updateProduct writeOk paramId b products))))
  /\ (forall writeOk paramId,
        NoDup (map Product.id (snd (ExpressShop.deleteProduct writeOk paramId products)))).
Proof.
  intros Hnd. split; [|split].
  - intros [|] b; cbn [ExpressShop.addProduct snd]; [|exact Hnd].
    rewrite map_app. cbn [map Product.id].
    apply NoDup_app. split; [exact Hnd|]. split; [|apply NoDup_singleton].
    intros x Hx Hnew. apply list_elem_of_singleton in Hnew. subst x.
    apply list_elem_of_In, in_map_iff in Hx as (p & Hid & Hp).
    pose proof (newId_above products) as Habove. rewrite Forall_forall in Habove.
    specialize (Habove p (proj2 (list_elem_of_In _ _) Hp)). cbv beta in Habove. lia.
  - intros writeOk paramId b. unfold Express.updateProduct.
    destruct (Express.findIndex paramId products) as [i|]; [|exact Hnd].
    destruct (products !! i) as [old|] eqn:Hold; [|exact Hnd].
    destruct writeOk; cbn [snd]; [|exact Hnd].
    rewrite (ids_insert_same i _ old products Hold) by reflexivity. exact Hnd.
  - intros writeOk paramId. unfold ExpressShop.deleteProduct.
    destruct (ExpressShop.findIndexOf paramId products) as [i|]; [|exact Hnd].
    destruct writeOk; cbn [snd]; [|exact Hnd].
    rewrite splice_delete.
    eapply sublist_NoDup; [exact Hnd|].
    change (map Product.id) with (fmap (M := list) Product.id).
    apply fmap_sublist, sublist_delete.
Qed.

Lemma express_catalogue_ids_unique_witness :
  NoDup (map Product.id
           (snd (ExpressShop.addProduct true
                   (ExpressShop.mkNewProductBody "Yoga Mat" 40 "Matras yoga anti slip"
                      "Sports" 5 None) seedProducts))).
Proof.
  apply (express_catalogue_ids_unique seedProducts).
  apply (bool_decide_unpack _). vm_compute. exact I.
Defined.

(** X25: a product of the Express catalogue, added and taken out again.
    The id that [POST /api/products] hands out is above every id of the
    catalogue. With a parameter that [parseInt] reads as that id,
    [GET /api/products/:id] answers with the new product and the DELETE
    gives back the catalogue as it was, in which the id is no longer
    found. No assumption on the ids of the catalogue is needed. *)
Theorem express_product_round_trip (b : ExpressShop.NewProductBody)
    (products : list Product.t) :
  exists newProduct,
    snd (ExpressShop.addProduct true b products) = (products ++ [newProduct])%list
    /\ Forall (fun p => Product.id p < Product.id newProduct) products
    /\ forall paramId,
         JsText.parseInt paramId = Some (Product.id newProduct) ->
         ExpressShop.getProduct paramId (products ++ [newProduct]) = inr newProduct
         /\ ExpressShop.deleteProduct true paramId (products ++ [newProduct])
            = (Express.json 200 "Produk berhasil dihapus" None, products)
         /\ ExpressShop.getProduct paramId products
            = inl (Express.json 404 "Produk tidak ditemukan" None)
         /\ ExpressShop.deleteProduct true paramId products
            = (Express.json 404 "Produk tidak ditemukan" None, products).
Proof.
  set (n := match products with [] => 1 | _ => ExpressShop.maxProductId products + 1 end).
  exists (Product.mk n (ExpressShop.name b) (ExpressShop.description b)
            (ExpressShop.price b) (ExpressShop.category b)
            (match ExpressShop.file b with
             | Some f => "/images/products/" ++ f
             | None => "/images/products/default.jpg"
             end)
            (ExpressShop.stock b) None).
  split; [reflexivity|]. cbn [Product.id].
  pose proof (newId_above products) as Habove. fold n in Habove.
  assert (Hfresh : Forall (fun p => Product.id p <> n) products).
  { eapply Forall_impl; [exact Habove|]. intros p Hp. cbv beta in Hp. lia. }
  split; [exact Habove|]. intros paramId Hparam.
  unfold ExpressShop.getProduct, ExpressShop.deleteProduct, ExpressShop.findIndexOf.
  rewrite Hparam.
  rewrite (find_app_none _ _ _ (find_id_none n products Hfresh)). cbn [Product.id].
  rewrite Z.eqb_refl.
  rewrite (express_findIndex_last n products) by first [exact Hfresh|reflexivity].
  rewrite (find_id_none n products Hfresh), (express_findIndex_none n products Hfresh).
  split; [reflexivity|]. split; [|split; reflexivity].
  f_equal. rewrite splice_delete.
  rewrite delete_take_drop, take_app_length, drop_ge, app_nil_r;
    [reflexivity|rewrite length_app; simpl; lia].
Qed.

Lemma express_product_round_trip_witness :
  exists newProduct,
    snd (ExpressShop.addProduct true
           (ExpressShop.mkNewProductBody "Yoga Mat" 40 "Matras yoga anti slip" "Sports" 5
              None) seedProducts) = (seedProducts ++ [newProduct])%list
    /\ Product.id newProduct = 6
    /\ ExpressShop.getProduct "6" (seedProducts ++ [newProduct]) = inr newProduct
    /\ ExpressShop.deleteProduct true "6" (seedProducts ++ [newProduct])
       = (Express.json 200 "Produk berhasil dihapus" None, seedProducts).
Proof.
  destruct (express_product_round_trip
              (ExpressShop.mkNewProductBody "Yoga Mat" 40 "Matras yoga anti slip" "Sports" 5
                 None) seedProducts) as (newProduct & Hadd & _ & Hround).
  assert (Hid : Product.id newProduct = 6).
  { cbn [ExpressShop.addProduct snd] in Hadd. apply app_inj_tail in Hadd as [_ <-].
    reflexivity. }
  rewrite Hid in Hround. destruct (Hround "6" eq_refl) as (Hget & Hdel & _).
  exists newProduct. auto.
Defined.

(** X26: the orders of the Express server. An order placed through
    [POST /api/orders] is stored as pending under the [id] claim of the
    caller and numbered by counting; when that claim is a number, a string
    or a boolean, [GET /api/orders] then lists the caller's earlier orders
    followed by the new one, and every other caller's list is as before.
    What is listed for a caller is exactly the orders stored under the
    caller's [id]. *)
Theorem express_orders_round_trip (now : Z) (user other : Express.ReqUser)
    (body : JsVal) (orders : list ExpressShop.Order) (r : Response)
    (orders' : list ExpressShop.Order) :
  ExpressShop.createOrder now true user body orders = (r, orders') ->
  statusCode r = 201 ->
  ExpressShop.strictEq (Express.id user) (Express.id user) = true ->
  ExpressShop.strictEq (Express.id user) (Express.id other) = false ->
  exists newOrder,
    orders' = (orders ++ [newOrder])%list
    /\ ExpressShop.id newOrder = Z.of_nat (length orders) + 1
    /\ ExpressShop.userId newOrder = Express.id user
    /\ ExpressShop.status newOrder = "pending"
    /\ ExpressShop.userOrders user orders'
       = (ExpressShop.userOrders user orders ++ [newOrder])%list
    /\ ExpressShop.userOrders other orders' = ExpressShop.userOrders other orders
    /\ (forall o, In o (ExpressShop.userOrders user orders') <->
                  In o orders'
                  /\ ExpressShop.strictEq (ExpressShop.userId o) (Express.id user) = true).
Proof.
  unfold ExpressShop.createOrder.
  destruct (getField "items" body) as [items|]; [|intros [= <- <-]; discriminate].
  destruct (getField "totalAmount" body) as [total|]; [|intros [= <- <-]; discriminate].
  destruct (getField "shippingAddress" body) as [addr|]; [|intros [= <- <-]; discriminate].
  intros [= <- <-] _ Hself Hother. eexists. split; [reflexivity|].
  cbn [ExpressShop.id ExpressShop.userId ExpressShop.status].
  split; [reflexivity|]. split; [reflexivity|]. split; [reflexivity|].
  split; [|split; [|intros o; apply filter_In]].
  - unfold ExpressShop.userOrders. rewrite List.filter_app.
    cbn [List.filter ExpressShop.userId]. rewrite Hself. reflexivity.
  - unfold ExpressShop.userOrders. rewrite List.filter_app.
    cbn [List.filter ExpressShop.userId]. rewrite Hother, app_nil_r. reflexivity.
Qed.

Lemma express_orders_round_trip_witness :
  let user := Express.mkReqUser (JNum 2) (JStr "user@alandstore.com") (JStr "user")
                (JStr "user") in
  let admin := Express.mkReqUser (JNum 1) (JStr "admin@alandstore.com") (JStr "admin")
                 (JStr "admin") in
  let body := JObj [("items", JStr "1 x yoga mat"); ("totalAmount", JNum 40);
                    ("shippingAddress", JStr "Jl. Merdeka 10")] in
  let stored := snd (ExpressShop.createOrder 1700000000000 true user body []) in
  exists newOrder,
    stored = [newOrder]
    /\ ExpressShop.userOrders user stored = [newOrder]
    /\ ExpressShop.userOrders admin stored = [].
Proof.
  intros user admin body stored.
  destruct (express_orders_round_trip 1700000000000 user admin body []
              (fst (ExpressShop.createOrder 1700000000000 true user body [])) stored
              eq_refl eq_refl eq_refl eq_refl)
    as (newOrder & Heq & _ & _ & _ & Hown & Hothers & _).
  exists newOrder. split; [exact Heq|]. split; [exact Hown|exact Hothers].
Defined.

Section ExpressUsers.

Lemma maxId_ge us : Forall (fun u => User.id u <= Express.maxId us) us.
Proof.
  destruct us as [|u r]; [constructor|]. unfold Express.maxId.
  destruct (fold_max_ge (map User.id r) (User.id u)) as [Hu Hr].
  constructor; [exact Hu|]. rewrite Forall_map in Hr. exact Hr.
Qed.

Lemma touchById_insert uid t us i user :
  NoDup (map User.id us) -> us !! i = Some user -> User.id user = uid ->
  Express.touchById uid t us = <[i := Express.withLastLogin user t]> us.
Proof.
  revert i. induction us as [|u r IH]; intros i Hnd Hi Hid; [discriminate|].
  cbn [map] in Hnd. apply NoDup_cons in Hnd as [Hfresh Hnd].
  cbn [Express.touchById]. destruct i as [|i].
  - injection Hi as ->. rewrite (proj2 (Z.eqb_eq _ _) Hid). reflexivity.
  - cbn [lookup list_lookup] in Hi.
    destruct (Z.eqb_spec (User.id u) uid) as [Heq|_].
    + exfalso. apply Hfresh. rewrite Heq, <- Hid.
      apply list_elem_of_In, in_map, list_elem_of_In.
      eapply list_elem_of_lookup_2. exact Hi.
    + rewrite (IH i Hnd Hi Hid). reflexivity.
Qed.

Lemma touchById_ids uid t us :
  map User.id (Express.touchById uid t us) = map User.id us.
Proof.
  induction us as [|u r IH]; [reflexivity|]. cbn [Express.touchById].
  destruct (User.id u =? uid); cbn [map]; [reflexivity|]. rewrite IH. reflexivity.
Qed.

Lemma find_lookup {A} (f : A -> bool) l x :
  List.find f l = Some x -> exists i, l !! i = Some x /\ f x = true.
Proof.
  induction l as [|y r IH]; [discriminate|]. cbn [List.find].
  destruct (f y) eqn:Hy.
  - intros [= <-]. exists O. auto.
  - intros H. destruct (IH H) as (i & Hi & Hx). exists (S i). auto.
Qed.

End ExpressUsers.

(** X27: the users of the Express server. While no two users share an id,
    registration and login keep it so: a registration hands out an id
    above all the others, and a login writes the [lastLogin] of the very
    user whose password was checked, and of no other. *)
Theorem express_users_ids_unique (bcrypt_hash : string -> string)
    (bcrypt_compare : string -> string -> bool) (now : Z) (users : list User.t) :
  NoDup (map User.id users) ->
  (forall writeOk b,
      NoDup (map User.id (snd (Express.register bcrypt_hash now writeOk b users))))
  /\ (forall writeOk b,
        NoDup (map User.id (snd (Express.login bcrypt_compare now writeOk b users))))
  /\ (forall b r users',
        Express.login bcrypt_compare now true b users = (r, users') ->
        statusCode r = 200 ->
        exists i user,
          users !! i = Some user
          /\ toLowerCase (User.email user) = sanitizeInput (toLowerCase (Express.l_email b))
          /\ bcrypt_compare (Express.l_password b) (User.password user) = true
          /\ users' = <[i := Express.withLastLogin user now]> users).
Proof.
  intros Hnd. split; [|split].
  - intros writeOk b. unfold Express.register.
    destruct (List.find _ users); [exact Hnd|].
    destruct writeOk; cbn [snd]; [|exact Hnd].
    rewrite map_app. cbn [map User.id].
    apply NoDup_app. split; [exact Hnd|]. split; [|apply NoDup_singleton].
    intros x Hx Hnew. apply list_elem_of_singleton in Hnew. subst x.
    apply list_elem_of_In, in_map_iff in Hx as (u & Hid & Hu).
    pose proof (maxId_ge users) as Hmax. rewrite Forall_forall in Hmax.
    specialize (Hmax u (proj2 (list_elem_of_In _ _) Hu)). cbv beta in Hmax.
    destruct users; [destruct Hu|]. lia.
  - intros writeOk b. unfold Express.login.
    destruct (List.find _ users) as [user|]; [|exact Hnd].
    destruct (User.isActive user) as [[|]|];
      try (destruct (negb _)); try destruct writeOk; cbn [snd];
      rewrite ?touchById_ids; exact Hnd.
  - intros b r users'. unfold Express.login.
    destruct (List.find _ users) as [user|] eqn:Hfind; [|intros [= <- <-]; discriminate].
    apply find_lookup in Hfind as (i & Hi & Hemail). apply String.eqb_eq in Hemail.
    assert (Hdone : forall out : Response * list User.t,
              out = (if negb (bcrypt_compare (Express.l_password b) (User.password user))
                     then (Express.json 401 "Invalid email or password"
                             (Some "INVALID_CREDENTIALS"), users)
                     else (Express.json 200 "Login successful" None,
                           Express.touchById (User.id user) now users)) ->
              out = (r, users') -> statusCode r = 200 ->
              exists i0 user0,
                users !! i0 = Some user0
                /\ toLowerCase (User.email user0)
                   = sanitizeInput (toLowerCase (Express.l_email b))
                /\ bcrypt_compare (Express.l_password b) (User.password user0) = true
                /\ users' = <[i0 := Express.withLastLogin user0 now]> users).
    { intros out ->.
      destruct (bcrypt_compare (Express.l_password b) (User.password user)) eqn:Hcmp;
        cbn [negb]; intros [= <- <-]; [|discriminate].
      intros _. exists i, user. split; [exact Hi|]. split; [exact Hemail|].
      split; [exact Hcmp|]. apply touchById_insert; [exact Hnd|exact Hi|reflexivity]. }
    destruct (User.isActive user) as [[|]|].
    + apply Hdone. reflexivity.
    + intros [= <- <-]. discriminate.
    + apply Hdone. reflexivity.
Qed.

Lemma express_users_ids_unique_witness :
  NoDup (map User.id
           (snd (Express.register sampleHash 1700000000000 true
                   (Express.mkRegisterBody "alice" "alice@x.com" "Passw0rd!" "Alice A")
                   seedUsers)))
  /\ map User.id
       (snd (Express.register sampleHash 1700000000000 true
               (Express.mkRegisterBody "alice" "alice@x.com" "Passw0rd!" "Alice A")
               seedUsers)) = [1; 2; 3].
Proof.
  split; [|reflexivity].
  apply (express_users_ids_unique sampleHash sampleCompare 1700000000000 seedUsers).
  apply (bool_decide_unpack _). vm_compute. exact I.
Defined.

Section SanitizeObject.

Import Json.

(** Induction on a JSON value, with the hypothesis for every element of
    an array and every value of an object. *)
Lemma json_ind (P : Json.t -> Prop) :
  P Null -> (forall b, P (Bool b)) -> (forall z, P (Num z)) -> (forall s, P (Str s)) ->
  (forall l, Forall P l -> P (Arr l)) ->
  (forall fs, Forall (fun kv => P (snd kv)) fs -> P (Obj fs)) ->
  forall v, P v.
Proof.
  intros HNull HBool HNum HStr HArr HObj.
  fix IH 1. intros [| b | z | s | l | fs].
  - exact HNull.
  - apply HBool.
  - apply HNum.
  - apply HStr.
  - apply HArr. induction l as [|x r IHl]; constructor; [apply IH|exact IHl].
  - apply HObj. induction fs as [|[k x] r IHl]; constructor; [apply IH|exact IHl].
Qed.

End SanitizeObject.

(** X28: the sanitizing middleware of the Express server. After
    [sanitizeObject], no key at any depth of the body contains [$] or a
    dot, and no string that is the value of a key or an element of an
    array contains one of the four markup characters. The keys that stay
    at the top are the unsuspicious keys of the body, in their order. A
    body that is itself a string, a number, a boolean or [null] is handed
    back as it is. *)
Theorem sanitizeObject_cleans (body : Json.t) :
  cleanInside (Sanitize.sanitizeObject body) = true
  /\ keysOf (Sanitize.sanitizeObject body)
     = List.filter (fun key => negb (Sanitize.suspicious key)) (keysOf body)
  /\ (forall s, Sanitize.sanitizeObject (Json.Str s) = Json.Str s).
Proof.
  split; [|split; [|reflexivity]].
  - induction body as [| b | z | s | l IH | fs IH] using json_ind; try reflexivity.
    + cbn [Sanitize.sanitizeObject cleanInside].
      induction IH as [|x r Hx _ IHr]; [reflexivity|].
      cbn [map forallb]. rewrite IHr, andb_true_r.
      destruct x; try exact Hx; try reflexivity. apply stripMarkup_markupFree.
    + cbn [Sanitize.sanitizeObject cleanInside].
      induction IH as [|[k x] r Hx _ IHr]; [reflexivity|].
      destruct (Sanitize.suspicious k) eqn:Hk; [exact IHr|].
      cbn [forallb fst snd]. rewrite Hk, IHr, andb_true_r. cbn [negb andb].
      cbn [snd] in Hx.
      destruct x; try exact Hx; try reflexivity. apply stripMarkup_markupFree.
  - destruct body as [| | | | l | fs]; try reflexivity.
    cbn [Sanitize.sanitizeObject keysOf].
    induction fs as [|[k x] r IH]; [reflexivity|].
    cbn [map List.filter fst]. destruct (Sanitize.suspicious k); cbn [negb]; [exact IH|].
    cbn [map fst]. rewrite IH. reflexivity.
Qed.

Section CartLemmas.

Import Cart.

Lemma addToCart_ids product cart :
  map id (addToCart product cart)
  = if existsb (fun item => id item =? Product.id product) cart
    then map id cart else (map id cart ++ [Product.id product])%list.
Proof.
  induction cart as [|item rest IH]; [reflexivity|].
  cbn [addToCart existsb]. destruct (id item =? Product.id product); cbn [orb map];
    [reflexivity|].
  rewrite IH. destruct (existsb _ rest); reflexivity.
Qed.

Lemma existsb_id_false n cart :
  existsb (fun item => id item =? n) cart = false -> ~ n ∈ map id cart.
Proof.
  intros Hnone Hin. apply list_elem_of_In, in_map_iff in Hin as (item & Hid & Hitem).
  assert (existsb (fun item => id item =? n) cart = true) as Hsome.
  { apply existsb_exists. exists item. split; [exact Hitem|]. apply Z.eqb_eq. exact Hid. }
  congruence.
Qed.

Lemma addToCart_positive product cart :
  Forall (fun item => 0 < quantity item) cart ->
  Forall (fun item => 0 < quantity item) (addToCart product cart).
Proof.
  induction 1 as [|item rest Hitem Hrest IH]; cbn [addToCart].
  - constructor; [cbn; lia|constructor].
  - destruct (id item =? Product.id product).
    + constructor; [cbn; lia|exact Hrest].
    + constructor; [exact Hitem|exact IH].
Qed.

Lemma addToCart_quantityOf product cart n :
  quantityOf n (addToCart product cart)
  = if n =? Product.id product then quantityOf n cart + 1 else quantityOf n cart.
Proof.
  unfold quantityOf. induction cart as [|item rest IH]; cbn [addToCart List.find].
  - cbn [id]. rewrite (Z.eqb_sym (Product.id product) n).
    destruct (n =? Product.id product); reflexivity.
  - destruct (Z.eqb_spec (id item) (Product.id product)) as [Heq|Hne]; cbn [List.find id withQuantity quantity].
    + destruct (Z.eqb_spec (id item) n) as [Hn|Hn].
      * rewrite <- Hn, Heq, Z.eqb_refl. reflexivity.
      * destruct (Z.eqb_spec n (Product.id product)); [congruence|reflexivity].
    + destruct (Z.eqb_spec (id item) n) as [Hn|Hn]; [|exact IH].
      destruct (Z.eqb_spec n (Product.id product)); [congruence|reflexivity].
Qed.

Lemma fold_total_shift cart : forall a,
  fold_left (fun total item => total + quantity item) cart a
  = a + fold_left (fun total item => total + quantity item) cart 0.
Proof.
  induction cart as [|item rest IH]; intros a; cbn [fold_left]; [lia|].
  rewrite (IH (a + quantity item)), (IH (0 + quantity item)). lia.
Qed.

Lemma totalItems_cons item rest : totalItems (item :: rest) = quantity item + totalItems rest.
Proof. unfold totalItems. cbn [fold_left]. rewrite fold_total_shift. lia. Qed.

Lemma addToCart_total product cart :
  totalItems (addToCart product cart) = totalItems cart + 1.
Proof.
  induction cart as [|item rest IH]; cbn [addToCart]; [reflexivity|].
  destruct (id item =? Product.id product); rewrite !totalItems_cons; [cbn; lia|].
  rewrite IH. lia.
Qed.

Lemma setQuantity_ids n q cart : map id (setQuantity n q cart) = map id cart.
Proof.
  induction cart as [|item rest IH]; [reflexivity|]. cbn [setQuantity].
  destruct (id item =? n); cbn [map]; [reflexivity|]. rewrite IH. reflexivity.
Qed.

Lemma setQuantity_positive n q cart :
  0 < q -> Forall (fun item => 0 < quantity item) cart ->
  Forall (fun item => 0 < quantity item) (setQuantity n q cart).
Proof.
  intros Hq. induction 1 as [|item rest Hitem Hrest IH]; cbn [setQuantity]; [constructor|].
  destruct (id item =? n); constructor; auto.
Qed.

Lemma setQuantity_quantityOf n q cart m :
  quantityOf m (setQuantity n q cart)
  = if (m =? n) && existsb (fun item => id item =? n) cart then q else quantityOf m cart.
Proof.
  unfold quantityOf. induction cart as [|item rest IH]; cbn [setQuantity List.find existsb].
  - rewrite andb_false_r. reflexivity.
  - destruct (Z.eqb_spec (id item) n) as [Heq|Hne]; cbn [List.find id orb withQuantity quantity].
    + rewrite andb_true_r. destruct (Z.eqb_spec (id item) m) as [Hm|Hm].
      * rewrite <- Hm, Heq, Z.eqb_refl. reflexivity.
      * destruct (Z.eqb_spec m n); [congruence|reflexivity].
    + destruct (Z.eqb_spec (id item) m) as [Hm|Hm]; [|exact IH].
      destruct (Z.eqb_spec m n); [congruence|reflexivity].
Qed.

Lemma removeFromCart_quantityOf n cart m :
  quantityOf m (removeFromCart n cart) = if m =? n then 0 else quantityOf m cart.
Proof.
  unfold quantityOf, removeFromCart.
  induction cart as [|item rest IH]; cbn [List.filter List.find].
  - destruct (m =? n); reflexivity.
  - destruct (Z.eqb_spec (id item) n) as [Heq|Hne]; cbn [negb List.find].
    + rewrite IH. destruct (Z.eqb_spec (id item) m) as [Hm|Hm]; [|reflexivity].
      rewrite <- Hm, Heq, Z.eqb_refl. reflexivity.
    + destruct (Z.eqb_spec (id item) m) as [Hm|Hm]; [|exact IH].
      destruct (Z.eqb_spec m n); [congruence|reflexivity].
Qed.

Lemma list_filter_sublist {A} (f : A -> bool) l : List.filter f l `sublist_of` l.
Proof.
  induction l as [|x r IH]; cbn [List.filter]; [constructor|].
  destruct (f x); [apply sublist_skip|apply sublist_cons]; exact IH.
Qed.

Lemma removeFromCart_ok n cart : cartOk cart -> cartOk (removeFromCart n cart).
Proof.
  intros [Hnd Hpos]. unfold removeFromCart. split.
  - eapply sublist_NoDup; [exact Hnd|].
    change (map id) with (fmap (M := list) id).
    apply fmap_sublist, list_filter_sublist.
  - apply Forall_forall. intros item Hitem. rewrite Forall_forall in Hpos.
    apply Hpos. apply list_elem_of_In in Hitem. apply filter_In in Hitem as [Hitem _].
    apply list_elem_of_In. exact Hitem.
Qed.

End CartLemmas.

Section CartOk.

Import Cart.

Lemma quantityOf_line n cart :
  Forall (fun item => 0 < quantity item) cart ->
  existsb (fun item => id item =? n) cart = (0 <? quantityOf n cart).
Proof.
  unfold quantityOf. induction 1 as [|item rest Hitem _ IH]; [reflexivity|].
  cbn [existsb List.find]. destruct (id item =? n); cbn [orb]; [|exact IH].
  symmetry. apply Z.ltb_lt. exact Hitem.
Qed.

Lemma addToCart_ok product cart : cartOk cart -> cartOk (addToCart product cart).
Proof.
  intros [Hnd Hpos]. split; [|apply addToCart_positive; exact Hpos].
  rewrite addToCart_ids.
  destruct (existsb _ cart) eqn:Hline; [exact Hnd|].
  apply NoDup_app. split; [exact Hnd|]. split; [|apply NoDup_singleton].
  intros x Hx Hnew. apply list_elem_of_singleton in Hnew. subst x.
  exact (existsb_id_false _ _ Hline Hx).
Qed.

Lemma updateQuantity_ok n q cart : cartOk cart -> cartOk (updateQuantity n q cart).
Proof.
  intros Hok. unfold updateQuantity. destruct (Z.leb_spec q 0) as [Hq|Hq].
  - apply removeFromCart_ok. exact Hok.
  - destruct Hok as [Hnd Hpos]. split.
    + rewrite setQuantity_ids. exact Hnd.
    + apply setQuantity_positive; assumption.
Qed.

End CartOk.

(** X29: the cart of the client. A cart with one line per product and
    positive quantities stays so under [addToCart], [removeFromCart] and
    [updateQuantity]. Adding a product raises its quantity, and the count
    of the cart, by one and leaves the other lines alone; removing a
    product takes its line out; [updateQuantity] with a quantity that is
    not positive removes the line, with a positive one it sets the
    quantity of a product that has a line and does nothing for a product
    that has none. *)
Theorem cart_one_line_per_product (cart : list Cart.Item) (product : Product.t)
    (productId newQuantity : Z) :
  cartOk cart ->
  cartOk (Cart.addToCart product cart)
  /\ cartOk (Cart.removeFromCart productId cart)
  /\ cartOk (Cart.updateQuantity productId newQuantity cart)
  /\ Cart.totalItems (Cart.addToCart product cart) = Cart.totalItems cart + 1
  /\ (forall n, quantityOf n (Cart.addToCart product cart)
                = if n =? Product.id product then quantityOf n cart + 1
                  else quantityOf n cart)
  /\ (forall n, quantityOf n (Cart.removeFromCart productId cart)
                = if n =? productId then 0 else quantityOf n cart)
  /\ (forall n, quantityOf n (Cart.updateQuantity productId newQuantity cart)
                = if n =? productId
                  then (if (newQuantity <=? 0) || (quantityOf n cart =? 0) then 0
                        else newQuantity)
                  else quantityOf n cart).
Proof.
  intros Hok.
  split; [apply addToCart_ok; exact Hok|].
  split; [apply removeFromCart_ok; exact Hok|].
  split; [apply updateQuantity_ok; exact Hok|].
  split; [apply addToCart_total|].
  split; [intros n; apply addToCart_quantityOf|].
  split; [intros n; apply removeFromCart_quantityOf|].
  intros n. unfold Cart.updateQuantity.
  destruct (Z.leb_spec newQuantity 0) as [Hq|Hq]; cbn [orb].
  - apply removeFromCart_quantityOf.
  - rewrite setQuantity_quantityOf.
    destruct (Z.eqb_spec n productId) as [->|Hne]; cbn [andb]; [|reflexivity].
    destruct Hok as [_ Hpos]. rewrite (quantityOf_line productId cart Hpos).
    destruct (Z.ltb_spec 0 (quantityOf productId cart)) as [Hline|Hnone].
    + destruct (Z.eqb_spec (quantityOf productId cart) 0); [lia|reflexivity].
    + assert (H0 : 0 <= quantityOf productId cart).
      { unfold quantityOf. destruct (List.find _ cart) as [item|] eqn:Hfind; [|lia].
        apply find_some in Hfind as [Hin _]. rewrite Forall_forall in Hpos.
        specialize (Hpos item (proj2 (list_elem_of_In _ _) Hin)). cbv beta in Hpos. lia. }
      destruct (Z.eqb_spec (quantityOf productId cart) 0); [lia|lia].
Qed.

Lemma cart_one_line_per_product_witness :
  let cart := Cart.addToCart yogaMat (Cart.addToCart yogaMat []) in
  map Cart.quantity cart = [2]
  /\ cartOk (Cart.updateQuantity 6 1 cart)
  /\ Cart.totalItems (Cart.addToCart yogaMat cart) = 3.
Proof.
  cbv zeta.
  assert (Hok : cartOk (Cart.addToCart yogaMat (Cart.addToCart yogaMat []))).
  { split; [apply (bool_decide_unpack _); vm_compute; exact I|].
    repeat constructor. }
  destruct (cart_one_line_per_product _ yogaMat 6 1 Hok) as (_ & _ & Hupd & Htotal & _).
  split; [reflexivity|]. split; [exact Hupd|]. rewrite Htotal. reflexivity.
Defined.

Section CacheLemmas.

Context {A : Type}.

Lemma clearCacheByPattern_lookup pattern (cache : gmap string (ApiCache.Entry A)) k :
  ApiCache.clearCacheByPattern pattern cache !! k
  = if includes pattern k then None else cache !! k.
Proof.
  unfold ApiCache.clearCacheByPattern.
  destruct (includes pattern k) eqn:Hk.
  - apply map_lookup_filter_None. right. intros x _ Hx. cbn in Hx. congruence.
  - destruct (cache !! k) as [x|] eqn:Hx.
    + apply map_lookup_filter_Some. split; [exact Hx|exact Hk].
    + apply map_lookup_filter_None. left. exact Hx.
Qed.

End CacheLemmas.

(** X30: the cache of the API client. What [setCachedData] stored is
    handed back by [getCachedData] as long as the clock is at most the
    time to live past the time of storing, and the cache stays as it is;
    once the clock is further, the answer is [null] and the entry is gone,
    so that it is not served again even if the clock goes back. Neither
    function touches another key, and [clearCacheByPattern] drops exactly
    the keys that contain the pattern. *)
Theorem cache_round_trip {A : Type} (cache : gmap string (ApiCache.Entry A))
    (key : string) (d : A) (ttl t0 t : Z) :
  let stored := ApiCache.setCachedData t0 key d ttl cache in
  (t - t0 <= ttl -> ApiCache.getCachedData t key stored = (Some d, stored))
  /\ (ttl < t - t0 ->
      fst (ApiCache.getCachedData t key stored) = None
      /\ forall t', fst (ApiCache.getCachedData t' key
                           (snd (ApiCache.getCachedData t key stored))) = None)
  /\ (forall k, k <> key ->
        stored !! k = cache !! k
        /\ snd (ApiCache.getCachedData t key stored) !! k = cache !! k)
  /\ (forall pattern k,
        ApiCache.clearCacheByPattern pattern stored !! k
        = if includes pattern k then None else stored !! k).
Proof.
  cbv zeta. unfold ApiCache.setCachedData, ApiCache.getCachedData.
  rewrite lookup_insert_eq. cbn [ApiCache.ttl ApiCache.timestamp ApiCache.data].
  split; [|split; [|split]].
  - intros Hfresh. destruct (Z.ltb_spec ttl (t - t0)); [lia|reflexivity].
  - intros Hstale. destruct (Z.ltb_spec ttl (t - t0)); [|lia]. cbn [fst snd].
    split; [reflexivity|]. intros t'. rewrite lookup_delete_eq. reflexivity.
  - intros k Hk. split; [apply lookup_insert_ne; congruence|].
    destruct (ttl <? t - t0); cbn [snd].
    + rewrite lookup_delete_ne by congruence. apply lookup_insert_ne. congruence.
    + apply lookup_insert_ne. congruence.
  - intros pattern k. apply clearCacheByPattern_lookup.
Qed.
